(** * ETL pipeline demo: a shallow embedding of [ETLPipeline] (src/etl_demo.py)
      and of the data set generator (src/dataset_generator.py)

    The pipeline is a pandas program.  A data frame is modelled as the list
    of its rows (the frames of this program carry pandas' default
    [RangeIndex], so position and label coincide), a column operation as the
    corresponding map over the rows, and the pipeline object as a record
    threaded through a small state-and-exception monad.

    Numbers.  Python and pandas store [price], [quantity], [total_amount]
    and every sum of them as IEEE 754 binary64 numbers.  They are modelled
    by [float64]: a rational (the exact value of a finite double), one of
    the two infinities, or NaN.  Every arithmetic operation rounds its exact
    result to the nearest double, ties to even, and overflows to an
    infinity ([b64]); the special values behave as IEEE prescribes (NaN
    compares false with everything, [x / 0] is an infinity or NaN and raises
    nothing).  The sign of zero is not modelled: the only zeros the pipeline
    divides by are sums that start from [+0.0], and those are never
    [-0.0]. *)

From Stdlib Require Import ZArith QArith Qround Qabs Qpower Lia Lqa Ascii String.
From stdpp Require Import base option list strings pretty gmap sorting relations.

Open Scope Z_scope.

(** ** Numbers *)

Inductive float64 : Type :=
  | Fin (q : Q)
  | PInf
  | NInf
  | NaN.

Definition f0 : float64 := Fin 0.

Definition of_Z (z : Z) : float64 := Fin (inject_Z z).

Definition isna (x : float64) : bool :=
  match x with NaN => true | _ => false end.

Definition is_finite (x : float64) : bool :=
  match x with Fin _ => true | _ => false end.

(** [x < y] and [x <= y] on doubles; a comparison with NaN is false. *)
Definition fltb (x y : float64) : bool :=
  match x, y with
  | NaN, _ | _, NaN => false
  | Fin a, Fin b => negb (Qle_bool b a)
  | NInf, NInf => false
  | NInf, _ => true
  | Fin _, PInf => true
  | _, _ => false
  end.

Definition fleb (x y : float64) : bool :=
  match x, y with
  | NaN, _ | _, NaN => false
  | Fin a, Fin b => Qle_bool a b
  | NInf, _ => true
  | _, PInf => true
  | _, _ => false
  end.

Definition fgtb (x y : float64) : bool := fltb y x.

(** [x == y] on doubles. *)
Definition feqb (x y : float64) : bool := fleb x y && fleb y x.

Definition fneg (x : float64) : float64 :=
  match x with
  | Fin a => Fin (Qred (- a))
  | PInf => NInf
  | NInf => PInf
  | NaN => NaN
  end.

(** Round half to even to the nearest integer. *)
Definition rint (q : Q) : Z :=
  let n := Qnum q in
  let d := Zpos (Qden q) in
  let lo := n / d in
  let r := n mod d in
  match (2 * r ?= d) with
  | Lt => lo
  | Gt => lo + 1
  | Eq => if Z.even lo then lo else lo + 1
  end.

(** *** Rounding to binary64

    A double has 53 significant bits and a binary exponent from -1074 (the
    subnormal numbers) up; its magnitude stays below 2^1024. *)

(** [floor (log2 x)] for a positive rational. *)
Definition floor_log2 (x : Q) : Z :=
  let k := Z.log2 (Qnum x) - Z.log2 (Zpos (Qden x)) in
  if Qle_bool (2 ^ k) x then k else k - 1.

(** The doubles around a positive [x] are the multiples of [2 ^ grid x]. *)
Definition grid (x : Q) : Z := Z.max (floor_log2 x - 52) (-1074).

(** The multiple of [2 ^ grid x] nearest to [x], ties to the even one. *)
Definition rounded (x : Q) : Q := inject_Z (rint (x / 2 ^ grid x)) * 2 ^ grid x.

Definition round_pos (x : Q) : float64 :=
  let y := rounded x in
  if Qle_bool (2 ^ 1024) y then PInf else Fin (Qred y).

(** The double nearest to the rational [x]: what an arithmetic operation
    delivers for the exact result [x], and what reading the decimal numeral
    of [x] delivers. *)
Definition b64 (x : Q) : float64 :=
  let r := Qred x in
  match Qnum r with
  | Z0 => Fin 0
  | Zpos _ => round_pos r
  | Zneg _ => fneg (round_pos (- r))
  end.

(** The finite doubles: the rationals [M * 2^E] with at most 53 bits, an
    exponent a double can carry and a magnitude below 2^1024, in lowest
    terms. *)
Definition is_double (r : Q) : Prop :=
  Qred r = r /\
  exists M E : Z, (r == inject_Z M * 2 ^ E)%Q /\ Z.abs M <= 2 ^ 53 /\ -1074 <= E /\
    (Qabs r < 2 ^ 1024)%Q.

(** *** Arithmetic *)

Definition fadd (x y : float64) : float64 :=
  match x, y with
  | NaN, _ | _, NaN => NaN
  | Fin a, Fin b => b64 (a + b)
  | PInf, NInf | NInf, PInf => NaN
  | PInf, _ | _, PInf => PInf
  | NInf, _ | _, NInf => NInf
  end.

Definition fsub (x y : float64) : float64 := fadd x (fneg y).

(** The infinity of the sign of [s * t], NaN when one of them is zero. *)
Definition inf_of_sign (s : comparison) (positive : bool) : float64 :=
  match s with
  | Eq => NaN
  | Gt => if positive then PInf else NInf
  | Lt => if positive then NInf else PInf
  end.

Definition fmul (x y : float64) : float64 :=
  match x, y with
  | NaN, _ | _, NaN => NaN
  | Fin a, Fin b => b64 (a * b)
  | Fin a, PInf | PInf, Fin a => inf_of_sign (a ?= 0)%Q true
  | Fin a, NInf | NInf, Fin a => inf_of_sign (a ?= 0)%Q false
  | PInf, PInf | NInf, NInf => PInf
  | PInf, NInf | NInf, PInf => NInf
  end.

(** numpy's true division, and Python's for a divisor that is not zero:
    numpy divides by zero into an infinity, or NaN for [0 / 0], with a
    RuntimeWarning and no exception. *)
Definition fdiv (x y : float64) : float64 :=
  match x, y with
  | NaN, _ | _, NaN => NaN
  | Fin a, Fin b =>
      if Qeq_bool b 0 then inf_of_sign (a ?= 0)%Q true
      else b64 (a / b)
  | Fin _, _ => Fin 0
  | PInf, Fin b => if Qle_bool 0 b then PInf else NInf
  | NInf, Fin b => if Qle_bool 0 b then NInf else PInf
  | _, _ => NaN
  end.

(** [abs(x)] on a double. *)
Definition fabs (x : float64) : float64 :=
  match x with
  | Fin q => Fin (Qred (Qabs q))
  | PInf | NInf => PInf
  | NaN => NaN
  end.

(** Python's [round(x, ndigits)] on a [float]: the exact value of [x] is
    rounded half to even to [ndigits] decimals, and the double nearest to
    that decimal is returned ([float.__round__] rounds correctly). *)
Definition py_round (ndigits : Z) (x : float64) : float64 :=
  match x with
  | Fin q => b64 (inject_Z (rint (q * inject_Z (10 ^ ndigits))) / inject_Z (10 ^ ndigits))
  | _ => x
  end.

Definition round2 (x : float64) : float64 := py_round 2 x.
Definition round1 (x : float64) : float64 := py_round 1 x.

(** [np.rint] on a double. *)
Definition frint (x : float64) : float64 :=
  match x with
  | Fin q => of_Z (rint q)
  | _ => x
  end.

(** [round(x, 2)] on a [numpy.float64]: numpy's [__round__] is
    [np.round], which multiplies by 100, rounds to the nearest integer and
    divides by 100, each step in double arithmetic. *)
Definition np_round2 (x : float64) : float64 :=
  fdiv (frint (fmul x (of_Z 100))) (of_Z 100).

(** ** Cells and rows *)

(** A cell of the raw table as Extract delivers it: a number, text that
    spells no number, or a missing value.  A cell that spells a number is
    the [Number] it spells; the rational of a finite number is read as the
    double nearest to it, as a parser reads a decimal numeral. *)
Inductive cell : Type :=
  | Number (x : float64)
  | Text (s : string)
  | Null.

(** The double a number stands for. *)
Definition to_double (x : float64) : float64 :=
  match x with
  | Fin q => b64 q
  | _ => x
  end.

(** [pd.to_numeric(column, errors='coerce')], cell by cell. *)
Definition to_numeric (c : cell) : float64 :=
  match c with
  | Number x => to_double x
  | Text _ | Null => NaN
  end.

Record Date : Type := mkDate { year : Z; month_of_year : Z; day : Z }.

(** A cell of [order_date]: text that spells a calendar day, as both
    generators write it with [strftime('%Y-%m-%d')], or text that spells no
    date and a missing value.  A date with a time of day or a time zone is
    outside the model. *)
Inductive datecell : Type :=
  | Day (d : Date)
  | NotADate.

(** [pd.to_datetime(column, errors='coerce')]; [None] is NaT. *)
Definition to_datetime (c : datecell) : option Date :=
  match c with
  | Day d => Some d
  | NotADate => None
  end.

(** [.dt.to_period('M')] and [.dt.to_period('Q')]: a period is its ordinal,
    the number of months (quarters) since January 1970. *)
Definition to_period_M (d : Date) : Z := (year d - 1970) * 12 + (month_of_year d - 1).
Definition to_period_Q (d : Date) : Z := (year d - 1970) * 4 + (month_of_year d - 1) / 3.

(** The number of days from 1 January 1970 to the calendar day [d], in
    the proleptic Gregorian calendar. *)
Definition days_from_civil (d : Date) : Z :=
  let y := if month_of_year d <=? 2 then year d - 1 else year d in
  let era := y / 400 in
  let yoe := y - era * 400 in
  let mp := (month_of_year d + 9) mod 12 in
  let doy := (153 * mp + 2) / 5 + day d - 1 in
  let doe := yoe * 365 + yoe / 4 - yoe / 100 + doy in
  era * 146097 + doe - 719468.

(** [.dt.weekday]: Monday is 0; 1 January 1970 was a Thursday. *)
Definition weekday (d : Date) : Z := (days_from_civil d + 3) mod 7.

(** What the wall clock reads: the calendar day, and the time of day as
    [strftime("%H:%M:%S")] prints it. *)
Record datetime : Type := mkDatetime { date : Date; clock_time : string }.

(** The columns of the raw table that the pipeline reads, each a column of
    text, of numbers or of missing values.  The other columns of the input
    are carried along unchanged and are left out. *)
Module Raw.
Record Row : Type := mkRow {
  order_id : string;
  customer_id : option string;
  category : option string;
  region : option string;
  customer_email : cell;
  price : cell;
  quantity : cell;
  discount_percent : cell;
  total_amount : cell;
  order_date : datecell
}.
End Raw.

(** The raw frame: [pd.DataFrame(records)] delivers a table with the
    columns above, and so does [pd.read_csv] of an upload, which is taken to
    carry the pipeline's header line; [pd.DataFrame([])], built from no
    record at all, has no rows and no columns. *)
Inductive RawFrame : Type :=
  | NoColumns
  | Table (records : list Raw.Row).

(** [pd.DataFrame(data)] for a list of records. *)
Definition DataFrame_of_records (data : list Raw.Row) : RawFrame :=
  match data with
  | [] => NoColumns
  | _ => Table data
  end.

(** [len(df)]. *)
Definition len (df : RawFrame) : nat :=
  match df with
  | NoColumns => 0%nat
  | Table records => length records
  end.

(** A row after the type conversions of step 1 of [transform_data]. *)
Record Typed : Type := mkTyped {
  order_id : string;
  customer_id : option string;
  category : option string;
  region : option string;
  customer_email : cell;
  price : float64;
  quantity : float64;
  discount_percent : cell;
  total_amount : float64;
  order_date : option Date
}.

(** A row of the processed table: the converted columns and the columns
    that steps 3 and 4 add. *)
Record Row : Type := mkRow {
  base :> Typed;
  price_tier : option string;
  revenue : float64;
  month : option Z;
  quarter : option Z;
  customer_segment : string;
  days_since_order : option Z;
  is_weekend_order : bool
}.

(** The processed frame.  The column [data_quality_flag] exists only once
    some rule has written to it: [None] is the frame without the column,
    [Some flags] the column with one optional label per row. *)
Record DataFrame : Type := mkDataFrame {
  rows : list Row;
  data_quality_flag : option (list (option string))
}.

Record Report : Type := mkReport {
  total_records : Z;
  clean_records : Z;
  error_records : Z;
  data_quality_score : float64;
  quality_issues : list string
}.

Record Insights : Type := mkInsights {
  total_revenue : float64;
  avg_order_value : float64;
  total_orders : Z;
  unique_customers : Z;
  top_category : string;
  best_region : string;
  monthly_growth : float64
}.

(** ** Exceptions and the pipeline object *)

Inductive exn : Type :=
  | ZeroDivisionError
  | IndexingError
  | ValueError
  | AttributeError
  | KeyError.

Inductive result (A : Type) : Type :=
  | Ok (a : A)
  | Raise (e : exn).
Arguments Ok {A} a.
Arguments Raise {A} e.

(** [data_quality_report] starts as the empty dict, [None] here. *)
Record ETLPipeline : Type := mkETLPipeline {
  raw_data : option RawFrame;
  processed_data : option DataFrame;
  data_quality_report : option Report;
  processing_logs : list string
}.

Definition __init__ : ETLPipeline :=
  {| raw_data := None; processed_data := None;
     data_quality_report := None; processing_logs := [] |}.

(** A method of the pipeline: it reads and updates [self] and returns a
    value or raises.  What it did to [self] before raising stays done. *)
Definition M (A : Type) : Type := ETLPipeline -> result A * ETLPipeline.

Global Instance M_ret : MRet M := fun A a self => (Ok a, self).
Global Instance M_bind : MBind M := fun A B f m self =>
  match m self with
  | (Ok a, self') => f a self'
  | (Raise e, self') => (Raise e, self')
  end.

Definition get_self : M ETLPipeline := fun self => (Ok self, self).

Definition lift {A : Type} (r : result A) : M A := fun self => (r, self).

Definition set_data_quality_report (r : Report) : M unit := fun self =>
  (Ok tt, {| raw_data := raw_data self; processed_data := processed_data self;
             data_quality_report := Some r; processing_logs := processing_logs self |}).

Definition set_processed_data (df : DataFrame) : M unit := fun self =>
  (Ok tt, {| raw_data := raw_data self; processed_data := Some df;
             data_quality_report := data_quality_report self;
             processing_logs := processing_logs self |}).

(** [log]: [now] is what [dt.datetime.now()] returns at the call.  The
    emoji that opens each message of the callers is left out. *)
Definition log (now : datetime) (message : string) : M string := fun self =>
  let timestamp := clock_time now in
  let log_entry := "[" +:+ timestamp +:+ "] " +:+ message in
  (Ok log_entry, {| raw_data := raw_data self; processed_data := processed_data self;
                    data_quality_report := data_quality_report self;
                    processing_logs := processing_logs self ++ [log_entry] |}).

(** ** [transform_data], step by step *)

(** [df[column]] on the raw frame, for any of the columns above: a frame
    without columns raises KeyError. *)
Definition getitem_columns (df : RawFrame) : result (list Raw.Row) :=
  match df with
  | NoColumns => Raise KeyError
  | Table records => Ok records
  end.

(** Step 1 (lines 139-142): the four conversions, row by row. *)
Definition convert_types (r : Raw.Row) : Typed :=
  {| order_id := Raw.order_id r;
     customer_id := Raw.customer_id r;
     category := Raw.category r;
     region := Raw.region r;
     customer_email := Raw.customer_email r;
     price := to_numeric (Raw.price r);
     quantity := to_numeric (Raw.quantity r);
     discount_percent := Raw.discount_percent r;
     total_amount := to_numeric (Raw.total_amount r);
     order_date := to_datetime (Raw.order_date r) |}.

Definition is_text (c : cell) : bool :=
  match c with Text _ => true | _ => false end.

(** [column.str]: the accessor exists for a column of text only.  A
    column is one of text when a cell of it is text, or when it has no cell
    at all; a column of nothing but numbers or missing values is a numeric
    column, and asking for [.str] raises AttributeError. *)
Definition str (column : list cell) : result (list cell) :=
  if (length column =? 0)%nat || existsb is_text column then Ok column
  else Raise AttributeError.

Fixpoint contains_at (s : string) : bool :=
  match s with
  | EmptyString => false
  | String c s' => if Ascii.eqb c "@"%char then true else contains_at s'
  end.

(** [.str.contains('@', na=False)] on one cell of a text column: a cell
    that is missing, or that spells a number, holds no at-sign. *)
Definition str_contains_at (e : cell) : bool :=
  match e with
  | Text s => contains_at s
  | Number _ | Null => false
  end.

(** The three masks of step 2. *)
Definition email_invalid (r : Typed) : bool := negb (str_contains_at (customer_email r)).
Definition price_invalid (r : Typed) : bool := fleb (price r) f0.
Definition quantity_invalid (r : Typed) : bool := fleb (quantity r) f0.

(** [mask.sum()]: the number of [True] entries. *)
Fixpoint mask_sum (mask : list bool) : nat :=
  match mask with
  | [] => 0%nat
  | b :: mask' => ((if b then 1 else 0) + mask_sum mask')%nat
  end.

(** [df.loc[mask, 'data_quality_flag'] = label] on a frame of [n] rows:
    a column that does not exist yet is created empty (all missing), then
    the rows under the mask are overwritten, whatever they held. *)
Definition loc_set (mask : list bool) (label : string) (n : nat)
    (col : option (list (option string))) : option (list (option string)) :=
  Some (zip_with (fun (m : bool) old => if m then Some label else old)
          mask (default (replicate n None) col)).

(** One of the three validation blocks: count the rows under the mask and,
    when there are any, record the issue and write the label. *)
Definition flag_rule (issue label : string) (mask : list bool) (n : nat)
    (st : list string * option (list (option string)))
    : list string * option (list (option string)) :=
  let invalid := mask_sum mask in
  if (0 <? invalid)%nat
  then (st.1 ++ [issue +:+ ": " +:+ pretty invalid], loc_set mask label n st.2)
  else st.

(** Step 2 (lines 148-164) once the [.str] accessor of line 148 exists:
    emails, then prices, then quantities. *)
Definition validate (df : list Typed) : list string * option (list (option string)) :=
  let n := length df in
  let st := ([], None) in
  let st := flag_rule "Invalid emails" "Invalid Email" (email_invalid <$> df) n st in
  let st := flag_rule "Invalid prices" "Invalid Price" (price_invalid <$> df) n st in
  let st := flag_rule "Invalid quantities" "Invalid Quantity" (quantity_invalid <$> df) n st in
  st.

(** [pd.cut(x, bins, labels)] with its defaults [right=True] and
    [include_lowest=False]: [searchsorted(side='left')] finds the first bin
    edge that is not below [x]; a value at or below the first edge, above
    the last one, or missing, gets no label.  (numpy sorts a missing value
    behind every edge, the scan below stops at the first edge; [cut] masks
    a missing value before it looks at the position.) *)
Definition bins : list float64 := [f0; of_Z 50; of_Z 200; of_Z 500; PInf].
Definition labels : list string := ["Budget"; "Mid-range"; "Premium"; "Luxury"].

Fixpoint searchsorted_left (edges : list float64) (x : float64) : nat :=
  match edges with
  | [] => 0%nat
  | b :: edges' => if fltb b x then S (searchsorted_left edges' x) else 0%nat
  end.

Definition cut (x : float64) : option string :=
  let ids := searchsorted_left bins x in
  if isna x || (ids =? length bins)%nat || (ids =? 0)%nat then None
  else labels !! (ids - 1)%nat.

(** *** Sums

    A group-by sum is pandas' own loop [group_sum]: per group a running
    sum with Kahan's compensation, missing values skipped, a compensation
    that is NaN (an infinity was added) reset to zero. *)
Record Kahan : Type := mkKahan { sumx : float64; compensation : float64 }.

Definition kahan0 : Kahan := {| sumx := f0; compensation := f0 |}.

Definition kahan_add (acc : Kahan) (val : float64) : Kahan :=
  if isna val then acc
  else
    let y := fsub val (compensation acc) in
    let t := fadd (sumx acc) y in
    let c := fsub (fsub t (sumx acc)) y in
    {| sumx := t; compensation := if isna c then f0 else c |}.

(** The sum of one group: its values in row order. *)
Definition group_sum (vs : list float64) : float64 :=
  sumx (fold_left kahan_add vs kahan0).

(** [Series.sum()] replaces the missing values by 0 and calls numpy's
    [sum], which adds pairwise: fewer than 8 values one after the other;
    up to 128 values with 8 running sums over blocks of 8, combined as a
    tree, and the remaining values one after the other; more values as
    the sum of the sums of two parts, the first a multiple of 8 long. *)
Definition fillna0 (v : float64) : float64 := if isna v then f0 else v.

Definition sum_loop (res : float64) (a : list float64) : float64 := fold_left fadd a res.

Fixpoint add_blocks (blocks : nat) (r a : list float64) : list float64 * list float64 :=
  match blocks with
  | O => (r, a)
  | S blocks' => add_blocks blocks' (zip_with fadd r (take 8 a)) (drop 8 a)
  end.

Definition unrolled_sum (a : list float64) : float64 :=
  let '(r, rest) := add_blocks (length a / 8 - 1) (take 8 a) (drop 8 a) in
  match r with
  | [r0; r1; r2; r3; r4; r5; r6; r7] =>
      sum_loop (fadd (fadd (fadd r0 r1) (fadd r2 r3)) (fadd (fadd r4 r5) (fadd r6 r7))) rest
  | _ => sum_loop f0 a
  end.

(** [fuel] bounds the depth of the recursion; the length of the list is
    more than enough. *)
Fixpoint pairwise_sum (fuel : nat) (a : list float64) : float64 :=
  let n := length a in
  if (n <? 8)%nat then sum_loop f0 a
  else if (n <=? 128)%nat then unrolled_sum a
  else
    match fuel with
    | O => NaN
    | S fuel' =>
        let n2 := (n / 2 - (n / 2) mod 8)%nat in
        fadd (pairwise_sum fuel' (take n2 a)) (pairwise_sum fuel' (drop n2 a))
    end.

Definition nansum (vs : list float64) : float64 :=
  pairwise_sum (length vs) (fillna0 <$> vs).

(** [df.groupby('customer_id')['total_amount'].sum()]: rows without a
    customer id belong to no group.  The series is only read through
    [.get], so it is kept as a finite map. *)
Definition customer_totals (df : list Typed) : gmap string float64 :=
  sumx <$>
    fold_left
      (fun (acc : gmap string Kahan) r =>
         match customer_id r with
         | Some k => <[k := kahan_add (default kahan0 (acc !! k)) (total_amount r)]> acc
         | None => acc
         end)
      df ∅.

(** [customer_totals.get(x, 0)]. *)
Definition totals_get (totals : gmap string float64) (x : option string) : float64 :=
  match x with
  | Some k => default f0 (totals !! k)
  | None => f0
  end.

(** The lambda of lines 182-184. *)
Definition segment (totals : gmap string float64) (x : option string) : string :=
  if fgtb (totals_get totals x) (of_Z 1000) then "VIP"
  else if fgtb (totals_get totals x) (of_Z 300) then "Regular"
  else "New".

(** Steps 3 and 4 (lines 170-190).  [today] is the calendar day of
    [pd.Timestamp.now()] at line 189; an order date is the midnight of its
    day, so the whole days since the order are the days between the two
    calendar days. *)
Definition enrich (today : Date) (df : list Typed) : list Row :=
  let totals := customer_totals df in
  (fun r : Typed =>
     {| base := r;
        price_tier := cut (price r);
        revenue := total_amount r;
        month := to_period_M <$> order_date r;
        quarter := to_period_Q <$> order_date r;
        customer_segment := segment totals (customer_id r);
        days_since_order :=
          (fun d => days_from_civil today - days_from_civil d) <$> order_date r;
        is_weekend_order :=
          match order_date r with
          | Some d => 5 <=? weekday d
          | None => false
          end |}) <$> df.

(** [df[key]] for a boolean series [key].  When the index of [key] is not
    the frame's, pandas aligns [key] to the frame and raises if a row of
    the frame has no entry in [key]; with range indexes that is when [key]
    is the shorter one. *)
Fixpoint take_mask {A : Type} (l : list A) (key : list bool) : list A :=
  match l, key with
  | x :: l', b :: key' => if b then x :: take_mask l' key' else take_mask l' key'
  | _, _ => []
  end.

Definition getitem_bool (df : DataFrame) (key : list bool) : result (list Row) :=
  if (length (rows df) <=? length key)%nat
  then Ok (take_mask (rows df) key)
  else Raise IndexingError.

Definition notna (o : option string) : bool :=
  match o with Some _ => true | None => false end.

(** [df.get('data_quality_flag', pd.Series())]: the column, or the empty
    series when the frame has no such column. *)
Definition get_flag_column (df : DataFrame) : list (option string) :=
  default [] (data_quality_flag df).

(** [a / b] on Python integers: the double nearest to the quotient. *)
Definition py_truediv (a b : Z) : result float64 :=
  if b =? 0 then Raise ZeroDivisionError
  else Ok (b64 (inject_Z a / inject_Z b)).

(** [transform_data].  [now k] is what the clock reads at the [k]-th time
    this run looks at it: five calls of [log], [pd.Timestamp.now()] at line
    189, and the last call of [log].  [df] starts as [self.raw_data.copy()],
    a deep copy: every assignment below writes to the copy, and [raw_data]
    keeps the table it held.  The first column the run asks for is
    [order_date] at line 139; the [.str] accessor is asked for at line
    148. *)
Definition transform_data (now : nat -> datetime) : M (option DataFrame) :=
  self ← get_self;
  match raw_data self with
  | None =>
      log (now 0%nat) "No data to transform";;
      mret None
  | Some raw =>
      log (now 0%nat) "Starting data transformation...";;
      let total_records := Z.of_nat (len raw) in
      log (now 1%nat) "Converting data types...";;
      df ← lift (getitem_columns raw);
      let df := convert_types <$> df in
      log (now 2%nat) "Validating data quality...";;
      lift (str (customer_email <$> df));;
      let '(quality_issues, flags) := validate df in
      log (now 3%nat) "Applying business rules...";;
      log (now 4%nat) "Enriching data with derived metrics...";;
      let df := {| rows := enrich (date (now 5%nat)) df; data_quality_flag := flags |} in
      clean ← lift (getitem_bool df (negb <$> (notna <$> get_flag_column df)));
      let clean_records := Z.of_nat (length clean) in
      let error_records := total_records - clean_records in
      ratio ← lift (py_truediv clean_records total_records);
      set_data_quality_report
        {| total_records := total_records;
           clean_records := clean_records;
           error_records := error_records;
           data_quality_score := round2 (fmul ratio (of_Z 100));
           quality_issues := quality_issues |};;
      set_processed_data df;;
      log (now 6%nat)
        ("Transformation complete: " +:+ pretty clean_records +:+ "/"
           +:+ pretty total_records +:+ " clean records");;
      mret (Some df)
  end.

(** ** [load_and_analyze] *)

Section groupby.
Context {K : Type} (keqb kltb : K -> K -> bool).

(** Add [v] to the running sum of group [k], keeping the keys sorted. *)
Fixpoint upsert (k : K) (v : float64) (acc : list (K * Kahan)) : list (K * Kahan) :=
  match acc with
  | [] => [(k, kahan_add kahan0 v)]
  | (k', s) :: acc' =>
      if keqb k k' then (k', kahan_add s v) :: acc'
      else if kltb k k' then (k, kahan_add kahan0 v) :: acc
      else (k', s) :: upsert k v acc'
  end.

(** The running sums of the groups after the rows [kvs]. *)
Definition group_sums (kvs : list (option K * float64)) : list (K * Kahan) :=
  fold_left
    (fun acc kv => match kv.1 with Some k => upsert k kv.2 acc | None => acc end)
    kvs [].

(** [df.groupby(key)[value].sum()]: one entry per key in key order (the
    result of a group-by is sorted, so the later [sort_index] changes
    nothing); rows whose key is missing are dropped, missing values are
    skipped. *)
Definition groupby_sum (kvs : list (option K * float64)) : list (K * float64) :=
  (fun ks : K * Kahan => (ks.1, sumx ks.2)) <$> group_sums kvs.

(** [.idxmax()]: the label of the first largest value that is not
    missing.  A series that is empty, or holds missing values only, raises
    ValueError (pandas 3; pandas 2 warned and returned NaN for the
    latter). *)
Fixpoint idxmax_from (best : option (K * float64)) (s : list (K * float64)) : option K :=
  match s with
  | [] => fst <$> best
  | (k, v) :: s' =>
      if isna v then idxmax_from best s'
      else match best with
           | None => idxmax_from (Some (k, v)) s'
           | Some (_, b) =>
               if fltb b v then idxmax_from (Some (k, v)) s' else idxmax_from best s'
           end
  end.

Definition idxmax (s : list (K * float64)) : result K :=
  match idxmax_from None s with
  | Some k => Ok k
  | None => Raise ValueError
  end.
End groupby.

(** [df.groupby('month')['revenue'].sum().sort_index()]. *)
Definition monthly_revenue (df : DataFrame) : list (Z * float64) :=
  groupby_sum Z.eqb Z.ltb ((fun r : Row => (month r, revenue r)) <$> rows df).

(** [_calculate_monthly_growth]: with at least two periods, the last entry
    is [iloc[-1]] and the one before it [iloc[-2]]; both are
    [numpy.float64], and so is what the arithmetic on them gives. *)
Definition _calculate_monthly_growth (df : DataFrame) : float64 :=
  match reverse (monthly_revenue df) with
  | (_, current_month) :: (_, previous_month) :: _ =>
      let growth_rate :=
        fmul (fdiv (fsub current_month previous_month) previous_month) (of_Z 100) in
      np_round2 growth_rate
  | _ => f0
  end.

Definition revenue_by (key : Row -> option string) (df : DataFrame) : list (string * float64) :=
  groupby_sum String.eqb String.ltb ((fun r : Row => (key r, revenue r)) <$> rows df).

(** [.mean()]: the sum over the count of the values that are present. *)
Definition nanmean (vs : list float64) : float64 :=
  fdiv (nansum vs) (of_Z (Z.of_nat (length (filter (fun v => isna v = false) vs)))).

(** [.nunique()]: the distinct values that are present. *)
Definition nunique (ks : list (option string)) : Z :=
  Z.of_nat (length (remove_dups (omap id ks))).

Definition load_and_analyze (now : nat -> datetime) : M (option Insights) :=
  self ← get_self;
  match processed_data self with
  | None =>
      log (now 0%nat) "No processed data to analyze";;
      mret None
  | Some df =>
      log (now 0%nat) "Generating analytical insights...";;
      top ← lift (idxmax (revenue_by category df));
      best ← lift (idxmax (revenue_by region df));
      let insights :=
        {| total_revenue := nansum (revenue <$> rows df);
           avg_order_value := nanmean (revenue <$> rows df);
           total_orders := Z.of_nat (length (rows df));
           unique_customers := nunique ((fun r : Row => customer_id r) <$> rows df);
           top_category := top;
           best_region := best;
           monthly_growth := _calculate_monthly_growth df |} in
      log (now 1%nat) "Analysis complete - insights generated";;
      mret (Some insights)
  end.

(** ** [extract_data] and the sample generator *)

(** What [generate_sample_data] draws from [random] for one record.  The
    day of the order, [start_date + timedelta(days=random.randint(0, 180))],
    is taken as the calendar day it falls on; the draw for [order_status], a
    column the pipeline never reads, is left out. *)
Record Draws : Type := mkDraws {
  sale_date : Date;
  customer_number : Z;   (* random.randint(1, 500) *)
  category_pick : nat;   (* the position random.choice(categories) picks *)
  price_draw : Q;        (* random.uniform(5.0, 999.99) *)
  quantity_draw : Z;     (* random.randint(1, 10) *)
  region_pick : nat;     (* the position random.choice(regions) picks *)
  email_coin : Q;        (* random.random() in _generate_email *)
  domain_pick : nat;     (* the position random.choice(domains) picks *)
  discount_coin : Q;     (* random.random() < 0.3 *)
  discount_draw : Q      (* random.uniform(0, 30) *)
}.

Definition categories : list string :=
  ["Electronics"; "Clothing"; "Home & Garden"; "Sports"; "Books"; "Automotive"].
Definition regions : list string :=
  ["North America"; "Europe"; "Asia"; "South America"; "Africa"; "Oceania"].
Definition domains : list string :=
  ["gmail.com"; "yahoo.com"; "outlook.com"; "company.com"].

(** The draws [random] can deliver: every number within the bounds of its
    call, every pick a position of its list. *)
Definition draws_in_range (d : Draws) : Prop :=
  1 <= customer_number d <= 500 /\
  (category_pick d < length categories)%nat /\
  (5 <= price_draw d)%Q /\ (price_draw d <= 99999 # 100)%Q /\
  1 <= quantity_draw d <= 10 /\
  (region_pick d < length regions)%nat /\
  (0 <= email_coin d)%Q /\ (email_coin d < 1)%Q /\
  (domain_pick d < length domains)%nat /\
  (0 <= discount_coin d)%Q /\ (discount_coin d < 1)%Q /\
  (0 <= discount_draw d)%Q /\ (discount_draw d <= 30)%Q.

(** [x < y] on rationals, as a boolean. *)
Definition Qlt_bool (x y : Q) : bool := negb (Qle_bool y x).

(** [_generate_email]: [coin] is what [random.random()] returned. *)
Definition _generate_email (index : nat) (coin : Q) (pick : nat) : string :=
  if Qlt_bool coin (5 # 100) then "invalid-email-" +:+ pretty index
  else "customer" +:+ pretty index +:+ "@" +:+ (domains !!! pick).

(** The record that the loop of [generate_sample_data] builds at index [i]
    (lines 78-95). *)
Definition sample_record (i : nat) (d : Draws) : Raw.Row :=
  let price := round2 (Fin (price_draw d)) in
  let quantity := of_Z (quantity_draw d) in
  let discount_percent :=
    if Qlt_bool (discount_coin d) (3 # 10) then round1 (Fin (discount_draw d)) else f0 in
  let subtotal := fmul price quantity in
  let discount_amount := fmul subtotal (fdiv discount_percent (of_Z 100)) in
  {| Raw.order_id := "ORD-" +:+ pretty (1000 + i)%nat;
     Raw.customer_id := Some ("CUST-" +:+ pretty (customer_number d));
     Raw.category := Some (categories !!! category_pick d);
     Raw.region := Some (regions !!! region_pick d);
     Raw.customer_email := Text (_generate_email i (email_coin d) (domain_pick d));
     Raw.price := Number price;
     Raw.quantity := Number quantity;
     Raw.discount_percent := Number discount_percent;
     Raw.total_amount := Number (round2 (fsub subtotal discount_amount));
     Raw.order_date := Day (sale_date d) |}.

Definition set_raw_data (raw : RawFrame) : M unit := fun self =>
  (Ok tt, {| raw_data := Some raw; processed_data := processed_data self;
             data_quality_report := data_quality_report self;
             processing_logs := processing_logs self |}).

(** [generate_sample_data]; [draws i] is what [random] delivers for the
    record of index [i], [now 0] and [now 1] what the clock reads at the two
    calls of [log]. *)
Definition generate_sample_data (now : nat -> datetime) (draws : nat -> Draws)
    (num_records : nat) : M RawFrame :=
  log (now 0%nat) ("Generating " +:+ pretty num_records +:+ " sample records...");;
  let data := (fun i => sample_record i (draws i)) <$> seq 0 num_records in
  set_raw_data (DataFrame_of_records data);;
  log (now 1%nat)
    ("Successfully generated " +:+ pretty (len (DataFrame_of_records data)) +:+ " records");;
  mret (DataFrame_of_records data).

(** [extract_data].  An uploaded file is what [pd.read_csv] makes of it:
    the table it parses, or the message of the exception it raises. *)
Definition extract_data (now : nat -> datetime) (draws : nat -> Draws)
    (uploaded_file : option (list Raw.Row + string)) : M (option RawFrame) :=
  match uploaded_file with
  | Some (inl table) =>
      set_raw_data (Table table);;
      log (now 0%nat)
        ("Loaded " +:+ pretty (length table) +:+ " records from uploaded file");;
      mret (Some (Table table))
  | Some (inr e) =>
      log (now 0%nat) ("Error loading file: " +:+ e);;
      mret None
  | None =>
      data ← generate_sample_data now draws 1000;
      mret (Some data)
  end.
(** ** [generate_large_dataset] (src/dataset_generator.py) *)

(** [range(n)]: empty when [n] is zero or negative. *)
Definition py_range (n : Z) : list Z := Z.of_nat <$> seq 0 (Z.to_nat n).

Definition batch_size : Z := 10000.

Definition total_batches (num_records : Z) : Z :=
  (num_records + batch_size - 1) `div` batch_size.

Definition batch_records (num_records batch_num : Z) : Z :=
  Z.min batch_size (num_records - batch_num * batch_size).

Definition large_categories : list string :=
  ["Electronics"; "Clothing"; "Home & Garden"; "Sports & Outdoors";
   "Books & Media"; "Automotive"; "Health & Beauty"; "Toys & Games";
   "Food & Beverages"; "Office Supplies"; "Jewelry"; "Pet Supplies"].

Definition large_regions : list string :=
  ["Lagos"; "Abuja"; "Port Harcourt"; "Kano"; "Ibadan"; "Benin City";
   "Jos"; "Kaduna"; "Warri"; "Aba"; "Onitsha"; "Enugu"].

(** The dict [price_ranges] of lines 94-107. *)
Definition price_ranges : gmap string (Z * Z) :=
  list_to_map
    [("Electronics", (50, 1500)); ("Clothing", (20, 300)); ("Home & Garden", (30, 800));
     ("Sports & Outdoors", (25, 500)); ("Books & Media", (5, 100));
     ("Automotive", (100, 2000)); ("Health & Beauty", (15, 200));
     ("Toys & Games", (10, 150)); ("Food & Beverages", (5, 50));
     ("Office Supplies", (10, 300)); ("Jewelry", (50, 1000)); ("Pet Supplies", (15, 200))].

(** [price_ranges.get(category, (10, 100))]. *)
Definition price_range (category : string) : Z * Z :=
  default (10, 100) (price_ranges !! category).

(** What [random] and [Faker] deliver for one record of the large data
    set.  The draws for the columns the pipeline never reads (name, product,
    status, payment, address, phone) are left out, and the day of the order
    is taken as the calendar day it falls on. *)
Record LargeDraws : Type := mkLargeDraws {
  large_customer_number : Z;  (* random.randint(1000, 99999) *)
  large_email_coin : Q;       (* random.random() < 0.05 *)
  fake_email : string;        (* fake.email() *)
  large_category_pick : nat;  (* the position random.choice(categories) picks *)
  large_price_draw : Q;       (* random.uniform(price_min, price_max) *)
  negative_coin : Q;          (* random.random() < 0.02 *)
  large_quantity_draw : Z;    (* random.randint(1, 8) *)
  large_discount_draw : Q;    (* random.uniform of the branch taken *)
  large_discount_coin : Q;    (* random.random() < 0.3, quantities up to 3 *)
  large_order_day : Date;
  large_region_pick : nat     (* the position random.choice(regions) picks *)
}.

(** The discount of lines 119-124. *)
Definition large_discount (quantity : Z) (d : LargeDraws) : float64 :=
  if 5 <? quantity then round1 (Fin (large_discount_draw d))
  else if 3 <? quantity then round1 (Fin (large_discount_draw d))
  else if Qlt_bool (large_discount_coin d) (3 # 10)
       then round1 (Fin (large_discount_draw d)) else f0.

(** The record that the inner loop builds for [record_id] (lines 73-160),
    as the columns the pipeline reads. *)
Definition large_record (record_id : Z) (d : LargeDraws) : Raw.Row :=
  let customer_email :=
    if Qlt_bool (large_email_coin d) (5 # 100)
    then "invalid-email-" +:+ pretty record_id else fake_email d in
  let category := large_categories !!! large_category_pick d in
  let price := round2 (Fin (large_price_draw d)) in
  let price := if Qlt_bool (negative_coin d) (2 # 100) then fneg (fabs price) else price in
  let quantity := large_quantity_draw d in
  let discount_percent := large_discount quantity d in
  let subtotal := fmul (fabs price) (of_Z quantity) in
  let discount_amount := fmul subtotal (fdiv discount_percent (of_Z 100)) in
  let total_amount := round2 (fsub subtotal discount_amount) in
  {| Raw.order_id := "ORD-" +:+ pretty (10000 + record_id);
     Raw.customer_id := Some ("CUST-" +:+ pretty (large_customer_number d));
     Raw.category := Some category;
     Raw.region := Some (large_regions !!! large_region_pick d);
     Raw.customer_email := Text customer_email;
     Raw.price := Number price;
     Raw.quantity := Number (of_Z quantity);
     Raw.discount_percent := Number discount_percent;
     Raw.total_amount := Number total_amount;
     Raw.order_date := Day (large_order_day d) |}.

(** The draws the calls can deliver: each number within the bounds of its
    call (the bounds of the price and of the discount are those of the
    branch the record takes), each pick a position of its list. *)
Definition large_draws_in_range (d : LargeDraws) : Prop :=
  1000 <= large_customer_number d <= 99999 /\
  (large_category_pick d < length large_categories)%nat /\
  (inject_Z (price_range (large_categories !!! large_category_pick d)).1
     <= large_price_draw d)%Q /\
  (large_price_draw d
     <= inject_Z (price_range (large_categories !!! large_category_pick d)).2)%Q /\
  1 <= large_quantity_draw d <= 8 /\
  (if 5 <? large_quantity_draw d
   then (10 <= large_discount_draw d)%Q /\ (large_discount_draw d <= 25)%Q
   else if 3 <? large_quantity_draw d
        then (5 <= large_discount_draw d)%Q /\ (large_discount_draw d <= 15)%Q
        else (0 <= large_discount_draw d)%Q /\ (large_discount_draw d <= 10)%Q) /\
  (large_region_pick d < length large_regions)%nat.

(** The batches that the outer loop writes, in order (lines 67-164):
    [draws id] is what the calls deliver for the record [id]. *)
Definition written_batches (draws : Z -> LargeDraws) (num_records : Z) : list (list Raw.Row) :=
  (fun batch_num =>
     (fun i =>
        let record_id := batch_num * batch_size + i in
        large_record record_id (draws record_id))
       <$> py_range (batch_records num_records batch_num))
    <$> py_range (total_batches num_records).

(** [l[-1000:]]. *)
Definition last_1000 {A : Type} (l : list A) : list A := drop (length l - 1000) l.

(** After the loop [batch_data] is the last batch, or was never bound when
    the loop did not run; [None] stands for the UnboundLocalError that
    line 171 raises then.  Otherwise the summary reads [batch_data[-1000:]]. *)
Definition summary_sample (draws : Z -> LargeDraws) (num_records : Z) : option (list Raw.Row) :=
  last_1000 <$> last (written_batches draws num_records).

(** ** Notions used to state the claims *)

(** The frame that steps 1 to 4 build from the raw table, at the clock
    [now]. *)
Definition frame_of (now : nat -> datetime) (raw : list Raw.Row) : DataFrame :=
  let df := convert_types <$> raw in
  {| rows := enrich (date (now 5%nat)) df; data_quality_flag := (validate df).2 |}.

(** What a run of [transform_data] on the table [raw] ends with: the
    report of step 5 (lines 193-202), or the exception of line 148, 193 or
    200. *)
Definition quality_summary (now : nat -> datetime) (raw : list Raw.Row) : result Report :=
  match str (customer_email <$> (convert_types <$> raw)) with
  | Raise e => Raise e
  | Ok _ =>
      let df := frame_of now raw in
      match getitem_bool df (negb <$> (notna <$> get_flag_column df)) with
      | Raise e => Raise e
      | Ok clean =>
          match py_truediv (Z.of_nat (length clean)) (Z.of_nat (length raw)) with
          | Raise e => Raise e
          | Ok ratio =>
              Ok {| total_records := Z.of_nat (length raw);
                    clean_records := Z.of_nat (length clean);
                    error_records := Z.of_nat (length raw) - Z.of_nat (length clean);
                    data_quality_score := round2 (fmul ratio (of_Z 100));
                    quality_issues := (validate (convert_types <$> raw)).1 |}
          end
      end
  end.

(** The label at position [i] of a flag column; no label when there is
    no column. *)
Definition col_at (col : option (list (option string))) (i : nat) : option string :=
  match col with
  | Some c => default None (c !! i)
  | None => None
  end.

(** The label row [i] of a frame carries in the end. *)
Definition flag_at (df : DataFrame) (i : nat) : option string :=
  col_at (data_quality_flag df) i.

(** A flag column, when present, has one entry per row. *)
Definition col_wf (n : nat) (col : option (list (option string))) : Prop :=
  match col with
  | Some c => length c = n
  | None => True
  end.

(** The label the three overwrites leave on a row. *)
Definition last_rule_wins (r : Typed) : option string :=
  if quantity_invalid r then Some "Invalid Quantity"
  else if price_invalid r then Some "Invalid Price"
  else if email_invalid r then Some "Invalid Email"
  else None.

(** What a customer spent over the whole processed table: the sum, as
    the group-by computes it, of [total_amount] over the rows with that
    [customer_id] in the order of the table, missing amounts skipped. *)
Definition customer_spend (df : DataFrame) (c : string) : float64 :=
  group_sum (total_amount <$> filter (fun r : Typed => customer_id r = Some c) (base <$> rows df)).

(** A row that matches at least one of the three rules. *)
Definition violates_any (r : Typed) : bool :=
  email_invalid r || price_invalid r || quantity_invalid r.

(** The number of the three rules that a row matches. *)
Definition rules_matched (r : Typed) : nat :=
  ((if email_invalid r then 1 else 0) + (if price_invalid r then 1 else 0)
   + (if quantity_invalid r then 1 else 0))%nat.

(** The number of rows of a frame that satisfy [p], as [mask.sum()]. *)
Definition count_rows (p : Typed -> bool) (df : list Typed) : nat :=
  mask_sum (p <$> df).

(** The entry of [quality_issues] for a rule that [count] rows match: none
    when no row does. *)
Definition issue_entry (issue : string) (count : nat) : list string :=
  if (0 <? count)%nat then [issue +:+ ": " +:+ pretty count] else [].

(** The spec's formula for [total_amount]: price x quantity x
    (1 - discount / 100), rounded to 2 decimals. *)
Definition spec_total_amount (price quantity discount_percent : float64) : float64 :=
  round2 (fmul (fmul price quantity) (fsub (of_Z 1) (fdiv discount_percent (of_Z 100)))).

(** [series[m]] on a grouped series. *)
Fixpoint series_get (m : Z) (s : list (Z * float64)) : option float64 :=
  match s with
  | [] => None
  | (k, v) :: s' => if m =? k then Some v else series_get m s'
  end.

(** The months that occur in the processed table, each once. *)
Definition distinct_months (df : DataFrame) : list Z :=
  remove_dups (omap month (rows df)).

(** The revenue of the rows of month [m]: their sum as the group-by
    computes it, in the order of the table, missing values skipped. *)
Definition revenue_of_month (df : DataFrame) (m : Z) : float64 :=
  group_sum (revenue <$> filter (fun r : Row => month r = Some m) (rows df)).

(** [m2] is the latest month of the table and [m1] the month right before
    it among the months of the table. *)
Definition latest_two (df : DataFrame) (m1 m2 : Z) : Prop :=
  m1 ∈ distinct_months df /\ m2 ∈ distinct_months df /\ m1 < m2 /\
  forall m : Z, m ∈ distinct_months df -> m <= m1 \/ m = m2.

(** The change from [previous] to [current] in percent, in double
    arithmetic. *)
Definition percent_change (previous current : float64) : float64 :=
  fmul (fdiv (fsub current previous) previous) (of_Z 100).

(** [y] is [x] rounded to 2 decimals: [y] is the double nearest to
    [k / 100] for an integer [k] that is nearest to the double [100 * x];
    an infinity and NaN are left as they are. *)
Definition rounded_to_2_decimals (x y : float64) : Prop :=
  match fmul x (of_Z 100) with
  | Fin hundredfold =>
      exists k : Z,
        (Qabs (hundredfold - inject_Z k) <= 1 # 2)%Q /\
        y = fdiv (of_Z k) (of_Z 100)
  | special => y = special
  end.

(** The column [customer_email] of the raw table is a column of text: a
    cell of it is text, or it has no cell at all. *)
Definition emails_are_text (raw : list Raw.Row) : bool :=
  (length raw =? 0)%nat || existsb (fun r : Raw.Row => is_text (Raw.customer_email r)) raw.

(** The pipeline objects that calls of the public methods can produce from
    a fresh one, whatever their arguments, the clock and the random draws. *)
Inductive call : ETLPipeline -> ETLPipeline -> Prop :=
  | call_generate_sample_data now draws num_records self :
      call self (generate_sample_data now draws num_records self).2
  | call_extract_data now draws uploaded_file self :
      call self (extract_data now draws uploaded_file self).2
  | call_transform_data now self :
      call self (transform_data now self).2
  | call_load_and_analyze now self :
      call self (load_and_analyze now self).2
  | call_log now message self :
      call self (log now message self).2.

Definition reachable (self : ETLPipeline) : Prop := rtc call __init__ self.

(** A processed row without the one column that depends on the clock. *)
Definition without_days_since_order (r : Row) : Row :=
  {| base := base r; price_tier := price_tier r; revenue := revenue r;
     month := month r; quarter := quarter r; customer_segment := customer_segment r;
     days_since_order := None; is_weekend_order := is_weekend_order r |}.

(** ** Sample tables *)

(** The 15th of month [m] of year [y]. *)
Definition day_in (y m : Z) : datecell := Day {| year := y; month_of_year := m; day := 15 |}.

(** An order of customer [cust] with price [p], quantity [q], discount
    [d] and total amount [t], each the number its decimal numeral spells. *)
Definition order (cust email : string) (p q d t : Q) (date : datecell) : Raw.Row :=
  {| Raw.order_id := "ORD-1000";
     Raw.customer_id := Some cust;
     Raw.category := Some "Books";
     Raw.region := Some "Europe";
     Raw.customer_email := Text email;
     Raw.price := Number (Fin p);
     Raw.quantity := Number (Fin q);
     Raw.discount_percent := Number (Fin d);
     Raw.total_amount := Number (Fin t);
     Raw.order_date := date |}.

(** A clock that stands at noon of 15 June 2024, and one that stands at
    noon of the day after. *)
Definition clock (k : nat) : datetime :=
  {| date := {| year := 2024; month_of_year := 6; day := 15 |}; clock_time := "12:00:00" |}.

Definition clock_next_day (k : nat) : datetime :=
  {| date := {| year := 2024; month_of_year := 6; day := 16 |}; clock_time := "12:00:00" |}.

(** A draw of [random] that is the same for every record. *)
Definition steady (d : Draws) : nat -> Draws := fun _ => d.

(** Draws that give a valid email, and draws that give an invalid one. *)
Definition good_draw : Draws :=
  {| sale_date := {| year := 2024; month_of_year := 3; day := 9 |};
     customer_number := 42; category_pick := 4; price_draw := 1999 # 100;
     quantity_draw := 3; region_pick := 1; email_coin := 1 # 2; domain_pick := 0;
     discount_coin := 1 # 2; discount_draw := 12 |}.

Definition bad_email_draw : Draws :=
  {| sale_date := {| year := 2024; month_of_year := 3; day := 9 |};
     customer_number := 42; category_pick := 4; price_draw := 1999 # 100;
     quantity_draw := 3; region_pick := 1; email_coin := 1 # 100; domain_pick := 0;
     discount_coin := 1 # 10; discount_draw := 12 |}.

(** The pipeline after a fresh one has extracted the uploaded table
    [raw], and after it has then run Transform. *)
Definition loaded (raw : list Raw.Row) : ETLPipeline :=
  (extract_data clock (steady good_draw) (Some (inl raw)) __init__).2.


(** The upload of a file that holds the header line only. *)
Definition header_only : list Raw.Row := [].

(** A row with no at-sign in its email and a negative price. *)
Definition no_at_negative_price : Raw.Row :=
  order "CUST-1" "no-at-sign" (-10) 1 0 (-10) (day_in 2024 1).

(** Prices on the three edges named by the claim; the first row is the
    one the validator flags. *)
Definition edge_prices : list Raw.Row :=
  [order "CUST-1" "a@example.com" 0 1 0 0 (day_in 2024 1);
   order "CUST-2" "b@example.com" 50 1 0 50 (day_in 2024 1);
   order "CUST-3" "c@example.com" 500 1 0 500 (day_in 2024 1)].

(** One customer, two orders: 100 + 200 = 300. *)
Definition spent_300 : list Raw.Row :=
  [order "CUST-7" "no-at-sign" 100 1 0 100 (day_in 2024 1);
   order "CUST-7" "g@example.com" 100 2 0 200 (day_in 2024 2)].

(** One customer, two orders: 400 + 600 = 1000. *)
Definition spent_1000 : list Raw.Row :=
  [order "CUST-8" "no-at-sign" 400 1 0 400 (day_in 2024 1);
   order "CUST-8" "h@example.com" 300 2 0 600 (day_in 2024 2)].

(** One customer, three orders of 13.47, 276.16 and 10.37: 300 as
    decimals, a little more than 300 as doubles. *)
Definition spent_just_over_300 : list Raw.Row :=
  [order "CUST-9" "no-at-sign" (1347 # 100) 1 0 (1347 # 100) (day_in 2024 1);
   order "CUST-9" "i@example.com" (27616 # 100) 1 0 (27616 # 100) (day_in 2024 1);
   order "CUST-9" "i@example.com" (1037 # 100) 1 0 (1037 # 100) (day_in 2024 1)].

(** Price 10, quantity 2, no discount, and a source [total_amount] of 999. *)
Definition stale_total : list Raw.Row :=
  [order "CUST-1" "no-at-sign" 10 2 0 999 (day_in 2024 1)].

(** One valid order: nothing for the validator to flag. *)
Definition one_clean_order : list Raw.Row :=
  [order "CUST-1" "a@example.com" 10 2 0 20 (day_in 2024 1)].

(** A row that breaks the email rule and the price rule, and a clean one. *)
Definition doubly_invalid : list Raw.Row :=
  [no_at_negative_price;
   order "CUST-2" "b@example.com" 20 1 0 20 (day_in 2024 1)].

(** Three rows that break one rule each: the email rule, the price rule
    and the quantity rule. *)
Definition one_rule_each : list Raw.Row :=
  [order "CUST-1" "no-at-sign" 10 1 0 10 (day_in 2024 1);
   order "CUST-2" "b@example.com" (-5) 1 0 5 (day_in 2024 1);
   order "CUST-3" "c@example.com" 10 0 0 0 (day_in 2024 1)].

(** Two clean rows and one that breaks two rules: two rows of three are
    clean, 66.666... percent. *)
Definition two_clean_of_three : list Raw.Row := one_clean_order ++ doubly_invalid.

(** Revenue 100 in January 2024 and 150 in February 2024.  The first row
    is the one the validator flags. *)
Definition two_months : list Raw.Row :=
  [order "CUST-1" "no-at-sign" 100 1 0 100 (day_in 2024 1);
   order "CUST-2" "b@example.com" 150 1 0 150 (day_in 2024 2)].

(** Revenue 160 in January 2024 and 67 in February 2024: a change of
    -58.125 percent as decimals, a little below that as doubles. *)
Definition drop_160_67 : list Raw.Row :=
  [order "CUST-1" "no-at-sign" 160 1 0 160 (day_in 2024 1);
   order "CUST-2" "b@example.com" 67 1 0 67 (day_in 2024 2)].

(** Revenue 0 in January 2024 and 150 in February 2024. *)
Definition nothing_then_150 : list Raw.Row :=
  [order "CUST-1" "no-at-sign" 0 1 0 0 (day_in 2024 1);
   order "CUST-2" "b@example.com" 150 1 0 150 (day_in 2024 2)].

(** Amounts of 1.1, 2.2 and -3.3 in January 2024, which cancel as
    decimals and leave 2^-51 as doubles, and 150 in February 2024. *)
Definition cancelling_then_150 : list Raw.Row :=
  [order "CUST-1" "no-at-sign" 1 1 0 (11 # 10) (day_in 2024 1);
   order "CUST-1" "a@example.com" 1 1 0 (22 # 10) (day_in 2024 1);
   order "CUST-1" "a@example.com" 1 1 0 (- (33 # 10)) (day_in 2024 1);
   order "CUST-2" "b@example.com" 150 1 0 150 (day_in 2024 2)].

(** ** Notions used to state further properties *)

(** What [load_and_analyze] computes from the processed table (lines
    220-228): the insights, or the error of the first [idxmax] that fails. *)
Definition insights_of (df : DataFrame) : result Insights :=
  match idxmax (revenue_by category df) with
  | Raise e => Raise e
  | Ok top =>
      match idxmax (revenue_by region df) with
      | Raise e => Raise e
      | Ok best =>
          Ok {| total_revenue := nansum (revenue <$> rows df);
                avg_order_value := nanmean (revenue <$> rows df);
                total_orders := Z.of_nat (length (rows df));
                unique_customers := nunique ((fun r : Row => customer_id r) <$> rows df);
                top_category := top;
                best_region := best;
                monthly_growth := _calculate_monthly_growth df |}
      end
  end.



(** An order whose price cell is text, and a table that holds it next to
    a row the validator flags. *)
Definition text_price_order : Raw.Row :=
  {| Raw.order_id := "ORD-1001";
     Raw.customer_id := None;
     Raw.category := Some "Books";
     Raw.region := Some "Europe";
     Raw.customer_email := Text "t@example.com";
     Raw.price := Text "n/a";
     Raw.quantity := Number (Fin 2);
     Raw.discount_percent := Number (Fin 0);
     Raw.total_amount := Number (Fin 5000);
     Raw.order_date := day_in 2024 1 |}.

Definition with_text_price : list Raw.Row := [no_at_negative_price; text_price_order].

(** [series[k]] on a series grouped by any key. *)
Fixpoint series_lookup {K V : Type} (keqb : K -> K -> bool) (k : K)
    (s : list (K * V)) : option V :=
  match s with
  | [] => None
  | (k', v) :: s' => if keqb k k' then Some v else series_lookup keqb k s'
  end.



(** Books earn 30 and Toys earn 30: a tie. *)
Definition tie_in_revenue : list Raw.Row :=
  [{| Raw.order_id := "ORD-1"; Raw.customer_id := Some "CUST-1";
      Raw.category := Some "Toys"; Raw.region := Some "Asia";
      Raw.customer_email := Text "no-at-sign";
      Raw.price := Number (Fin 30); Raw.quantity := Number (Fin 1);
      Raw.discount_percent := Number (Fin 0); Raw.total_amount := Number (Fin 30);
      Raw.order_date := day_in 2024 1 |};
   {| Raw.order_id := "ORD-2"; Raw.customer_id := Some "CUST-1";
      Raw.category := Some "Books"; Raw.region := Some "Europe";
      Raw.customer_email := Text "a@example.com";
      Raw.price := Number (Fin 10); Raw.quantity := Number (Fin 1);
      Raw.discount_percent := Number (Fin 0); Raw.total_amount := Number (Fin 10);
      Raw.order_date := day_in 2024 1 |};
   {| Raw.order_id := "ORD-3"; Raw.customer_id := Some "CUST-2";
      Raw.category := Some "Books"; Raw.region := Some "Europe";
      Raw.customer_email := Text "b@example.com";
      Raw.price := Number (Fin 20); Raw.quantity := Number (Fin 1);
      Raw.discount_percent := Number (Fin 0); Raw.total_amount := Number (Fin 20);
      Raw.order_date := day_in 2024 2 |}].




(** A table in which no row has an email address. *)
Definition no_email (amount : Q) : Raw.Row :=
  {| Raw.order_id := "ORD-1"; Raw.customer_id := Some "CUST-1";
     Raw.category := Some "Books"; Raw.region := Some "Europe";
     Raw.customer_email := Null;
     Raw.price := Number (Fin 30); Raw.quantity := Number (Fin 1);
     Raw.discount_percent := Number (Fin 0); Raw.total_amount := Number (Fin amount);
     Raw.order_date := day_in 2024 1 |}.

Definition no_emails : list Raw.Row := [no_email 30; no_email 40].

(** The number of the first [n] records whose email draw falls below
    0.05. *)
Definition invalid_email_draws (draws : nat -> Draws) (n : nat) : nat :=
  mask_sum ((fun i => Qlt_bool (email_coin (draws i)) (5 # 100)) <$> seq 0 n).

(** The table [generate_sample_data] builds from [draws]. *)
Definition sample_table (draws : nat -> Draws) (n : nat) : list Raw.Row :=
  (fun i => sample_record i (draws i)) <$> seq 0 n.

(** Draws whose second record gets an invalid email. *)
Definition second_is_invalid (i : nat) : Draws :=
  if (i =? 1)%nat then bad_email_draw else good_draw.


(** A record whose price is made negative, of 7 units of a book. *)
Definition negative_price_draws : LargeDraws :=
  {| large_customer_number := 4711; large_email_coin := 1 # 2;
     fake_email := "ada@example.org"; large_category_pick := 4;
     large_price_draw := 20; negative_coin := 1 # 100;
     large_quantity_draw := 7; large_discount_draw := 20;
     large_discount_coin := 1 # 2;
     large_order_day := {| year := 2024; month_of_year := 5; day := 2 |};
     large_region_pick := 0 |}.

(** * Proofs *)
(** ** Rounding to the nearest integer *)

Lemma rint_spec (q : Q) :
  2 * Z.abs (Qnum q - rint q * Zpos (Qden q)) <= Zpos (Qden q) /\
  (2 * Z.abs (Qnum q - rint q * Zpos (Qden q)) = Zpos (Qden q) -> Z.even (rint q) = true).
Proof.
  destruct q as [n d]. unfold rint. cbn [Qnum Qden].
  pose proof (Z.div_mod n (Z.pos d) ltac:(lia)) as Hdm.
  pose proof (Z.mod_pos_bound n (Z.pos d) ltac:(lia)) as Hr.
  set (lo := n / Z.pos d) in *. set (r := n mod Z.pos d) in *.
  clearbody lo r.
  assert (E0 : n - lo * Z.pos d = r) by lia.
  assert (E1 : n - (lo + 1) * Z.pos d = r - Z.pos d) by lia.
  destruct (2 * r ?= Z.pos d) eqn:Hc.
  - apply Z.compare_eq in Hc. destruct (Z.even lo) eqn:He.
    + rewrite E0. split; [lia|]. intros _. exact He.
    + rewrite E1. split; [lia|]. intros _. rewrite Z.even_add, He. reflexivity.
  - change (2 * r < Z.pos d) in Hc. rewrite E0. split; lia.
  - apply Z.compare_gt_iff in Hc. rewrite E1. split; lia.
Qed.

Lemma rint_unique (q : Q) (z : Z) :
  2 * Z.abs (Qnum q - z * Zpos (Qden q)) <= Zpos (Qden q) ->
  (2 * Z.abs (Qnum q - z * Zpos (Qden q)) = Zpos (Qden q) -> Z.even z = true) ->
  rint q = z.
Proof.
  intros H1 H2. destruct (rint_spec q) as [R1 R2].
  set (d := Zpos (Qden q)) in *. set (n := Qnum q) in *. set (r := rint q) in *.
  assert (Hd : 0 < d) by (unfold d; lia).
  clearbody d n r.
  assert (Hclose : -1 <= r - z <= 1).
  { assert (Z.abs ((r - z) * d) <= d) by lia.
    rewrite Z.abs_mul, (Z.abs_eq d) in H by lia.
    assert (Z.abs (r - z) * d <= 1 * d) by lia.
    apply Z.mul_le_mono_pos_r in H0; lia. }
  destruct (Z.eq_dec r z) as [|Hne]; [assumption|exfalso].
  assert (Hz : r = z + 1 \/ r = z - 1) by lia.
  destruct Hz as [-> | ->].
  - assert (Ht1 : 2 * Z.abs (n - (z + 1) * d) = d) by lia.
    assert (Ht2 : 2 * Z.abs (n - z * d) = d) by lia.
    specialize (R2 Ht1). specialize (H2 Ht2).
    rewrite Z.even_add, H2 in R2. discriminate.
  - assert (Ht1 : 2 * Z.abs (n - (z - 1) * d) = d) by lia.
    assert (Ht2 : 2 * Z.abs (n - z * d) = d) by lia.
    specialize (R2 Ht1). specialize (H2 Ht2).
    rewrite Z.even_sub, H2 in R2. discriminate.
Qed.

Lemma rint_monotone (q1 q2 : Q) : (q1 <= q2)%Q -> rint q1 <= rint q2.
Proof.
  unfold Qle. intros Hle.
  destruct (rint_spec q1) as [A1 A2]. destruct (rint_spec q2) as [B1 B2].
  set (d1 := Zpos (Qden q1)) in *. set (n1 := Qnum q1) in *. set (z1 := rint q1) in *.
  set (d2 := Zpos (Qden q2)) in *. set (n2 := Qnum q2) in *. set (z2 := rint q2) in *.
  assert (Hd1 : 0 < d1) by (unfold d1; lia).
  assert (Hd2 : 0 < d2) by (unfold d2; lia).
  clearbody d1 d2 n1 n2 z1 z2.
  destruct (Z_le_gt_dec z1 z2) as [|Hgt]; [assumption|exfalso].
  assert (E1 : (2 * z1 - 1) * d1 <= 2 * n1) by lia.
  assert (E2 : 2 * n2 <= (2 * z2 + 1) * d2) by lia.
  assert (F1 : (2 * z1 - 1) * d1 * d2 <= 2 * n1 * d2)
    by (apply Z.mul_le_mono_nonneg_r; lia).
  assert (F2 : 2 * n2 * d1 <= (2 * z2 + 1) * d2 * d1)
    by (apply Z.mul_le_mono_nonneg_r; lia).
  assert (F3 : (2 * z1 - 1) * (d1 * d2) <= (2 * z2 + 1) * (d1 * d2)) by lia.
  assert (Hdd : 0 < d1 * d2) by lia.
  assert (Hz : z1 = z2 + 1).
  { apply Z.mul_le_mono_pos_r in F3; [lia|exact Hdd]. }
  subst z1.
  assert (G1 : (2 * z2 + 1) * (d1 * d2) = 2 * n1 * d2) by lia.
  assert (G2 : (2 * z2 + 1) * (d1 * d2) = 2 * n2 * d1) by lia.
  assert (Ht1 : 2 * n1 = (2 * z2 + 1) * d1).
  { apply (Z.mul_cancel_r _ _ d2); lia. }
  assert (Ht2 : 2 * n2 = (2 * z2 + 1) * d2).
  { apply (Z.mul_cancel_r _ _ d1); lia. }
  assert (T1 : 2 * Z.abs (n1 - (z2 + 1) * d1) = d1) by lia.
  assert (T2 : 2 * Z.abs (n2 - z2 * d2) = d2) by lia.
  specialize (A2 T1). specialize (B2 T2).
  rewrite Z.even_add, B2 in A2. discriminate.
Qed.

Lemma rint_of_Z (q : Q) (z : Z) : (q == inject_Z z)%Q -> rint q = z.
Proof.
  unfold Qeq, inject_Z. simpl. intros H. apply rint_unique.
  - replace (Qnum q - z * Z.pos (Qden q)) with 0 by lia. simpl. lia.
  - replace (Qnum q - z * Z.pos (Qden q)) with 0 by lia. simpl. lia.
Qed.

Lemma rint_compat (q1 q2 : Q) : (q1 == q2)%Q -> rint q1 = rint q2.
Proof.
  intros H. apply Z.le_antisymm; apply rint_monotone; rewrite H; apply Qle_refl.
Qed.

Lemma rint_close (q : Q) :
  (inject_Z (rint q) - (1 # 2) <= q)%Q /\ (q <= inject_Z (rint q) + (1 # 2))%Q.
Proof.
  destruct (rint_spec q) as [H _]. set (z := rint q) in *. clearbody z.
  destruct q as [n d]. cbn [Qnum Qden] in H.
  unfold Qle, Qminus, Qplus, Qopp, inject_Z. cbn [Qnum Qden].
  rewrite !Pos2Z.inj_mul. lia.
Qed.

(** ** Powers of two and the binary logarithm *)

Lemma pow2_pos (k : Z) : (0 < 2 ^ k)%Q.
Proof. apply Qpower_0_lt. reflexivity. Qed.

Lemma pow2_add (a b : Z) : (2 ^ (a + b) == 2 ^ a * 2 ^ b)%Q.
Proof. apply Qpower_plus. discriminate. Qed.

Lemma pow2_succ (a : Z) : (2 ^ (a + 1) == 2 * 2 ^ a)%Q.
Proof. rewrite pow2_add. change (2 ^ 1)%Q with 2%Q. ring. Qed.

Lemma pow2_le (a b : Z) : a <= b -> (2 ^ a <= 2 ^ b)%Q.
Proof. intros H. apply Qpower_le_compat_l; [exact H|discriminate]. Qed.

Lemma pow2_lt (a b : Z) : a < b -> (2 ^ a < 2 ^ b)%Q.
Proof. intros H. apply Qpower_lt_compat_l; [exact H|reflexivity]. Qed.

Lemma pow2_le_inv (a b : Z) : (2 ^ a <= 2 ^ b)%Q -> a <= b.
Proof. intros H. apply (Qpower_le_compat_l_inv 2); [exact H|reflexivity]. Qed.

Lemma pow2_lt_inv (a b : Z) : (2 ^ a < 2 ^ b)%Q -> a < b.
Proof. intros H. apply (Qpower_lt_compat_l_inv 2); [exact H|reflexivity]. Qed.

Lemma pow2_inject (a : Z) : 0 <= a -> (inject_Z (2 ^ a) == 2 ^ a)%Q.
Proof. intros H. rewrite Zpower_Qpower by exact H. reflexivity. Qed.

Lemma log2_bounds (n : Z) :
  0 < n -> (2 ^ Z.log2 n <= inject_Z n)%Q /\ (inject_Z n < 2 * 2 ^ Z.log2 n)%Q.
Proof.
  intros Hn. destruct (Z.log2_spec n Hn) as [H1 H2].
  pose proof (Z.log2_nonneg n) as H0.
  rewrite <- pow2_succ, <- !pow2_inject by lia. split.
  - rewrite <- Zle_Qle. exact H1.
  - rewrite <- Zlt_Qlt. exact H2.
Qed.

Lemma floor_log2_spec (x : Q) :
  (0 < x)%Q -> (2 ^ floor_log2 x <= x)%Q /\ (x < 2 ^ (floor_log2 x + 1))%Q.
Proof.
  intros Hx. unfold floor_log2.
  assert (Hn : 0 < Qnum x).
  { unfold Qlt in Hx. cbn [Qnum Qden] in Hx. lia. }
  destruct (log2_bounds (Qnum x) Hn) as [A1 A2].
  destruct (log2_bounds (Zpos (Qden x)) ltac:(lia)) as [B1 B2].
  set (a := Z.log2 (Qnum x)) in *. set (b := Z.log2 (Zpos (Qden x))) in *.
  assert (Hxd : (x * inject_Z (Zpos (Qden x)) == inject_Z (Qnum x))%Q).
  { destruct x as [n d]. unfold Qeq, Qmult, inject_Z. simpl. lia. }
  set (N := inject_Z (Qnum x)) in *. set (D := inject_Z (Zpos (Qden x))) in *.
  clearbody N D.
  assert (Hk : (2 ^ (a - b) * 2 ^ b == 2 ^ a)%Q).
  { rewrite <- pow2_add. replace (a - b + b) with a by lia. reflexivity. }
  pose proof (pow2_pos (a - b)) as Pk. pose proof (pow2_pos b) as Pb.
  pose proof (pow2_pos (a - b - 1)) as Pk1.
  assert (Hk1 : (2 ^ (a - b) == 2 * 2 ^ (a - b - 1))%Q).
  { rewrite <- pow2_succ. replace (a - b - 1 + 1) with (a - b) by lia. reflexivity. }
  set (pa := (2 ^ a)%Q) in *. set (pb := (2 ^ b)%Q) in *.
  set (pk := (2 ^ (a - b))%Q) in *. set (pk1 := (2 ^ (a - b - 1))%Q) in *.
  destruct (Qle_bool pk x) eqn:Hc.
  - apply Qle_bool_iff in Hc. split; [exact Hc|].
    rewrite pow2_succ. fold pk. clearbody pa pb pk pk1.
    apply Qnot_le_lt. intros Hge.
    assert (H1 : (2 * pk * pb <= x * D)%Q).
    { apply Qle_trans with (x * pb)%Q.
      - apply Qmult_le_compat_r; lra.
      - rewrite !(Qmult_comm x). apply Qmult_le_compat_r; lra. }
    rewrite Hxd in H1. lra.
  - apply not_true_iff_false in Hc. rewrite Qle_bool_iff in Hc. apply Qnot_le_lt in Hc.
    replace (a - b - 1 + 1) with (a - b) by lia. fold pk pk1. split; [|exact Hc].
    clearbody pa pb pk pk1.
    apply Qnot_lt_le. intros Hlt.
    assert (H1 : (x * D < pk1 * (2 * pb))%Q).
    { apply Qle_lt_trans with (pk1 * D)%Q.
      - apply Qmult_le_compat_r; lra.
      - rewrite !(Qmult_comm pk1). apply Qmult_lt_compat_r; lra. }
    rewrite Hxd in H1.
    assert (H2 : (pk1 * (2 * pb) == pa)%Q) by (rewrite <- Hk, Hk1; ring).
    rewrite H2 in H1. lra.
Qed.

Lemma floor_log2_unique (x : Q) (k : Z) :
  (2 ^ k <= x)%Q -> (x < 2 ^ (k + 1))%Q -> floor_log2 x = k.
Proof.
  intros H1 H2.
  assert (Hx : (0 < x)%Q) by (eapply Qlt_le_trans; [apply pow2_pos|exact H1]).
  destruct (floor_log2_spec x Hx) as [F1 F2].
  assert (floor_log2 x < k + 1).
  { apply pow2_lt_inv. eapply Qle_lt_trans; eassumption. }
  assert (k < floor_log2 x + 1).
  { apply pow2_lt_inv. eapply Qle_lt_trans; eassumption. }
  lia.
Qed.

Lemma floor_log2_monotone (x y : Q) :
  (0 < x)%Q -> (x <= y)%Q -> floor_log2 x <= floor_log2 y.
Proof.
  intros Hx Hxy.
  assert (Hy : (0 < y)%Q) by (eapply Qlt_le_trans; eassumption).
  destruct (floor_log2_spec x Hx) as [F1 F2].
  destruct (floor_log2_spec y Hy) as [G1 G2].
  assert (floor_log2 x < floor_log2 y + 1); [|lia].
  apply pow2_lt_inv. eapply Qle_lt_trans; [exact F1|].
  eapply Qle_lt_trans; eassumption.
Qed.

(** ** Rounding a positive rational to binary64 *)

Lemma scale_le (x y : Q) (e : Z) : (x <= y)%Q -> (x / 2 ^ e <= y / 2 ^ e)%Q.
Proof.
  intros H. unfold Qdiv. apply Qmult_le_compat_r; [exact H|].
  apply Qinv_le_0_compat, Qlt_le_weak, pow2_pos.
Qed.

Lemma scale_pow2 (a e : Z) : (2 ^ a / 2 ^ e == 2 ^ (a - e))%Q.
Proof. rewrite Qpower_minus by discriminate. reflexivity. Qed.

Lemma scale_back (x : Q) (e : Z) : (x / 2 ^ e * 2 ^ e == x)%Q.
Proof. field. pose proof (pow2_pos e). lra. Qed.

Lemma round_pos_mantissa (x : Q) :
  (0 < x)%Q ->
  0 <= rint (x / 2 ^ grid x) <= 2 ^ 53 /\
  (-1074 < grid x -> 2 ^ 52 <= rint (x / 2 ^ grid x)).
Proof.
  intros Hx. destruct (floor_log2_spec x Hx) as [F1 F2].
  set (e := grid x). assert (He : floor_log2 x - 52 <= e) by (unfold e, grid; lia).
  split; [split|].
  - rewrite <- (rint_of_Z 0 0) by reflexivity. apply rint_monotone.
    apply Qle_shift_div_l; [apply pow2_pos|]. lra.
  - rewrite <- (rint_of_Z (2 ^ 53) (2 ^ 53)) by (symmetry; apply pow2_inject; lia).
    apply rint_monotone. apply Qle_shift_div_r; [apply pow2_pos|].
    rewrite <- pow2_add. apply Qlt_le_weak. eapply Qlt_le_trans; [exact F2|].
    apply pow2_le. lia.
  - intros Hsub. assert (He' : e = floor_log2 x - 52) by (unfold e, grid in *; lia).
    rewrite <- (rint_of_Z (2 ^ 52) (2 ^ 52)) by (symmetry; apply pow2_inject; lia).
    apply rint_monotone. apply Qle_shift_div_l; [apply pow2_pos|].
    rewrite <- pow2_add. replace (52 + e) with (floor_log2 x) by lia. exact F1.
Qed.

Lemma round_pos_unfold (x : Q) :
  round_pos x = if Qle_bool (2 ^ 1024) (rounded x) then PInf else Fin (Qred (rounded x)).
Proof. reflexivity. Qed.

Lemma rounded_monotone (x y : Q) :
  (0 < x)%Q -> (x <= y)%Q -> (rounded x <= rounded y)%Q.
Proof.
  intros Hx Hxy. assert (Hy : (0 < y)%Q) by (eapply Qlt_le_trans; eassumption).
  pose proof (floor_log2_monotone x y Hx Hxy) as Hfl.
  destruct (round_pos_mantissa x Hx) as [[X0 X1] X2].
  destruct (round_pos_mantissa y Hy) as [[Y0 Y1] Y2].
  unfold rounded.
  assert (Hg : grid x <= grid y) by (unfold grid; lia).
  destruct (Z.eq_dec (grid x) (grid y)) as [Heq|Hne].
  - rewrite <- Heq. apply Qmult_le_compat_r; [|apply Qlt_le_weak, pow2_pos].
    rewrite <- Zle_Qle. apply rint_monotone, scale_le, Hxy.
  - assert (Hlt : grid x < grid y) by lia.
    specialize (Y2 ltac:(unfold grid in *; lia)).
    apply Qle_trans with (2 ^ (grid x + 53))%Q.
    + rewrite pow2_add, (Qmult_comm (2 ^ grid x)).
      apply Qmult_le_compat_r; [|apply Qlt_le_weak, pow2_pos].
      rewrite <- (pow2_inject 53) by lia. rewrite <- Zle_Qle. exact X1.
    + apply Qle_trans with (2 ^ (grid y + 52))%Q; [apply pow2_le; lia|].
      rewrite pow2_add, (Qmult_comm (2 ^ grid y)).
      apply Qmult_le_compat_r; [|apply Qlt_le_weak, pow2_pos].
      rewrite <- (pow2_inject 52) by lia. rewrite <- Zle_Qle. exact Y2.
Qed.

Lemma rounded_nonneg (x : Q) : (0 < x)%Q -> (0 <= rounded x)%Q.
Proof.
  intros Hx. destruct (round_pos_mantissa x Hx) as [[X0 _] _]. unfold rounded.
  apply Qmult_le_0_compat; [|apply Qlt_le_weak, pow2_pos].
  change 0%Q with (inject_Z 0). rewrite <- Zle_Qle. exact X0.
Qed.

Lemma round_pos_monotone (x y : Q) :
  (0 < x)%Q -> (x <= y)%Q -> fleb (round_pos x) (round_pos y) = true.
Proof.
  intros Hx Hxy. pose proof (rounded_monotone x y Hx Hxy) as Hr.
  rewrite !round_pos_unfold.
  destruct (Qle_bool (2 ^ 1024) (rounded y)) eqn:Hy.
  - destruct (Qle_bool (2 ^ 1024) (rounded x)); reflexivity.
  - destruct (Qle_bool (2 ^ 1024) (rounded x)) eqn:Hx'.
    + apply Qle_bool_iff in Hx'. apply not_true_iff_false in Hy.
      rewrite Qle_bool_iff in Hy. exfalso. apply Hy. eapply Qle_trans; eassumption.
    + cbn [fleb]. apply Qle_bool_iff. rewrite !Qred_correct. exact Hr.
Qed.

(** A rational of the form [M * 2^E] with at most 53 bits and an exponent
    a double can carry is a double: rounding leaves it alone. *)
Lemma rounded_fix (x : Q) (M E : Z) :
  (0 < x)%Q -> (x == inject_Z M * 2 ^ E)%Q -> M <= 2 ^ 53 -> -1074 <= E ->
  (rounded x == x)%Q.
Proof.
  intros Hx Hform HM HE. destruct (floor_log2_spec x Hx) as [F1 F2].
  assert (Hint : exists z : Z, (x / 2 ^ grid x == inject_Z z)%Q).
  { destruct (Z.eq_dec M (2 ^ 53)) as [->|Hne].
    - assert (Hx53 : (x == 2 ^ (E + 53))%Q).
      { rewrite Hform, (pow2_inject 53) by lia. rewrite <- pow2_add.
        replace (53 + E) with (E + 53) by lia. reflexivity. }
      assert (Hfl : floor_log2 x = E + 53).
      { apply floor_log2_unique; rewrite Hx53; [apply Qle_refl|apply pow2_lt; lia]. }
      exists (2 ^ 52). unfold grid. rewrite Hfl.
      replace (Z.max (E + 53 - 52) (-1074)) with (E + 1) by lia.
      rewrite Hx53, scale_pow2, (pow2_inject 52) by lia.
      replace (E + 53 - (E + 1)) with 52 by lia. reflexivity.
    - assert (HM' : M <= 2 ^ 53 - 1) by lia.
      assert (Hlt : (x < 2 ^ (E + 53))%Q).
      { rewrite Hform, pow2_add, (Qmult_comm (2 ^ E)).
        apply Qmult_lt_compat_r; [apply pow2_pos|].
        rewrite <- (pow2_inject 53) by lia. rewrite <- Zlt_Qlt. lia. }
      assert (Hfl : floor_log2 x < E + 53).
      { apply pow2_lt_inv. eapply Qle_lt_trans; eassumption. }
      assert (Hg : grid x <= E) by (unfold grid; lia).
      set (g := grid x) in *. clearbody g. exists (M * 2 ^ (E - g)).
      rewrite Hform, inject_Z_mult, (pow2_inject (E - g)) by lia.
      unfold Qdiv. rewrite <- Qmult_assoc. apply Qmult_comp; [reflexivity|].
      fold (Qdiv (2 ^ E) (2 ^ g)). apply scale_pow2. }
  destruct Hint as [z Hz]. unfold rounded.
  rewrite (rint_of_Z _ z Hz), <- Hz. apply scale_back.
Qed.

Lemma round_pos_fix (x : Q) (M E : Z) :
  (0 < x)%Q -> (x == inject_Z M * 2 ^ E)%Q -> M <= 2 ^ 53 -> -1074 <= E ->
  (x < 2 ^ 1024)%Q ->
  round_pos x = Fin (Qred x).
Proof.
  intros Hx Hform HM HE Hmax. pose proof (rounded_fix x M E Hx Hform HM HE) as Hr.
  rewrite round_pos_unfold.
  destruct (Qle_bool (2 ^ 1024) (rounded x)) eqn:Hov.
  - apply Qle_bool_iff in Hov. rewrite Hr in Hov. exfalso. lra.
  - f_equal. apply Qred_complete, Hr.
Qed.

(** What [round_pos] delivers is such a rational, or the overflow. *)
Lemma round_pos_shape (x : Q) :
  (0 < x)%Q ->
  round_pos x = PInf \/
  exists (r : Q) (M E : Z),
    round_pos x = Fin r /\ Qred r = r /\ (r == inject_Z M * 2 ^ E)%Q /\
    0 <= M <= 2 ^ 53 /\ -1074 <= E /\ (r < 2 ^ 1024)%Q.
Proof.
  intros Hx. destruct (round_pos_mantissa x Hx) as [[X0 X1] _].
  rewrite round_pos_unfold. destruct (Qle_bool (2 ^ 1024) (rounded x)) eqn:Hov; [left; reflexivity|].
  right. exists (Qred (rounded x)), (rint (x / 2 ^ grid x)), (grid x).
  apply not_true_iff_false in Hov. rewrite Qle_bool_iff in Hov. apply Qnot_le_lt in Hov.
  split; [reflexivity|]. split.
  { apply Qred_complete, Qred_correct. }
  split; [rewrite Qred_correct; reflexivity|]. split; [lia|]. split.
  - unfold grid. lia.
  - rewrite Qred_correct. exact Hov.
Qed.

(** ** Rounding any rational to binary64 *)

Lemma Qred_idem (x : Q) : Qred (Qred x) = Qred x.
Proof. apply Qred_complete, Qred_correct. Qed.

Lemma Qnum_sign (x : Q) :
  match Qnum x with
  | Z0 => (x == 0)%Q
  | Zpos _ => (0 < x)%Q
  | Zneg _ => (x < 0)%Q
  end.
Proof. destruct x as [[|n|n] d]; unfold Qeq, Qlt; simpl; lia. Qed.

Lemma b64_compat (x y : Q) : (x == y)%Q -> b64 x = b64 y.
Proof. intros H. unfold b64. rewrite (Qred_complete x y H). reflexivity. Qed.

Lemma b64_zero (x : Q) : (x == 0)%Q -> b64 x = Fin 0.
Proof. intros H. rewrite (b64_compat x 0 H). reflexivity. Qed.

Lemma b64_pos (x : Q) : (0 < x)%Q -> b64 x = round_pos (Qred x).
Proof.
  intros Hx. unfold b64. pose proof (Qnum_sign (Qred x)) as Hs.
  destruct (Qnum (Qred x)); rewrite Qred_correct in Hs; [lra|reflexivity|lra].
Qed.

Lemma b64_neg (x : Q) : (x < 0)%Q -> b64 x = fneg (round_pos (- Qred x)).
Proof.
  intros Hx. unfold b64. pose proof (Qnum_sign (Qred x)) as Hs.
  destruct (Qnum (Qred x)); rewrite Qred_correct in Hs; [lra|lra|reflexivity].
Qed.

Lemma grid_compat (x y : Q) : (0 < x)%Q -> (x == y)%Q -> grid x = grid y.
Proof.
  intros Hx H. unfold grid. f_equal. f_equal.
  destruct (floor_log2_spec x Hx) as [F1 F2].
  symmetry. apply floor_log2_unique; rewrite <- H; assumption.
Qed.

Lemma rounded_compat (x y : Q) : (0 < x)%Q -> (x == y)%Q -> (rounded x == rounded y)%Q.
Proof.
  intros Hx H. unfold rounded. rewrite <- (grid_compat x y Hx H).
  set (g := grid x). clearbody g.
  rewrite (rint_compat (x / 2 ^ g) (y / 2 ^ g)); [reflexivity|].
  rewrite H. reflexivity.
Qed.

Lemma round_pos_compat (x y : Q) : (0 < x)%Q -> (x == y)%Q -> round_pos x = round_pos y.
Proof.
  intros Hx H. rewrite !round_pos_unfold.
  pose proof (rounded_compat x y Hx H) as Hr.
  rewrite (Qred_complete _ _ Hr).
  replace (Qle_bool (2 ^ 1024) (rounded x)) with (Qle_bool (2 ^ 1024) (rounded y)); [reflexivity|].
  destruct (Qle_bool (2 ^ 1024) (rounded y)) eqn:E1, (Qle_bool (2 ^ 1024) (rounded x)) eqn:E2;
    try reflexivity.
  - apply Qle_bool_iff in E1. rewrite <- Hr in E1. apply Qle_bool_iff in E1. congruence.
  - apply Qle_bool_iff in E2. rewrite Hr in E2. apply Qle_bool_iff in E2. congruence.
Qed.

Lemma b64_pos' (x : Q) : (0 < x)%Q -> b64 x = round_pos x.
Proof.
  intros Hx. rewrite (b64_pos x Hx). apply round_pos_compat.
  - rewrite Qred_correct. exact Hx.
  - apply Qred_correct.
Qed.

Lemma b64_neg' (x : Q) : (x < 0)%Q -> b64 x = fneg (round_pos (- x)).
Proof.
  intros Hx. rewrite (b64_neg x Hx). f_equal. apply round_pos_compat.
  - rewrite Qred_correct. lra.
  - rewrite Qred_correct. reflexivity.
Qed.

Lemma fneg_round_pos (y : Q) : fneg (fneg (round_pos y)) = round_pos y.
Proof.
  rewrite round_pos_unfold. destruct (Qle_bool _ _); [reflexivity|].
  cbn [fneg]. f_equal. apply Qred_complete. rewrite !Qred_correct. ring.
Qed.

Lemma b64_opp (x : Q) : b64 (- x) = fneg (b64 x).
Proof.
  destruct (Qlt_le_dec 0 x) as [Hx|Hx].
  - rewrite (b64_neg' (- x)) by lra. rewrite (b64_pos' x Hx). f_equal.
    apply round_pos_compat; [lra|ring].
  - destruct (Qle_lt_or_eq _ _ Hx) as [Hlt|Heq].
    + rewrite (b64_pos' (- x)) by lra. rewrite (b64_neg' x Hlt).
      rewrite fneg_round_pos. reflexivity.
    + rewrite (b64_zero x Heq), (b64_zero (- x)) by (rewrite Heq; reflexivity). reflexivity.
Qed.

Lemma round_pos_nonneg (x : Q) : (0 < x)%Q -> fleb (Fin 0) (round_pos x) = true.
Proof.
  intros Hx. rewrite round_pos_unfold. destruct (Qle_bool _ _); [reflexivity|].
  cbn [fleb]. apply Qle_bool_iff. rewrite Qred_correct. apply rounded_nonneg, Hx.
Qed.

Lemma fleb_fneg (x y : float64) : fleb (fneg x) (fneg y) = fleb y x.
Proof.
  destruct x as [a| | |], y as [b| | |]; try reflexivity. cbn [fneg fleb].
  destruct (Qle_bool b a) eqn:E.
  - apply Qle_bool_iff. apply Qle_bool_iff in E. rewrite !Qred_correct. lra.
  - apply not_true_iff_false. apply not_true_iff_false in E.
    rewrite Qle_bool_iff in *. rewrite !Qred_correct. lra.
Qed.

Lemma fleb_trans (x y z : float64) :
  fleb x y = true -> fleb y z = true -> fleb x z = true.
Proof.
  destruct x as [a| | |], y as [b| | |], z as [c| | |]; cbn [fleb]; try discriminate; auto.
  rewrite !Qle_bool_iff. apply Qle_trans.
Qed.

(** Rounding to the nearest double is monotone. *)
Lemma b64_monotone (x y : Q) : (x <= y)%Q -> fleb (b64 x) (b64 y) = true.
Proof.
  intros Hxy.
  assert (Hneg : forall z : Q, (z < 0)%Q -> fleb (b64 z) (Fin 0) = true).
  { intros z Hz. rewrite (b64_neg' z Hz). change (Fin 0) with (fneg (Fin 0)).
    rewrite fleb_fneg. apply round_pos_nonneg. lra. }
  destruct (Qlt_le_dec 0 x) as [Hx|Hx].
  - rewrite (b64_pos' x Hx), (b64_pos' y) by lra. apply round_pos_monotone; assumption.
  - destruct (Qlt_le_dec 0 y) as [Hy|Hy].
    + apply fleb_trans with (Fin 0).
      * destruct (Qle_lt_or_eq _ _ Hx) as [Hlt|Heq];
          [apply Hneg, Hlt|rewrite (b64_zero x Heq); reflexivity].
      * rewrite (b64_pos' y Hy). apply round_pos_nonneg, Hy.
    + destruct (Qle_lt_or_eq _ _ Hy) as [Hlt|Heq].
      * rewrite (b64_neg' x), (b64_neg' y) by lra. rewrite fleb_fneg.
        apply round_pos_monotone; lra.
      * rewrite (b64_zero y Heq).
        destruct (Qle_lt_or_eq _ _ Hx) as [Hlt'|Heq'];
          [apply Hneg, Hlt'|rewrite (b64_zero x Heq'); reflexivity].
Qed.

Lemma b64_fix (x : Q) (M E : Z) :
  (x == inject_Z M * 2 ^ E)%Q -> Z.abs M <= 2 ^ 53 -> -1074 <= E ->
  (Qabs x < 2 ^ 1024)%Q ->
  b64 x = Fin (Qred x).
Proof.
  intros Hform HM HE Hmax.
  destruct (Qlt_le_dec 0 x) as [Hx|Hx].
  - rewrite (b64_pos' x Hx). apply (round_pos_fix x M E); try assumption; try lia.
    rewrite Qabs_pos in Hmax by lra. exact Hmax.
  - destruct (Qle_lt_or_eq _ _ Hx) as [Hlt|Heq].
    + rewrite (b64_neg' x Hlt).
      rewrite (round_pos_fix (- x) (- M) E); try lia; try lra.
      * cbn [fneg]. f_equal. apply Qred_complete. rewrite Qred_correct. ring.
      * rewrite Hform, inject_Z_opp. ring.
      * rewrite Qabs_neg in Hmax by lra. exact Hmax.
    + rewrite (b64_zero x Heq). f_equal. symmetry. apply (Qred_complete x 0 Heq).
Qed.

Lemma b64_double (r : Q) : is_double r -> b64 r = Fin r.
Proof.
  intros (Hred & M & E & Hform & HM & HE & Hmax).
  rewrite (b64_fix r M E Hform HM HE Hmax), Hred. reflexivity.
Qed.

Lemma round_pos_is_double (y r : Q) :
  (0 < y)%Q -> round_pos y = Fin r -> is_double r /\ (0 <= r)%Q.
Proof.
  intros Hy Hr.
  destruct (round_pos_shape y Hy) as [Hinf|(r0 & M & E & Hr0 & H1 & H2 & H3 & H4 & H5)].
  - congruence.
  - rewrite Hr in Hr0. injection Hr0 as <-.
    assert (Hnn : (0 <= r)%Q).
    { rewrite H2. apply Qmult_le_0_compat; [|apply Qlt_le_weak, pow2_pos].
      change 0%Q with (inject_Z 0). rewrite <- Zle_Qle. lia. }
    split; [|exact Hnn]. split; [exact H1|].
    exists M, E. split; [exact H2|]. split; [lia|]. split; [exact H4|].
    rewrite Qabs_pos by exact Hnn. exact H5.
Qed.

Lemma is_double_opp (r : Q) : is_double r -> is_double (Qred (- r)).
Proof.
  intros (H1 & M & E & H2 & H3 & H4 & H5).
  split; [apply Qred_idem|]. exists (- M), E.
  split; [rewrite Qred_correct, H2, inject_Z_opp; ring|].
  split; [lia|]. split; [exact H4|].
  rewrite Qred_correct, Qabs_opp. exact H5.
Qed.

Lemma is_double_0 : is_double 0.
Proof.
  split; [reflexivity|]. exists 0, 0. split; [reflexivity|]. split; [lia|]. split; [lia|].
  apply pow2_pos.
Qed.

(** What [b64] delivers is a double. *)
Lemma b64_is_double (x r : Q) : b64 x = Fin r -> is_double r.
Proof.
  intros Hb. destruct (Qlt_le_dec 0 x) as [Hx|Hx].
  - rewrite (b64_pos' x Hx) in Hb. apply (round_pos_is_double x r Hx Hb).
  - destruct (Qle_lt_or_eq _ _ Hx) as [Hlt|Heq].
    + rewrite (b64_neg' x Hlt) in Hb.
      destruct (round_pos (- x)) as [r'| | |] eqn:Hr; try discriminate.
      cbn [fneg] in Hb. injection Hb as <-.
      apply is_double_opp. apply (round_pos_is_double (- x) r'); [lra|exact Hr].
    + rewrite (b64_zero x Heq) in Hb. injection Hb as <-. apply is_double_0.
Qed.

Lemma b64_idempotent (x r : Q) : b64 x = Fin r -> b64 r = Fin r.
Proof. intros H. apply b64_double, (b64_is_double x r H). Qed.

Lemma Qred_inject_Z (z : Z) : Qred (inject_Z z) = inject_Z z.
Proof.
  unfold Qred, inject_Z. pose proof (Z.ggcd_correct_divisors z 1) as H.
  pose proof (Z.ggcd_gcd z 1) as Hg. rewrite Z.gcd_1_r in Hg.
  destruct (Z.ggcd z 1) as [g [a b]]. simpl in *. subst g.
  destruct H as [-> H]. f_equal; [lia|]. replace b with 1 by lia. reflexivity.
Qed.

Lemma is_double_of_Z (z : Z) : Z.abs z <= 2 ^ 53 -> is_double (inject_Z z).
Proof.
  intros Hz. split; [apply Qred_inject_Z|]. exists z, 0.
  split; [change (2 ^ 0)%Q with 1%Q; ring|]. split; [exact Hz|]. split; [lia|].
  apply Qle_lt_trans with (inject_Z (2 ^ 53)).
  - apply Qabs_Qle_condition. rewrite <- inject_Z_opp, <- !Zle_Qle. lia.
  - rewrite (pow2_inject 53) by lia. apply pow2_lt. lia.
Qed.

Lemma b64_of_Z (z : Z) : Z.abs z <= 2 ^ 53 -> b64 (inject_Z z) = Fin (inject_Z z).
Proof. intros Hz. apply b64_double, is_double_of_Z, Hz. Qed.

(** Rounding stays within integer bounds. *)
Lemma b64_between (x : Q) (a b : Z) :
  Z.abs a <= 2 ^ 53 -> Z.abs b <= 2 ^ 53 ->
  (inject_Z a <= x)%Q -> (x <= inject_Z b)%Q ->
  exists r : Q, b64 x = Fin r /\ is_double r /\ (inject_Z a <= r)%Q /\ (r <= inject_Z b)%Q.
Proof.
  intros Ha Hb Hax Hxb.
  pose proof (b64_monotone _ _ Hax) as H1. pose proof (b64_monotone _ _ Hxb) as H2.
  rewrite (b64_of_Z a Ha) in H1. rewrite (b64_of_Z b Hb) in H2.
  destruct (b64 x) as [r| | |] eqn:Hr; cbn [fleb] in H1, H2; try discriminate.
  exists r. split; [reflexivity|]. split; [apply (b64_is_double x r Hr)|].
  split; apply Qle_bool_iff; assumption.
Qed.

(** ** Bounds that survive rounding *)

Lemma small_integer (a : Z) : -9007199254740992 <= a <= 9007199254740992 -> Z.abs a <= 2 ^ 53.
Proof. change (2 ^ 53) with 9007199254740992. lia. Qed.

Lemma rint_bounds (q : Q) (a b : Z) :
  (inject_Z a <= q)%Q -> (q <= inject_Z b)%Q -> a <= rint q <= b.
Proof.
  intros Ha Hb. split.
  - rewrite <- (rint_of_Z (inject_Z a) a) by reflexivity. apply rint_monotone, Ha.
  - rewrite <- (rint_of_Z (inject_Z b) b) by reflexivity. apply rint_monotone, Hb.
Qed.

Lemma to_double_between (q : Q) (a b : Z) :
  Z.abs a <= 2 ^ 53 -> Z.abs b <= 2 ^ 53 ->
  (inject_Z a <= q)%Q -> (q <= inject_Z b)%Q ->
  exists r : Q, to_double (Fin q) = Fin r /\ is_double r /\ (inject_Z a <= r)%Q /\ (r <= inject_Z b)%Q.
Proof. apply b64_between. Qed.

Lemma to_double_double (r : Q) : is_double r -> to_double (Fin r) = Fin r.
Proof. apply b64_double. Qed.

Lemma py_round_between (ndigits : Z) (q : Q) (a b : Z) :
  0 <= ndigits -> Z.abs a <= 2 ^ 53 -> Z.abs b <= 2 ^ 53 ->
  (inject_Z a <= q)%Q -> (q <= inject_Z b)%Q ->
  exists r : Q,
    py_round ndigits (Fin q) = Fin r /\ is_double r /\ (inject_Z a <= r)%Q /\ (r <= inject_Z b)%Q.
Proof.
  intros Hn Ha Hb Haq Hqb. unfold py_round.
  assert (Hs : 0 < 10 ^ ndigits) by (apply Z.pow_pos_nonneg; lia).
  set (s := 10 ^ ndigits) in *. clearbody s.
  assert (HsQ : (0 < inject_Z s)%Q) by (change 0%Q with (inject_Z 0); rewrite <- Zlt_Qlt; exact Hs).
  destruct (rint_bounds (q * inject_Z s) (a * s) (b * s)) as [H1 H2].
  - rewrite inject_Z_mult. apply Qmult_le_compat_r; [exact Haq|apply Qlt_le_weak, HsQ].
  - rewrite inject_Z_mult. apply Qmult_le_compat_r; [exact Hqb|apply Qlt_le_weak, HsQ].
  - set (z := rint (q * inject_Z s)) in *. clearbody z.
    apply b64_between; try assumption.
    + apply Qle_shift_div_l; [exact HsQ|]. rewrite <- inject_Z_mult, <- Zle_Qle. exact H1.
    + apply Qle_shift_div_r; [exact HsQ|]. rewrite <- inject_Z_mult, <- Zle_Qle. exact H2.
Qed.

Lemma round2_bounds (q : Q) (a b : Z) :
  Z.abs a <= 2 ^ 53 -> Z.abs b <= 2 ^ 53 ->
  (inject_Z a <= q)%Q -> (q <= inject_Z b)%Q ->
  exists r : Q,
    round2 (Fin q) = Fin r /\ is_double r /\ (inject_Z a <= r)%Q /\ (r <= inject_Z b)%Q.
Proof. apply py_round_between. lia. Qed.

Lemma round1_bounds (q : Q) (a b : Z) :
  Z.abs a <= 2 ^ 53 -> Z.abs b <= 2 ^ 53 ->
  (inject_Z a <= q)%Q -> (q <= inject_Z b)%Q ->
  exists r : Q,
    round1 (Fin q) = Fin r /\ is_double r /\ (inject_Z a <= r)%Q /\ (r <= inject_Z b)%Q.
Proof. apply py_round_between. lia. Qed.

(** A product with a factor between 0 and 1 does not exceed the other
    factor, also after rounding. *)
Lemma fmul_fraction (s f : Q) :
  is_double s -> (0 <= s)%Q -> (0 <= f)%Q -> (f <= 1)%Q ->
  exists p : Q, fmul (Fin s) (Fin f) = Fin p /\ is_double p /\ (0 <= p)%Q /\ (p <= s)%Q.
Proof.
  intros Hd Hs Hf0 Hf1. cbn [fmul].
  assert (H0 : (0 <= s * f)%Q) by (apply Qmult_le_0_compat; assumption).
  assert (H1 : (s * f <= s)%Q).
  { rewrite <- (Qmult_1_r s) at 2. rewrite !(Qmult_comm s).
    apply Qmult_le_compat_r; assumption. }
  pose proof (b64_monotone _ _ H0) as M0. pose proof (b64_monotone _ _ H1) as M1.
  rewrite (b64_zero 0) in M0 by reflexivity. rewrite (b64_double s Hd) in M1.
  destruct (b64 (s * f)) as [p| | |] eqn:Hp; cbn [fleb] in M0, M1; try discriminate.
  exists p. split; [reflexivity|]. split; [apply (b64_is_double _ _ Hp)|].
  split; apply Qle_bool_iff; assumption.
Qed.

(** A difference of two doubles in the right order is not negative. *)
Lemma fsub_nonneg (s p : Q) :
  is_double s -> (0 <= p)%Q -> (p <= s)%Q ->
  exists d : Q, fsub (Fin s) (Fin p) = Fin d /\ is_double d /\ (0 <= d)%Q /\ (d <= s)%Q.
Proof.
  intros Hd Hp Hps. unfold fsub. cbn [fneg fadd].
  assert (H0 : (0 <= s + Qred (- p))%Q) by (rewrite Qred_correct; lra).
  assert (H1 : (s + Qred (- p) <= s)%Q) by (rewrite Qred_correct; lra).
  pose proof (b64_monotone _ _ H0) as M0. pose proof (b64_monotone _ _ H1) as M1.
  rewrite (b64_zero 0) in M0 by reflexivity. rewrite (b64_double s Hd) in M1.
  destruct (b64 (s + Qred (- p))) as [d| | |] eqn:Hdiff; cbn [fleb] in M0, M1; try discriminate.
  exists d. split; [reflexivity|]. split; [apply (b64_is_double _ _ Hdiff)|].
  split; apply Qle_bool_iff; assumption.
Qed.

(** ** The order of doubles and of strings *)

Ltac qle_cases :=
  repeat match goal with
    | |- context [Qle_bool ?a ?b] =>
        let E := fresh "E" in
        destruct (Qle_bool a b) eqn:E;
        [apply Qle_bool_iff in E
        |apply not_true_iff_false in E; rewrite Qle_bool_iff in E]
    end.




Lemma feqb_Fin (x : float64) (z : Z) :
  feqb x (of_Z z) = true -> exists q : Q, x = Fin q /\ (q == inject_Z z)%Q.
Proof.
  unfold feqb, of_Z. destruct x as [q| | |]; simpl; try discriminate.
  intros [H1 H2]%andb_prop. apply Qle_bool_iff in H1, H2.
  exists q. split; [reflexivity|]. apply Qle_antisym; assumption.
Qed.






Lemma Z_ltb_trans (a b c : Z) : (a <? b) = true -> (b <? c) = true -> (a <? c) = true.
Proof. rewrite !Z.ltb_lt. lia. Qed.

Lemma Z_ltb_total (a b : Z) : (a <? b) = false -> a <> b -> (b <? a) = true.
Proof. rewrite Z.ltb_ge, Z.ltb_lt. lia. Qed.

(** Membership in a list written out with [++] and [::]. *)
Ltac in_list := rewrite ?elem_of_app, ?elem_of_cons; auto 10.

(** ** Rounding, on examples *)

(** 0.1 as a double, the largest double, the overflow and the smallest
    subnormal number. *)
Example b64_examples :
  b64 (1 # 10) = Fin (3602879701896397 # 36028797018963968) /\
  b64 (2 ^ 1024 - 2 ^ 970 - 1) = Fin (2 ^ 1024 - 2 ^ 971) /\
  b64 (2 ^ 1024 - 2 ^ 970) = PInf /\
  b64 (3 # 2 ^ 1075) = Fin (1 # 2 ^ 1073).
Proof. repeat split; vm_compute; reflexivity. Qed.

(** [0.1 + 0.2] is not [0.3], and [1.1 + 2.2 - 3.3] is not 0. *)
Example fadd_rounds :
  fadd (b64 (1 # 10)) (b64 (2 # 10)) = Fin (1351079888211149 # 4503599627370496) /\
  fltb (b64 (3 # 10)) (fadd (b64 (1 # 10)) (b64 (2 # 10))) = true /\
  fsub (fadd (b64 (11 # 10)) (b64 (22 # 10))) (b64 (33 # 10)) = Fin (1 # 2 ^ 51).
Proof. repeat split; vm_compute; reflexivity. Qed.

(** Python rounds the double 2.675, which lies below the decimal, to 2.67;
    numpy multiplies first, gets 267.5, and arrives at 2.68. *)
Example round2_2675 :
  round2 (b64 (2675 # 1000)) = b64 (267 # 100) /\
  np_round2 (b64 (2675 # 1000)) = b64 (268 # 100) /\
  round2 (Fin 50) = Fin 50 /\
  round2 (b64 (1005 # 1000)) = Fin 1 /\
  round2 (Fin (1 # 8)) = b64 (12 # 100).
Proof. repeat split; vm_compute; reflexivity. Qed.

(** 23 clean rows of 160 score 14.37, not the 14.38 of the decimals. *)
Example score_23_of_160 :
  py_truediv 23 160 = Ok (b64 (23 # 160)) /\
  round2 (fmul (b64 (23 # 160)) (of_Z 100)) = b64 (1437 # 100).
Proof. split; vm_compute; reflexivity. Qed.

(** ** What one run of a method does *)

Lemma transform_data_run (now : nat -> datetime) (self : ETLPipeline) (raw : list Raw.Row) :
  raw_data self = Some (Table raw) ->
  exists entries : list string,
    transform_data now self =
      match quality_summary now raw with
      | Ok rep =>
          (Ok (Some (frame_of now raw)),
           {| raw_data := Some (Table raw);
              processed_data := Some (frame_of now raw);
              data_quality_report := Some rep;
              processing_logs := processing_logs self ++ entries |})
      | Raise e =>
          (Raise e,
           {| raw_data := Some (Table raw);
              processed_data := processed_data self;
              data_quality_report := data_quality_report self;
              processing_logs := processing_logs self ++ entries |})
      end.
Proof.
  intros Hraw. destruct self as [rd pd rep logs]. simpl in Hraw. subst rd.
  unfold transform_data, quality_summary, frame_of.
  unfold mbind, M_bind, mret, M_ret, get_self, log, lift,
    set_data_quality_report, set_processed_data; simpl.
  destruct (str (customer_email <$> (convert_types <$> raw))) as [emails|e]; simpl.
  - destruct (validate (convert_types <$> raw)) as [issues flags] eqn:Hv; simpl.
    destruct (getitem_bool _ _) as [clean|e]; simpl.
    + destruct (py_truediv _ _) as [ratio|e]; simpl.
      * eexists. rewrite <- !app_assoc. simpl. reflexivity.
      * eexists. rewrite <- !app_assoc. simpl. reflexivity.
    + eexists. rewrite <- !app_assoc. simpl. reflexivity.
  - eexists. rewrite <- !app_assoc. simpl. reflexivity.
Qed.

Lemma transform_data_no_columns (now : nat -> datetime) (self : ETLPipeline) :
  raw_data self = Some NoColumns ->
  exists entries : list string,
    transform_data now self =
      (Raise KeyError,
       {| raw_data := Some NoColumns;
          processed_data := processed_data self;
          data_quality_report := data_quality_report self;
          processing_logs := processing_logs self ++ entries |}).
Proof.
  intros Hraw. destruct self as [rd pd rep logs]. simpl in Hraw. subst rd.
  eexists. unfold transform_data.
  unfold mbind, M_bind, mret, M_ret, get_self, log, lift; simpl.
  rewrite <- !app_assoc. simpl. reflexivity.
Qed.

Lemma transform_data_no_raw (now : nat -> datetime) (self : ETLPipeline) :
  raw_data self = None ->
  exists entry : string,
    transform_data now self =
      (Ok None,
       {| raw_data := None;
          processed_data := processed_data self;
          data_quality_report := data_quality_report self;
          processing_logs := processing_logs self ++ [entry] |}).
Proof.
  intros Hraw. destruct self as [rd pd rep logs]. simpl in Hraw. subst rd.
  eexists. reflexivity.
Qed.

(** A run that returns a frame read a raw table, built [frame_of] it and
    stored the report of [quality_summary]. *)
Lemma transform_data_returns (now : nat -> datetime) (self self' : ETLPipeline) (df : DataFrame) :
  transform_data now self = (Ok (Some df), self') ->
  exists (raw : list Raw.Row) (rep : Report),
    raw_data self = Some (Table raw) /\ df = frame_of now raw /\
    quality_summary now raw = Ok rep /\
    raw_data self' = Some (Table raw) /\ processed_data self' = Some df /\
    data_quality_report self' = Some rep.
Proof.
  intros Hrun. destruct (raw_data self) as [[|raw]|] eqn:Hraw.
  - destruct (transform_data_no_columns now self Hraw) as [entries Heq].
    rewrite Heq in Hrun. discriminate.
  - destruct (transform_data_run now self raw Hraw) as [entries Heq].
    destruct (quality_summary now raw) as [rep|e] eqn:Hsum; rewrite Heq in Hrun;
      [|discriminate].
    inversion Hrun; subst. exists raw, rep. repeat split; assumption || reflexivity.
  - destruct (transform_data_no_raw now self Hraw) as [entry Heq].
    rewrite Heq in Hrun. discriminate.
Qed.

Lemma load_and_analyze_run (now : nat -> datetime) (self : ETLPipeline) (df : DataFrame) :
  processed_data self = Some df ->
  exists entries : list string,
    load_and_analyze now self =
      (match insights_of df with
       | Ok insights => Ok (Some insights)
       | Raise e => Raise e
       end,
       {| raw_data := raw_data self;
          processed_data := Some df;
          data_quality_report := data_quality_report self;
          processing_logs := processing_logs self ++ entries |}).
Proof.
  intros Hpd. destruct self as [rd pd rep logs]. simpl in Hpd. subst pd.
  unfold load_and_analyze, insights_of.
  unfold mbind, M_bind, mret, M_ret, get_self, log, lift; simpl.
  destruct (idxmax (revenue_by category df)) as [top|e]; simpl.
  - destruct (idxmax (revenue_by region df)) as [best|e]; simpl.
    + eexists. rewrite <- !app_assoc. simpl. reflexivity.
    + eexists. reflexivity.
  - eexists. reflexivity.
Qed.

Lemma load_and_analyze_no_table (now : nat -> datetime) (self : ETLPipeline) :
  processed_data self = None ->
  exists entry : string,
    load_and_analyze now self =
      (Ok None,
       {| raw_data := raw_data self;
          processed_data := None;
          data_quality_report := data_quality_report self;
          processing_logs := processing_logs self ++ [entry] |}).
Proof.
  intros Hpd. destruct self as [rd pd rep logs]. simpl in Hpd. subst pd.
  eexists. reflexivity.
Qed.

Lemma generate_sample_data_run (now : nat -> datetime) (draws : nat -> Draws) (n : nat)
    (self : ETLPipeline) :
  exists entries : list string,
    generate_sample_data now draws n self =
      (Ok (DataFrame_of_records (sample_table draws n)),
       {| raw_data := Some (DataFrame_of_records (sample_table draws n));
          processed_data := processed_data self;
          data_quality_report := data_quality_report self;
          processing_logs := processing_logs self ++ entries |}).
Proof.
  destruct self as [rd pd rep logs]. eexists.
  unfold generate_sample_data, sample_table.
  unfold mbind, M_bind, mret, M_ret, log, set_raw_data.
  cbn [fst snd raw_data processed_data data_quality_report processing_logs].
  rewrite <- !app_assoc. reflexivity.
Qed.

Lemma extract_data_run (now : nat -> datetime) (draws : nat -> Draws)
    (uploaded_file : option (list Raw.Row + string)) (self : ETLPipeline) :
  exists entries : list string,
    extract_data now draws uploaded_file self =
      (Ok match uploaded_file with
          | Some (inl table) => Some (Table table)
          | Some (inr _) => None
          | None => Some (DataFrame_of_records (sample_table draws 1000))
          end,
       {| raw_data :=
            match uploaded_file with
            | Some (inl table) => Some (Table table)
            | Some (inr _) => raw_data self
            | None => Some (DataFrame_of_records (sample_table draws 1000))
            end;
          processed_data := processed_data self;
          data_quality_report := data_quality_report self;
          processing_logs := processing_logs self ++ entries |}).
Proof.
  destruct uploaded_file as [[table|e]|].
  - destruct self as [rd pd rep logs]. eexists. reflexivity.
  - destruct self as [rd pd rep logs]. eexists. reflexivity.
  - destruct (generate_sample_data_run now draws 1000 self) as [entries Hrun].
    exists entries. unfold extract_data. unfold mbind, M_bind. rewrite Hrun. reflexivity.
Qed.

Lemma log_run (now : datetime) (message : string) (self : ETLPipeline) :
  exists entry : string,
    log now message self =
      (Ok entry,
       {| raw_data := raw_data self;
          processed_data := processed_data self;
          data_quality_report := data_quality_report self;
          processing_logs := processing_logs self ++ [entry] |}).
Proof. eexists. reflexivity. Qed.

(** ** The flag column *)

Lemma mask_sum_zero (mask : list bool) (i : nat) (b : bool) :
  mask_sum mask = 0%nat -> mask !! i = Some b -> b = false.
Proof.
  revert i. induction mask as [|m mask IH]; intros i Hsum Hi; [done|].
  simpl in Hsum. destruct i as [|i]; simpl in Hi.
  - injection Hi as <-. destruct m; [discriminate|reflexivity].
  - apply (IH i); [destruct m; simpl in Hsum; lia|exact Hi].
Qed.

Lemma loc_set_wf (mask : list bool) (label : string) (n : nat) col :
  length mask = n -> col_wf n col -> col_wf n (loc_set mask label n col).
Proof.
  intros Hm Hc. unfold loc_set, col_wf. rewrite length_zip_with.
  destruct col as [c|]; simpl in *; [|rewrite length_replicate]; lia.
Qed.

Lemma col_at_loc_set (mask : list bool) (label : string) (n i : nat) (b : bool) col :
  length mask = n -> col_wf n col -> mask !! i = Some b ->
  col_at (loc_set mask label n col) i = if b then Some label else col_at col i.
Proof.
  intros Hm Hc Hi. unfold loc_set, col_at at 1.
  assert (Hlt : (i < n)%nat) by (rewrite <- Hm; eapply lookup_lt_Some; eauto).
  rewrite lookup_zip_with, Hi. simpl.
  destruct col as [c|]; simpl in *.
  - destruct (lookup_lt_is_Some_2 c i) as [old Hold]; [lia|].
    rewrite Hold. simpl. reflexivity.
  - rewrite lookup_replicate_2 by lia. simpl. destruct b; reflexivity.
Qed.

Lemma flag_rule_wf (issue label : string) (mask : list bool) (n : nat) st :
  length mask = n -> col_wf n st.2 -> col_wf n (flag_rule issue label mask n st).2.
Proof.
  intros Hm Hc. unfold flag_rule. destruct (0 <? mask_sum mask)%nat; simpl.
  - apply loc_set_wf; assumption.
  - assumption.
Qed.

Lemma col_at_flag_rule (issue label : string) (mask : list bool) (n i : nat) (b : bool) st :
  length mask = n -> col_wf n st.2 -> mask !! i = Some b ->
  col_at (flag_rule issue label mask n st).2 i = if b then Some label else col_at st.2 i.
Proof.
  intros Hm Hc Hi. unfold flag_rule.
  destruct (0 <? mask_sum mask)%nat eqn:Hpos; simpl.
  - apply col_at_loc_set; assumption.
  - apply Nat.ltb_ge in Hpos.
    rewrite (mask_sum_zero mask i b) by (lia || assumption). reflexivity.
Qed.

Lemma validate_wf (df : list Typed) : col_wf (length df) (validate df).2.
Proof.
  unfold validate. repeat apply flag_rule_wf; try apply length_fmap. exact I.
Qed.

Lemma col_at_validate (df : list Typed) (i : nat) (r : Typed) :
  df !! i = Some r -> col_at (validate df).2 i = last_rule_wins r.
Proof.
  intros Hi. unfold validate, last_rule_wins.
  rewrite (col_at_flag_rule _ _ _ _ i (quantity_invalid r));
    [|apply length_fmap| |rewrite list_lookup_fmap, Hi; reflexivity].
  2: { repeat apply flag_rule_wf; try apply length_fmap. exact I. }
  destruct (quantity_invalid r); [reflexivity|].
  rewrite (col_at_flag_rule _ _ _ _ i (price_invalid r));
    [|apply length_fmap| |rewrite list_lookup_fmap, Hi; reflexivity].
  2: { repeat apply flag_rule_wf; try apply length_fmap. exact I. }
  destruct (price_invalid r); [reflexivity|].
  rewrite (col_at_flag_rule _ _ _ _ i (email_invalid r));
    [|apply length_fmap|exact I|rewrite list_lookup_fmap, Hi; reflexivity].
  destruct (email_invalid r); reflexivity.
Qed.

Lemma base_enrich (today : Date) (df : list Typed) : base <$> enrich today df = df.
Proof.
  unfold enrich. rewrite <- list_fmap_compose.
  rewrite <- (list_fmap_id df) at 2. apply list_fmap_ext. intros i r _. reflexivity.
Qed.

Lemma length_enrich (today : Date) (df : list Typed) : length (enrich today df) = length df.
Proof. unfold enrich. apply length_fmap. Qed.

Lemma rows_frame_of (now : nat -> datetime) (raw : list Raw.Row) (i : nat) (r : Row) :
  rows (frame_of now raw) !! i = Some r ->
  (convert_types <$> raw) !! i = Some (base r).
Proof.
  intros Hi. rewrite <- (base_enrich (date (now 5%nat)) (convert_types <$> raw)).
  rewrite list_lookup_fmap. unfold frame_of in Hi. simpl in Hi. rewrite Hi. reflexivity.
Qed.

Lemma base_rows_frame_of (now : nat -> datetime) (raw : list Raw.Row) :
  base <$> rows (frame_of now raw) = convert_types <$> raw.
Proof. unfold frame_of. simpl. apply base_enrich. Qed.

Lemma flag_at_frame_of (now : nat -> datetime) (raw : list Raw.Row) (i : nat) (r : Row) :
  rows (frame_of now raw) !! i = Some r ->
  flag_at (frame_of now raw) i = last_rule_wins r.
Proof.
  intros Hi. apply rows_frame_of in Hi.
  apply col_at_validate in Hi. exact Hi.
Qed.

(** ** Claims about the validator and the price tiers *)

(** C1, counterexample: the row whose email has no at-sign and whose price
    is -10 ends up flagged [Invalid Price]: the price rule, applied after
    the email rule, overwrote its label. *)
Lemma email_flag_overwritten_by_price :
  exists df : DataFrame,
    (transform_data clock (loaded [no_at_negative_price])).1 = Ok (Some df) /\
    email_invalid (convert_types no_at_negative_price) = true /\
    price_invalid (convert_types no_at_negative_price) = true /\
    flag_at df 0 = Some "Invalid Price" /\
    flag_at df 0 <> Some "Invalid Email".
Proof.
  eexists. split; [vm_compute; reflexivity|].
  repeat split; try (vm_compute; reflexivity). discriminate.
Qed.

(** C1, as amended: every row of the processed table carries at most one
    [data_quality_flag], and it is the label of the LAST rule that matches
    in the order email, price, quantity: a quantity at or below zero gives
    [Invalid Quantity], otherwise a price at or below zero gives
    [Invalid Price], otherwise an email without an at-sign gives
    [Invalid Email], otherwise the row has no flag. *)
Theorem flag_is_last_matching_rule
    (now : nat -> datetime) (self self' : ETLPipeline) (df : DataFrame) (i : nat) (r : Row) :
  transform_data now self = (Ok (Some df), self') ->
  rows df !! i = Some r ->
  flag_at df i =
    if quantity_invalid r then Some "Invalid Quantity"
    else if price_invalid r then Some "Invalid Price"
    else if email_invalid r then Some "Invalid Email"
    else None.
Proof.
  intros Hrun Hi.
  destruct (transform_data_returns now self self' df Hrun) as (raw & rep & _ & -> & _).
  exact (flag_at_frame_of now raw i r Hi).
Qed.

Lemma flag_is_last_matching_rule_witness :
  exists r : Row,
    rows (frame_of clock [no_at_negative_price]) !! 0%nat = Some r /\
    flag_at (frame_of clock [no_at_negative_price]) 0 = Some "Invalid Price".
Proof.
  eexists. split; [vm_compute; reflexivity|].
  rewrite (flag_is_last_matching_rule clock (loaded [no_at_negative_price])
             (transform_data clock (loaded [no_at_negative_price])).2
             (frame_of clock [no_at_negative_price]) 0 _
             ltac:(vm_compute; reflexivity) ltac:(vm_compute; reflexivity)).
  vm_compute. reflexivity.
Defined.

(** [pd.cut] with these edges sorts a price into right-closed brackets. *)
Lemma cut_right_closed (p : float64) :
  cut p =
    if fltb f0 p && fleb p (of_Z 50) then Some "Budget"
    else if fltb (of_Z 50) p && fleb p (of_Z 200) then Some "Mid-range"
    else if fltb (of_Z 200) p && fleb p (of_Z 500) then Some "Premium"
    else if fltb (of_Z 500) p then Some "Luxury"
    else None.
Proof.
  destruct p as [q| | |]; try reflexivity.
  unfold cut, bins, searchsorted_left, fltb, fleb, f0, of_Z, isna.
  qle_cases; simpl; try reflexivity; exfalso;
    unfold inject_Z in *; lra.
Qed.

(** C2, counterexample: price 0 gets no tier, price 50 is [Budget] and
    price 500 is [Premium]. *)
Lemma edge_prices_fall_in_lower_bracket :
  exists df : DataFrame,
    (transform_data clock (loaded edge_prices)).1 = Ok (Some df) /\
    (fun r : Row => (price r, price_tier r)) <$> rows df =
      [(Fin 0, None); (Fin 50, Some "Budget"); (Fin 500, Some "Premium")] /\
    cut (Fin 0) <> Some "Budget" /\
    cut (Fin 50) <> Some "Mid-range" /\
    cut (Fin 500) <> Some "Luxury".
Proof.
  eexists. split; [vm_compute; reflexivity|].
  repeat split; try (vm_compute; reflexivity); discriminate.
Qed.

(** C2, as amended: [price_tier] is computed from [price] alone with
    right-closed brackets: Budget (0,50], Mid-range (50,200], Premium
    (200,500], Luxury above 500; a price at or below 0, or a missing
    price, has no tier. *)
Theorem price_tier_right_closed
    (now : nat -> datetime) (self self' : ETLPipeline) (df : DataFrame) (i : nat) (r : Row) :
  transform_data now self = (Ok (Some df), self') ->
  rows df !! i = Some r ->
  price_tier r =
    if fltb f0 (price r) && fleb (price r) (of_Z 50) then Some "Budget"
    else if fltb (of_Z 50) (price r) && fleb (price r) (of_Z 200) then Some "Mid-range"
    else if fltb (of_Z 200) (price r) && fleb (price r) (of_Z 500) then Some "Premium"
    else if fltb (of_Z 500) (price r) then Some "Luxury"
    else None.
Proof.
  intros Hrun Hi.
  destruct (transform_data_returns now self self' df Hrun) as (raw & rep & _ & -> & _).
  unfold frame_of, enrich in Hi. simpl in Hi.
  rewrite list_lookup_fmap in Hi.
  destruct ((convert_types <$> raw) !! i) as [t|]; [|discriminate].
  simpl in Hi. injection Hi as <-. simpl. apply cut_right_closed.
Qed.

Lemma price_tier_right_closed_witness :
  exists r : Row,
    rows (frame_of clock edge_prices) !! 1%nat = Some r /\
    price r = Fin 50 /\ price_tier r = Some "Budget".
Proof.
  eexists. split; [vm_compute; reflexivity|]. split; [reflexivity|].
  rewrite (price_tier_right_closed clock (loaded edge_prices)
             (transform_data clock (loaded edge_prices)).2
             (frame_of clock edge_prices) 1 _
             ltac:(vm_compute; reflexivity) ltac:(vm_compute; reflexivity)).
  vm_compute. reflexivity.
Defined.

(** ** Grouping by any key *)

Section groupby_facts.
Context {K : Type} `{!EqDecision K} (keqb kltb : K -> K -> bool).
Hypothesis keqb_eq : forall a b : K, keqb a b = true <-> a = b.
Hypothesis kltb_irrefl : forall a : K, kltb a a = false.
Hypothesis kltb_trans : forall a b c : K, kltb a b = true -> kltb b c = true -> kltb a c = true.
Hypothesis kltb_total : forall a b : K, kltb a b = false -> a <> b -> kltb b a = true.

Lemma keqb_refl (a : K) : keqb a a = true.
Proof. apply keqb_eq. reflexivity. Qed.

Lemma keqb_neq (a b : K) : a <> b -> keqb a b = false.
Proof.
  intros Hne. destruct (keqb a b) eqn:E; [|reflexivity].
  apply keqb_eq in E. contradiction.
Qed.

Lemma elem_of_upsert_fst (k x : K) (v : float64) (acc : list (K * Kahan)) :
  x ∈ (upsert keqb kltb k v acc).*1 <-> x = k \/ x ∈ acc.*1.
Proof.
  induction acc as [|[k' s] acc IH]; simpl.
  - rewrite list_elem_of_singleton. rewrite elem_of_nil. tauto.
  - destruct (keqb k k') eqn:E; simpl.
    + apply keqb_eq in E. subst k'. rewrite !elem_of_cons. tauto.
    + destruct (kltb k k'); simpl; rewrite !elem_of_cons; [tauto|].
      rewrite IH. tauto.
Qed.

Lemma upsert_keeps_order (k : K) (v : float64) (acc : list (K * Kahan)) :
  StronglySorted (fun a b => kltb a b = true) acc.*1 ->
  StronglySorted (fun a b => kltb a b = true) (upsert keqb kltb k v acc).*1.
Proof.
  induction acc as [|[k' s] acc IH]; intros Hs; simpl.
  - repeat constructor.
  - apply StronglySorted_inv in Hs as [Hs Hall].
    destruct (keqb k k') eqn:E; simpl.
    + constructor; assumption.
    + destruct (kltb k k') eqn:Hlt; simpl.
      * constructor; [constructor; assumption|].
        constructor; [exact Hlt|].
        eapply Forall_impl; [exact Hall|]. simpl. intros x Hx.
        exact (kltb_trans _ _ _ Hlt Hx).
      * assert (Hgt : kltb k' k = true).
        { apply kltb_total; [exact Hlt|]. intros ->. rewrite keqb_refl in E. discriminate. }
        constructor; [apply IH, Hs|].
        apply Forall_forall. intros x [->|Hx]%elem_of_upsert_fst; [exact Hgt|].
        rewrite Forall_forall in Hall. apply Hall, Hx.
Qed.

Lemma series_lookup_None {V : Type} (k : K) (s : list (K * V)) :
  k ∉ s.*1 -> series_lookup keqb k s = None.
Proof.
  induction s as [|[k' v] s IH]; intros Hk; [reflexivity|].
  simpl in *. rewrite not_elem_of_cons in Hk. destruct Hk as [Hne Hk].
  rewrite (keqb_neq k k' Hne). apply IH, Hk.
Qed.

Lemma series_lookup_elem_of {V : Type} (k : K) (v : V) (s : list (K * V)) :
  StronglySorted (fun a b => kltb a b = true) s.*1 ->
  (k, v) ∈ s -> series_lookup keqb k s = Some v.
Proof.
  induction s as [|[k' w] s IH]; intros Hs Hin; [by apply elem_of_nil in Hin|].
  simpl in Hs. apply StronglySorted_inv in Hs as [Hs Hall]. simpl.
  apply elem_of_cons in Hin as [[= -> ->]|Hin].
  - rewrite keqb_refl. reflexivity.
  - destruct (keqb k k') eqn:E; [|apply IH; assumption].
    apply keqb_eq in E. subst k'. rewrite Forall_forall in Hall.
    assert (Hkk : kltb k k = true).
    { apply Hall. apply list_elem_of_fmap. exists (k, v). split; [reflexivity|exact Hin]. }
    rewrite kltb_irrefl in Hkk. discriminate.
Qed.

Lemma series_lookup_upsert (m k : K) (v : float64) (acc : list (K * Kahan)) :
  StronglySorted (fun a b => kltb a b = true) acc.*1 ->
  series_lookup keqb m (upsert keqb kltb k v acc) =
    if keqb m k then Some (kahan_add (default kahan0 (series_lookup keqb m acc)) v)
    else series_lookup keqb m acc.
Proof.
  induction acc as [|[k' s] acc IH]; intros Hs; simpl.
  - destruct (keqb m k); reflexivity.
  - apply StronglySorted_inv in Hs as [Hs Hall].
    destruct (keqb k k') eqn:E; simpl.
    + apply keqb_eq in E. subst k'. destruct (keqb m k); reflexivity.
    + destruct (kltb k k') eqn:Hlt; simpl.
      * destruct (keqb m k) eqn:Em; [|reflexivity].
        apply keqb_eq in Em. subst m. rewrite E.
        rewrite series_lookup_None; [reflexivity|].
        intros Hin. rewrite Forall_forall in Hall. specialize (Hall k Hin).
        simpl in Hall. pose proof (kltb_trans _ _ _ Hlt Hall) as Hkk.
        rewrite kltb_irrefl in Hkk. discriminate.
      * rewrite IH by exact Hs.
        destruct (keqb m k') eqn:Em; [|reflexivity].
        apply keqb_eq in Em. subst m.
        destruct (keqb k' k) eqn:E'; [|reflexivity].
        apply keqb_eq in E'. subst k'. rewrite keqb_refl in E. discriminate.
Qed.

Lemma group_sums_keys (kvs : list (option K * float64)) (acc : list (K * Kahan)) :
  StronglySorted (fun a b => kltb a b = true) acc.*1 ->
  let out :=
    fold_left
      (fun acc kv => match kv.1 with Some k => upsert keqb kltb k kv.2 acc | None => acc end)
      kvs acc in
  StronglySorted (fun a b => kltb a b = true) out.*1 /\
  (forall x : K, x ∈ out.*1 <-> Some x ∈ kvs.*1 \/ x ∈ acc.*1).
Proof.
  revert acc. induction kvs as [|[[k|] v] kvs IH]; intros acc Hs; simpl.
  - split; [exact Hs|]. intros x. rewrite elem_of_nil. tauto.
  - destruct (IH (upsert keqb kltb k v acc) (upsert_keeps_order k v acc Hs)) as (IH1 & IH2).
    split; [exact IH1|].
    intros x. rewrite IH2, elem_of_upsert_fst, elem_of_cons.
    split; [intros [?|[->|?]]|intros [[[= ->]|?]|?]]; auto.
  - destruct (IH acc Hs) as (IH1 & IH2).
    split; [exact IH1|].
    intros x. rewrite IH2, elem_of_cons.
    split; [intros [?|?]|intros [[[=]|?]|?]]; auto.
Qed.

Lemma group_sums_fold (m : K) (kvs : list (option K * float64)) (acc : list (K * Kahan)) :
  StronglySorted (fun a b => kltb a b = true) acc.*1 ->
  default kahan0
    (series_lookup keqb m
       (fold_left
          (fun acc kv => match kv.1 with Some k => upsert keqb kltb k kv.2 acc | None => acc end)
          kvs acc)) =
    fold_left kahan_add
      (snd <$> filter (fun kv => kv.1 = Some m) kvs)
      (default kahan0 (series_lookup keqb m acc)).
Proof.
  revert acc. induction kvs as [|[[k|] v] kvs IH]; intros acc Hs; simpl.
  - reflexivity.
  - rewrite (IH (upsert keqb kltb k v acc) (upsert_keeps_order k v acc Hs)).
    rewrite series_lookup_upsert by exact Hs.
    destruct (keqb m k) eqn:E.
    + apply keqb_eq in E. subst m.
      rewrite filter_cons_True by reflexivity. reflexivity.
    + rewrite filter_cons_False; [reflexivity|].
      simpl. intros [= ->]. rewrite keqb_refl in E. discriminate.
  - rewrite (IH acc Hs). rewrite filter_cons_False; [reflexivity|].
    simpl. intros [=].
Qed.

(** The grouped series: its keys are sorted, they are the keys of the
    rows, and the entry of a key is the sum of the values of its rows. *)
Lemma groupby_sum_facts (kvs : list (option K * float64)) :
  StronglySorted (fun a b => kltb a b = true) (groupby_sum keqb kltb kvs).*1 /\
  (forall x : K, x ∈ (groupby_sum keqb kltb kvs).*1 <-> Some x ∈ kvs.*1) /\
  (forall (x : K) (s : float64),
     (x, s) ∈ groupby_sum keqb kltb kvs ->
     s = group_sum (snd <$> filter (fun kv => kv.1 = Some x) kvs)).
Proof.
  assert (Hnil : StronglySorted (fun a b => kltb a b = true) ([] : list (K * Kahan)).*1)
    by constructor.
  assert (Hkeys : (groupby_sum keqb kltb kvs).*1 = (group_sums keqb kltb kvs).*1).
  { unfold groupby_sum. rewrite <- list_fmap_compose. reflexivity. }
  destruct (group_sums_keys kvs [] Hnil) as (Hsorted & Hk).
  fold (group_sums keqb kltb kvs) in Hsorted, Hk.
  rewrite Hkeys. split; [exact Hsorted|]. split.
  - intros x. rewrite Hk. simpl. rewrite elem_of_nil. tauto.
  - intros x s Hin. unfold groupby_sum in Hin.
    apply list_elem_of_fmap in Hin as ([x' st] & [= -> ->] & Hin). simpl.
    pose proof (group_sums_fold x' kvs [] Hnil) as Hsum.
    fold (group_sums keqb kltb kvs) in Hsum.
    rewrite (series_lookup_elem_of x' st _ Hsorted Hin) in Hsum.
    simpl in Hsum. unfold group_sum. rewrite <- Hsum. reflexivity.
Qed.

End groupby_facts.

(** ** Customer segments *)

Lemma customer_totals_fold (c : string) (df : list Typed) (acc : gmap string Kahan) :
  default kahan0
    (fold_left
       (fun (acc : gmap string Kahan) r =>
          match customer_id r with
          | Some k => <[k := kahan_add (default kahan0 (acc !! k)) (total_amount r)]> acc
          | None => acc
          end) df acc !! c) =
  fold_left kahan_add
    (total_amount <$> filter (fun r : Typed => customer_id r = Some c) df)
    (default kahan0 (acc !! c)).
Proof.
  revert acc. induction df as [|r df IH]; intros acc; [reflexivity|].
  simpl. rewrite IH. destruct (customer_id r) as [k|] eqn:Hk.
  - destruct (decide (k = c)) as [->|Hne].
    + rewrite filter_cons_True by exact Hk. simpl.
      rewrite lookup_insert_eq. reflexivity.
    + rewrite filter_cons_False by (rewrite Hk; congruence).
      rewrite lookup_insert_ne by exact Hne. reflexivity.
  - rewrite filter_cons_False by (rewrite Hk; congruence). reflexivity.
Qed.

Lemma totals_get_spend (now : nat -> datetime) (raw : list Raw.Row) (c : string) :
  totals_get (customer_totals (convert_types <$> raw)) (Some c) =
  customer_spend (frame_of now raw) c.
Proof.
  unfold customer_spend, totals_get, customer_totals, group_sum.
  rewrite lookup_fmap.
  pose proof (customer_totals_fold c (convert_types <$> raw) ∅) as Hfold.
  rewrite lookup_empty in Hfold. simpl in Hfold.
  unfold frame_of. simpl. rewrite base_enrich. rewrite <- Hfold.
  destruct (fold_left _ _ _ !! c); reflexivity.
Qed.

Lemma segment_at_1000 (totals : gmap string float64) (x : option string) :
  feqb (totals_get totals x) (of_Z 1000) = true -> segment totals x = "Regular".
Proof.
  intros (q & Hq & Heq)%feqb_Fin. unfold segment. rewrite Hq.
  unfold fgtb, fltb, of_Z. qle_cases; simpl; try reflexivity; exfalso;
    unfold inject_Z in *; lra.
Qed.

Lemma segment_at_300 (totals : gmap string float64) (x : option string) :
  feqb (totals_get totals x) (of_Z 300) = true -> segment totals x = "New".
Proof.
  intros (q & Hq & Heq)%feqb_Fin. unfold segment. rewrite Hq.
  unfold fgtb, fltb, of_Z. qle_cases; simpl; try reflexivity; exfalso;
    unfold inject_Z in *; lra.
Qed.

Lemma segment_frame_of (now : nat -> datetime) (raw : list Raw.Row) (i : nat) (r : Row) :
  rows (frame_of now raw) !! i = Some r ->
  customer_segment r =
    segment (customer_totals (convert_types <$> raw)) (customer_id r).
Proof.
  intros Hi. unfold frame_of, enrich in Hi. simpl in Hi.
  rewrite list_lookup_fmap in Hi.
  destruct ((convert_types <$> raw) !! i) as [t|]; [|discriminate].
  simpl in Hi. injection Hi as <-. reflexivity.
Qed.

(** C3, counterexample: a customer whose amounts sum to exactly 300 is
    [New] on every row, not [Regular]. *)
Lemma spend_of_300_is_New :
  exists df : DataFrame,
    (transform_data clock (loaded spent_300)).1 = Ok (Some df) /\
    customer_spend df "CUST-7" = Fin 300 /\
    customer_segment <$> rows df = ["New"; "New"] /\
    customer_segment <$> rows df <> ["Regular"; "Regular"].
Proof.
  eexists. split; [vm_compute; reflexivity|].
  repeat split; try (vm_compute; reflexivity). discriminate.
Qed.

(** C3, as amended: a row's [customer_segment] is decided by what its
    customer spent over the whole table, summed in doubles as the group-by
    sums: VIP above 1000, Regular above 300 and up to 1000, New otherwise.
    So a sum of exactly 1000 is Regular and a sum of exactly 300 is New,
    and all rows of one customer carry the same segment. *)
Theorem segment_from_customer_spend
    (now : nat -> datetime) (self self' : ETLPipeline) (df : DataFrame)
    (i : nat) (r : Row) (c : string) :
  transform_data now self = (Ok (Some df), self') ->
  rows df !! i = Some r ->
  customer_id r = Some c ->
  customer_segment r =
    (if fgtb (customer_spend df c) (of_Z 1000) then "VIP"
     else if fgtb (customer_spend df c) (of_Z 300) then "Regular"
     else "New") /\
  (feqb (customer_spend df c) (of_Z 1000) = true -> customer_segment r = "Regular") /\
  (feqb (customer_spend df c) (of_Z 300) = true -> customer_segment r = "New") /\
  (forall (j : nat) (r' : Row),
     rows df !! j = Some r' -> customer_id r' = Some c ->
     customer_segment r' = customer_segment r).
Proof.
  intros Hrun Hi Hc.
  destruct (transform_data_returns now self self' df Hrun) as (raw & rep & _ & -> & _).
  pose proof (segment_frame_of now raw i r Hi) as Hseg. rewrite Hc in Hseg.
  rewrite <- (totals_get_spend now).
  split; [exact Hseg|]. split; [|split].
  - intros H. rewrite Hseg. apply segment_at_1000. exact H.
  - intros H. rewrite Hseg. apply segment_at_300. exact H.
  - intros j r' Hj Hc'. rewrite Hseg, (segment_frame_of now raw j r' Hj), Hc'. reflexivity.
Qed.

Lemma segment_from_customer_spend_witness :
  (exists r : Row,
     rows (frame_of clock spent_1000) !! 1%nat = Some r /\
     customer_spend (frame_of clock spent_1000) "CUST-8" = Fin 1000 /\
     customer_segment r = "Regular") /\
  (exists r : Row,
     rows (frame_of clock spent_just_over_300) !! 0%nat = Some r /\
     customer_spend (frame_of clock spent_just_over_300) "CUST-9"
       = Fin (300 + (1 # 2 ^ 44)) /\
     customer_segment r = "Regular").
Proof.
  split.
  - eexists. split; [vm_compute; reflexivity|]. split; [vm_compute; reflexivity|].
    apply (proj1 (proj2 (segment_from_customer_spend clock (loaded spent_1000)
               (transform_data clock (loaded spent_1000)).2
               (frame_of clock spent_1000) 1 _ "CUST-8"
               ltac:(vm_compute; reflexivity) ltac:(vm_compute; reflexivity)
               ltac:(reflexivity)))).
    vm_compute. reflexivity.
  - eexists. split; [vm_compute; reflexivity|]. split; [vm_compute; reflexivity|].
    etrans.
    + apply (proj1 (segment_from_customer_spend clock (loaded spent_just_over_300)
                 (transform_data clock (loaded spent_just_over_300)).2
                 (frame_of clock spent_just_over_300) 0 _ "CUST-9"
                 ltac:(vm_compute; reflexivity) ltac:(vm_compute; reflexivity)
                 ltac:(reflexivity))).
    + vm_compute. reflexivity.
Defined.

(** Orders of 13.47, 276.16 and 10.37 add up to 300 as decimals; the sum
    of the doubles is 300 + 2^-44, above the threshold, and the customer is
    [Regular]. *)
Example spend_just_over_300_is_Regular :
  customer_spend (frame_of clock spent_just_over_300) "CUST-9" = Fin (300 + (1 # 2 ^ 44)) /\
  customer_segment <$> rows (frame_of clock spent_just_over_300)
    = ["Regular"; "Regular"; "Regular"].
Proof. split; vm_compute; reflexivity. Qed.

(** ** The quality report *)

Lemma count_rows_zero (p : Typed -> bool) (df : list Typed) :
  (forall r : Typed, r ∈ df -> p r = false) -> count_rows p df = 0%nat.
Proof.
  unfold count_rows. induction df as [|r df IH]; intros Hall; [reflexivity|].
  rewrite fmap_cons. cbn [mask_sum]. rewrite (Hall r) by apply list_elem_of_here.
  rewrite IH; [reflexivity|]. intros r' Hr'. apply Hall. apply list_elem_of_further, Hr'.
Qed.

Lemma count_rows_split (p : Typed -> bool) (df : list Typed) :
  (count_rows (fun r => negb (p r)) df + count_rows p df)%nat = length df.
Proof.
  unfold count_rows. induction df as [|r df IH]; [reflexivity|].
  rewrite !fmap_cons. cbn [mask_sum length]. destruct (p r); simpl negb; cbn iota; lia.
Qed.

(** A row counted by two rules is still one flagged row. *)
Lemma count_rows_overlap (df : list Typed) :
  (count_rows violates_any df
   + count_rows (fun r => email_invalid r && price_invalid r) df
   <= count_rows email_invalid df + count_rows price_invalid df
      + count_rows quantity_invalid df)%nat.
Proof.
  unfold count_rows, violates_any. induction df as [|r df IH]; [reflexivity|].
  rewrite !fmap_cons. cbn [mask_sum].
  destruct (email_invalid r), (price_invalid r), (quantity_invalid r);
    cbn [orb andb]; cbn iota; lia.
Qed.

Lemma count_rows_pos (p : Typed -> bool) (df : list Typed) (i : nat) (r : Typed) :
  df !! i = Some r -> p r = true -> (1 <= count_rows p df)%nat.
Proof.
  unfold count_rows. revert i. induction df as [|r' df IH]; intros i Hi Hp; [done|].
  rewrite fmap_cons. cbn [mask_sum]. destruct i as [|i]; simpl in Hi.
  - injection Hi as ->. rewrite Hp. lia.
  - specialize (IH i Hi Hp). lia.
Qed.

Lemma count_rows_pos_inv (p : Typed -> bool) (df : list Typed) :
  (0 < count_rows p df)%nat -> exists (i : nat) (r : Typed), df !! i = Some r /\ p r = true.
Proof.
  unfold count_rows. induction df as [|r df IH]; [simpl; lia|].
  rewrite fmap_cons. cbn [mask_sum]. destruct (p r) eqn:Hp.
  - intros _. exists 0%nat, r. split; [reflexivity|exact Hp].
  - intros Hpos. destruct IH as (i & r' & Hi & Hr); [simpl in Hpos; lia|].
    exists (S i), r'. split; assumption.
Qed.

Lemma last_rule_wins_None (r : Typed) :
  notna (last_rule_wins r) = violates_any r.
Proof.
  unfold last_rule_wins, violates_any.
  destruct (email_invalid r), (price_invalid r), (quantity_invalid r); reflexivity.
Qed.

(** The issue list in terms of the three counts. *)
Lemma validate_issues (df : list Typed) :
  (validate df).1 =
    issue_entry "Invalid emails" (count_rows email_invalid df)
    ++ issue_entry "Invalid prices" (count_rows price_invalid df)
    ++ issue_entry "Invalid quantities" (count_rows quantity_invalid df).
Proof.
  unfold validate, flag_rule, count_rows, issue_entry.
  destruct (0 <? mask_sum (email_invalid <$> df))%nat,
    (0 <? mask_sum (price_invalid <$> df))%nat,
    (0 <? mask_sum (quantity_invalid <$> df))%nat; reflexivity.
Qed.

Lemma validate_no_column (df : list Typed) :
  (validate df).2 = None <-> count_rows violates_any df = 0%nat.
Proof.
  split.
  - intros Hnone. unfold validate, flag_rule in Hnone.
    destruct (0 <? mask_sum (email_invalid <$> df))%nat eqn:He,
      (0 <? mask_sum (price_invalid <$> df))%nat eqn:Hp,
      (0 <? mask_sum (quantity_invalid <$> df))%nat eqn:Hq; try discriminate.
    apply Nat.ltb_ge in He, Hp, Hq.
    pose proof (count_rows_overlap df) as Hov. unfold count_rows in *. lia.
  - intros Hzero. unfold validate, flag_rule.
    assert (Hall : forall r : Typed, r ∈ df -> violates_any r = false).
    { intros r [i Hi]%list_elem_of_lookup_1.
      destruct (violates_any r) eqn:Hv; [|reflexivity].
      pose proof (count_rows_pos violates_any df i r Hi Hv). lia. }
    assert (He : mask_sum (email_invalid <$> df) = 0%nat).
    { apply (count_rows_zero email_invalid). intros r Hr. specialize (Hall r Hr).
      unfold violates_any in Hall. destruct (email_invalid r); [discriminate|reflexivity]. }
    assert (Hp : mask_sum (price_invalid <$> df) = 0%nat).
    { apply (count_rows_zero price_invalid). intros r Hr. specialize (Hall r Hr).
      unfold violates_any in Hall.
      destruct (email_invalid r), (price_invalid r); (discriminate || reflexivity). }
    assert (Hq : mask_sum (quantity_invalid <$> df) = 0%nat).
    { apply (count_rows_zero quantity_invalid). intros r Hr. specialize (Hall r Hr).
      unfold violates_any in Hall.
      destruct (email_invalid r), (price_invalid r), (quantity_invalid r);
        (discriminate || reflexivity). }
    rewrite He, Hp, Hq. reflexivity.
Qed.

(** When the flag column exists it holds [last_rule_wins] of every row. *)
Lemma validate_column (df : list Typed) (col : list (option string)) :
  (validate df).2 = Some col -> col = last_rule_wins <$> df.
Proof.
  intros Hcol. pose proof (validate_wf df) as Hwf. rewrite Hcol in Hwf. simpl in Hwf.
  apply list_eq. intros i. rewrite list_lookup_fmap.
  destruct (df !! i) as [r|] eqn:Hi; simpl.
  - pose proof (col_at_validate df i r Hi) as Hat. rewrite Hcol in Hat. simpl in Hat.
    destruct (lookup_lt_is_Some_2 col i) as [o Ho].
    { rewrite Hwf. eapply lookup_lt_Some, Hi. }
    rewrite Ho in Hat |- *. simpl in Hat. congruence.
  - apply lookup_ge_None. rewrite Hwf. apply lookup_ge_None, Hi.
Qed.

Lemma take_mask_clean {B : Type} (f : Typed -> B) (df : list Typed) :
  length (take_mask (f <$> df) (negb <$> (notna <$> (last_rule_wins <$> df)))) =
  count_rows (fun r => negb (violates_any r)) df.
Proof.
  unfold count_rows. induction df as [|r df IH]; [reflexivity|].
  rewrite !fmap_cons. cbn [take_mask mask_sum]. rewrite last_rule_wins_None.
  destruct (violates_any r); cbn [negb length]; cbn iota; rewrite IH; reflexivity.
Qed.

(** Line 148 raises exactly when the email column is not one of text. *)
Lemma str_emails (raw : list Raw.Row) :
  str (customer_email <$> (convert_types <$> raw)) =
    if emails_are_text raw then Ok (customer_email <$> (convert_types <$> raw))
    else Raise AttributeError.
Proof.
  unfold str, emails_are_text. rewrite !length_fmap.
  replace (existsb is_text (customer_email <$> (convert_types <$> raw)))
    with (existsb (fun r : Raw.Row => is_text (Raw.customer_email r)) raw); [reflexivity|].
  induction raw as [|r raw IH]; [reflexivity|].
  rewrite !fmap_cons. cbn [existsb]. rewrite IH. reflexivity.
Qed.

(** A table in which no row breaks a rule has a column of text emails. *)
Lemma clean_emails_are_text (raw : list Raw.Row) :
  count_rows violates_any (convert_types <$> raw) = 0%nat -> emails_are_text raw = true.
Proof.
  unfold emails_are_text. destruct raw as [|r raw]; [reflexivity|].
  unfold count_rows. rewrite !fmap_cons. cbn [mask_sum existsb length Nat.eqb orb].
  destruct (violates_any (convert_types r)) eqn:Hv; [simpl; lia|].
  intros _. unfold violates_any, email_invalid in Hv.
  unfold convert_types in Hv. cbn [customer_email] in Hv.
  destruct (Raw.customer_email r); cbn [str_contains_at negb orb is_text] in *;
    [discriminate|reflexivity|discriminate].
Qed.

(** What step 5 produces when it produces a report. *)
Lemma quality_summary_Ok (now : nat -> datetime) (raw : list Raw.Row) (rep : Report) :
  quality_summary now raw = Ok rep ->
  total_records rep = Z.of_nat (length raw) /\
  clean_records rep =
    Z.of_nat (count_rows (fun r => negb (violates_any r)) (convert_types <$> raw)) /\
  error_records rep = Z.of_nat (count_rows violates_any (convert_types <$> raw)) /\
  quality_issues rep = (validate (convert_types <$> raw)).1.
Proof.
  unfold quality_summary. rewrite str_emails.
  destruct (emails_are_text raw); [|discriminate].
  unfold getitem_bool, get_flag_column, frame_of. simpl.
  destruct ((validate (convert_types <$> raw)).2) as [col|] eqn:Hcol; simpl.
  - apply validate_column in Hcol. subst col.
    destruct (_ <=? _)%nat; [|discriminate].
    destruct (py_truediv _ _) as [ratio|e]; [|discriminate].
    intros [= <-]. simpl. unfold enrich. rewrite take_mask_clean.
    pose proof (count_rows_split violates_any (convert_types <$> raw)) as Hsplit.
    rewrite length_fmap in Hsplit. repeat split; lia.
  - destruct (length (enrich _ (convert_types <$> raw))) eqn:Hlen; simpl; [|discriminate].
    unfold enrich in Hlen. rewrite !length_fmap in Hlen. rewrite Hlen. simpl. discriminate.
Qed.

(** How a run on a table ends: with a report when the email column is
    one of text and a row breaks a rule; otherwise with the exception of line
    148, of line 200 (no rows) or of line 193 (rows, none of them flagged). *)
Lemma quality_summary_cases (now : nat -> datetime) (raw : list Raw.Row) :
  match quality_summary now raw with
  | Ok _ =>
      emails_are_text raw = true /\ (0 < count_rows violates_any (convert_types <$> raw))%nat
  | Raise e =>
      (emails_are_text raw = false /\ e = AttributeError) \/
      (emails_are_text raw = true /\
       count_rows violates_any (convert_types <$> raw) = 0%nat /\
       e = (if decide (raw = []) then ZeroDivisionError else IndexingError))
  end.
Proof.
  unfold quality_summary. rewrite str_emails.
  destruct (emails_are_text raw) eqn:Htext; [|left; split; reflexivity].
  destruct (Nat.eq_dec (count_rows violates_any (convert_types <$> raw)) 0%nat) as [Hz|Hnz].
  - assert (Hcol : (validate (convert_types <$> raw)).2 = None) by (apply validate_no_column, Hz).
    unfold getitem_bool, get_flag_column, frame_of. simpl.
    rewrite Hcol. simpl. unfold enrich. rewrite !length_fmap.
    destruct raw as [|r raw]; simpl; right; split; auto.
  - destruct ((validate (convert_types <$> raw)).2) as [col|] eqn:Hcol;
      [|apply validate_no_column in Hcol; contradiction].
    unfold getitem_bool, get_flag_column, frame_of. simpl.
    rewrite Hcol. simpl. apply validate_column in Hcol. subst col.
    unfold enrich. rewrite !length_fmap, Nat.leb_refl.
    assert (Hpos : (0 < count_rows violates_any (convert_types <$> raw))%nat) by lia.
    unfold py_truediv.
    assert (Hlen : (Z.of_nat (length raw) =? 0) = false).
    { apply Z.eqb_neq. destruct raw; [simpl in Hnz; contradiction|simpl; lia]. }
    rewrite Hlen. split; [reflexivity|exact Hpos].
Qed.

Lemma quality_summary_score (now : nat -> datetime) (raw : list Raw.Row) (rep : Report) :
  quality_summary now raw = Ok rep ->
  0 < total_records rep /\
  data_quality_score rep =
    round2
      (fmul (b64 (inject_Z (clean_records rep) / inject_Z (total_records rep))) (of_Z 100)).
Proof.
  unfold quality_summary. destruct (str _) as [emails|e]; [|discriminate].
  destruct (getitem_bool _ _) as [clean|e]; [|discriminate].
  unfold py_truediv. destruct (Z.of_nat (length raw) =? 0) eqn:Hz; [discriminate|].
  intros [= <-]. simpl. apply Z.eqb_neq in Hz. split; [lia|reflexivity].
Qed.

Lemma length_take_mask {A B : Type} (l : list A) (l' : list B) (key : list bool) :
  length l = length l' -> length (take_mask l key) = length (take_mask l' key).
Proof.
  revert l' key. induction l as [|x l IH]; intros [|y l'] key Hlen; try discriminate.
  - reflexivity.
  - destruct key as [|b key]; [reflexivity|]. simpl in Hlen.
    cbn [take_mask]. destruct b; cbn [length]; rewrite (IH l' key) by lia; reflexivity.
Qed.

(** The report does not depend on the clock. *)
Lemma quality_summary_clock (now1 now2 : nat -> datetime) (raw : list Raw.Row) :
  quality_summary now1 raw = quality_summary now2 raw.
Proof.
  unfold quality_summary. destruct (str _) as [emails|e]; [|reflexivity].
  unfold getitem_bool, get_flag_column, frame_of. cbn [rows data_quality_flag].
  rewrite !length_enrich.
  destruct (_ <=? _)%nat; [|reflexivity].
  rewrite (length_take_mask (enrich (date (now1 5%nat)) (convert_types <$> raw))
             (enrich (date (now2 5%nat)) (convert_types <$> raw)))
    by (rewrite !length_enrich; reflexivity).
  reflexivity.
Qed.

(** ** Claims about empty tables, the report and [total_amount] *)

(** A run of [transform_data] changes the processed table only by storing
    a frame in which the validator flagged a row. *)
Lemma transform_data_processed (now : nat -> datetime) (self : ETLPipeline) :
  processed_data (transform_data now self).2 = processed_data self \/
  exists raw : list Raw.Row,
    processed_data (transform_data now self).2 = Some (frame_of now raw) /\
    (0 < count_rows violates_any (convert_types <$> raw))%nat.
Proof.
  destruct (raw_data self) as [[|raw]|] eqn:Hraw.
  - destruct (transform_data_no_columns now self Hraw) as [entries ->]. left. reflexivity.
  - destruct (transform_data_run now self raw Hraw) as [entries ->].
    pose proof (quality_summary_cases now raw) as Hcases.
    destruct (quality_summary now raw) as [rep|e].
    + right. exists raw. split; [reflexivity|apply Hcases].
    + left. reflexivity.
  - destruct (transform_data_no_raw now self Hraw) as [entry ->]. left. reflexivity.
Qed.

Lemma frame_of_rows_nil (now : nat -> datetime) (raw : list Raw.Row) :
  rows (frame_of now raw) = [] -> raw = [].
Proof.
  intros H. apply (f_equal length) in H. unfold frame_of in H. cbn [rows] in H.
  rewrite length_enrich, length_fmap in H. destruct raw; [reflexivity|discriminate].
Qed.

(** No pipeline that the methods produce holds a processed table without
    rows. *)
Lemma reachable_processed_rows (self : ETLPipeline) (df : DataFrame) :
  reachable self -> processed_data self = Some df -> rows df <> [].
Proof.
  intros Hreach. revert df. unfold reachable in Hreach.
  eapply (rtc_ind_r (fun s : ETLPipeline =>
            forall df : DataFrame, processed_data s = Some df -> rows df <> []) __init__);
    [| |exact Hreach].
  - intros df Hpd. discriminate.
  - intros s s' Hs Hcall IH df Hpd. destruct Hcall as [now draws n s|now draws up s|now s|now s|now msg s].
    + destruct (generate_sample_data_run now draws n s) as [entries Hrun].
      rewrite Hrun in Hpd. apply (IH df Hpd).
    + destruct (extract_data_run now draws up s) as [entries Hrun].
      rewrite Hrun in Hpd. apply (IH df Hpd).
    + destruct (transform_data_processed now s) as [Hsame|(raw & Hnew & Hpos)].
      * rewrite Hsame in Hpd. apply (IH df Hpd).
      * rewrite Hnew in Hpd. injection Hpd as <-. intros Hnil.
        apply frame_of_rows_nil in Hnil. subst raw. unfold count_rows in Hpos. simpl in Hpos. lia.
    + destruct (processed_data s) as [df0|] eqn:Hpd0.
      * destruct (load_and_analyze_run now s df0 Hpd0) as [entries Hrun].
        rewrite Hrun in Hpd. cbn [snd processed_data] in Hpd. injection Hpd as <-.
        apply (IH df0 eq_refl).
      * destruct (load_and_analyze_no_table now s Hpd0) as [entry Hrun].
        rewrite Hrun in Hpd. discriminate.
    + destruct (log_run now msg s) as [entry Hrun].
      rewrite Hrun in Hpd. apply (IH df Hpd).
Qed.

(** C4, counterexample: after the upload of a file that holds the header
    line only, [transform_data] lets the division error of line 200 escape
    and stores no report at all, with or without an undefined score. *)
Lemma zero_rows_raise :
  (extract_data clock (steady good_draw) (Some (inl header_only)) __init__).1
    = Ok (Some (Table [])) /\
  (transform_data clock (loaded header_only)).1 = Raise ZeroDivisionError /\
  data_quality_report (transform_data clock (loaded header_only)).2 = None /\
  processed_data (transform_data clock (loaded header_only)).2 = None.
Proof. repeat split; vm_compute; reflexivity. Qed.

(** C4, as amended: a zero-row table is not reported as an undefined
    result.  [transform_data] on a raw table without rows raises: KeyError
    at line 139 when the frame has no columns either (the frame of
    [generate_sample_data(0)]), ZeroDivisionError at the score of line 200
    otherwise; it stores no report and leaves the processed table as it was.
    So no run hands [load_and_analyze] a zero-row table: in every pipeline
    that calls of the methods produce from a fresh one, the processed table,
    when there is one, has rows. *)
Theorem zero_row_table_raises
    (now : nat -> datetime) (self : ETLPipeline) (raw : RawFrame) :
  raw_data self = Some raw ->
  len raw = 0%nat ->
  (transform_data now self).1 =
    Raise (match raw with NoColumns => KeyError | Table _ => ZeroDivisionError end) /\
  processed_data (transform_data now self).2 = processed_data self /\
  data_quality_report (transform_data now self).2 = data_quality_report self /\
  (forall (s : ETLPipeline) (df : DataFrame),
     reachable s -> processed_data s = Some df -> rows df <> []).
Proof.
  intros Hraw Hlen. split; [|split; [|split]].
  4: { intros s df Hs Hpd. exact (reachable_processed_rows s df Hs Hpd). }
  all: destruct raw as [|records].
  all: try (destruct (transform_data_no_columns now self Hraw) as [entries ->]; reflexivity).
  all: simpl in Hlen; apply length_zero_iff_nil in Hlen; subst records.
  all: destruct (transform_data_run now self [] Hraw) as [entries ->]; reflexivity.
Qed.

Lemma zero_row_table_raises_witness :
  (transform_data clock (loaded header_only)).1 = Raise ZeroDivisionError /\
  (transform_data clock (generate_sample_data clock (steady good_draw) 0 __init__).2).1
    = Raise KeyError.
Proof.
  split.
  - exact (proj1 (zero_row_table_raises clock (loaded header_only) (Table [])
                    eq_refl eq_refl)).
  - exact (proj1 (zero_row_table_raises clock
                    (generate_sample_data clock (steady good_draw) 0 __init__).2 NoColumns
                    eq_refl eq_refl)).
Defined.

(** C5, counterexample: with price 10, quantity 2 and discount 0 present,
    the processed row still carries the source's 999, not 20. *)
Lemma total_amount_taken_verbatim :
  exists df : DataFrame,
    (transform_data clock (loaded stale_total)).1 = Ok (Some df) /\
    (fun r : Row => (price r, quantity r, discount_percent r, total_amount r)) <$> rows df =
      [(Fin 10, Fin 2, Number (Fin 0), Fin 999)] /\
    spec_total_amount (Fin 10) (Fin 2) (Fin 0) = Fin 20.
Proof.
  eexists. split; [vm_compute; reflexivity|]. split; vm_compute; reflexivity.
Qed.

(** C5, as amended: Transform never recomputes [total_amount]: the
    processed column is the source column after numeric coercion (a cell
    that is not a number becomes missing), whatever [price], [quantity] and
    [discount_percent] hold, and [revenue] is a copy of it. *)
Theorem total_amount_is_coerced_source
    (now : nat -> datetime) (self self' : ETLPipeline) (raw : list Raw.Row) (df : DataFrame) :
  raw_data self = Some (Table raw) ->
  transform_data now self = (Ok (Some df), self') ->
  (fun r : Row => total_amount r) <$> rows df =
    (fun r0 : Raw.Row => to_numeric (Raw.total_amount r0)) <$> raw /\
  (fun r : Row => revenue r) <$> rows df =
    (fun r0 : Raw.Row => to_numeric (Raw.total_amount r0)) <$> raw.
Proof.
  intros Hraw Hrun.
  destruct (transform_data_returns now self self' df Hrun) as (raw' & rep & Hraw' & -> & _).
  rewrite Hraw in Hraw'. injection Hraw' as <-.
  unfold frame_of, enrich. simpl. rewrite <- !list_fmap_compose. split; reflexivity.
Qed.

Lemma total_amount_is_coerced_source_witness :
  (fun r : Row => total_amount r) <$> rows (frame_of clock stale_total) = [Fin 999] /\
  (fun r : Row => revenue r) <$> rows (frame_of clock stale_total) = [Fin 999].
Proof.
  exact (total_amount_is_coerced_source clock (loaded stale_total)
           (transform_data clock (loaded stale_total)).2 stale_total (frame_of clock stale_total)
           eq_refl ltac:(vm_compute; reflexivity)).
Defined.

(** C6, the defect: on a table with rows of which none matches a rule, the
    frame has no [data_quality_flag] column, the empty default series of
    line 193 cannot be aligned with the frame, and [transform_data] raises
    IndexingError instead of reporting every row as clean; no report is
    stored. *)
Theorem clean_table_raises_IndexingError
    (now : nat -> datetime) (self : ETLPipeline) (raw : list Raw.Row) :
  raw_data self = Some (Table raw) ->
  raw <> [] ->
  count_rows violates_any (convert_types <$> raw) = 0%nat ->
  (transform_data now self).1 = Raise IndexingError /\
  data_quality_report (transform_data now self).2 = data_quality_report self /\
  processed_data (transform_data now self).2 = processed_data self.
Proof.
  intros Hraw Hne Hclean.
  destruct (transform_data_run now self raw Hraw) as [entries ->].
  pose proof (quality_summary_cases now raw) as Hcases.
  pose proof (clean_emails_are_text raw Hclean) as Htext.
  destruct (quality_summary now raw) as [rep|e].
  - destruct Hcases as [_ Hpos]. lia.
  - destruct Hcases as [[Hno _]|(_ & _ & ->)]; [congruence|].
    destruct (decide (raw = [])); [contradiction|]. repeat split; reflexivity.
Qed.

Lemma clean_table_raises_IndexingError_witness :
  (transform_data clock (loaded one_clean_order)).1 = Raise IndexingError /\
  data_quality_report (transform_data clock (loaded one_clean_order)).2 = None /\
  processed_data (transform_data clock (loaded one_clean_order)).2 = None.
Proof.
  exact (clean_table_raises_IndexingError clock (loaded one_clean_order) one_clean_order
           eq_refl ltac:(discriminate) ltac:(vm_compute; reflexivity)).
Defined.

(** When a run stores a report, the report counts every row, the clean
    rows are the rows that match no rule, and the clean and the error rows
    add up to the total. *)
Lemma report_counts
    (now : nat -> datetime) (self self' : ETLPipeline) (df : DataFrame) (rep : Report) :
  transform_data now self = (Ok (Some df), self') ->
  data_quality_report self' = Some rep ->
  total_records rep = Z.of_nat (length (rows df)) /\
  clean_records rep = Z.of_nat (count_rows (fun r => negb (violates_any r)) (base <$> rows df)) /\
  error_records rep = total_records rep - clean_records rep /\
  clean_records rep + error_records rep = total_records rep.
Proof.
  intros Hrun Hrep.
  destruct (transform_data_returns now self self' df Hrun)
    as (raw & rep' & _ & -> & Hsum & _ & _ & Hrep').
  rewrite Hrep in Hrep'. injection Hrep' as <-.
  destruct (quality_summary_Ok now raw rep Hsum) as (Ht & Hc & He & _).
  unfold frame_of. simpl. rewrite base_enrich. unfold enrich. rewrite !length_fmap.
  pose proof (count_rows_split violates_any (convert_types <$> raw)) as Hsplit.
  rewrite length_fmap in Hsplit. repeat split; lia.
Qed.

Lemma report_counts_witness :
  exists rep : Report,
    data_quality_report (transform_data clock (loaded doubly_invalid)).2 = Some rep /\
    total_records rep = 2 /\ clean_records rep = 1 /\ error_records rep = 1 /\
    clean_records rep + error_records rep = total_records rep.
Proof.
  eexists. split; [vm_compute; reflexivity|].
  split; [reflexivity|]. split; [reflexivity|]. split; [reflexivity|].
  eapply (report_counts clock (loaded doubly_invalid)
            (transform_data clock (loaded doubly_invalid)).2
            (frame_of clock doubly_invalid) _
            ltac:(vm_compute; reflexivity) ltac:(vm_compute; reflexivity)).
Defined.

(** ** Re-running Transform, and what the issue list counts *)

Lemma without_days_since_order_enrich (today1 today2 : Date) (df : list Typed) :
  without_days_since_order <$> enrich today1 df = without_days_since_order <$> enrich today2 df.
Proof. unfold enrich. rewrite <- !list_fmap_compose. reflexivity. Qed.

Lemma days_since_order_enrich (today : Date) (df : list Typed) :
  days_since_order <$> enrich today df =
  (fun r : Typed =>
     (fun d : Date => days_from_civil today - days_from_civil d) <$> order_date r) <$> df.
Proof. unfold enrich. rewrite <- !list_fmap_compose. reflexivity. Qed.

(** A flagged row is counted once among the error rows and once for each
    rule it matches. *)
Lemma count_rows_rules (df : list Typed) :
  (count_rows violates_any df
   <= count_rows email_invalid df + count_rows price_invalid df
      + count_rows quantity_invalid df)%nat /\
  ((count_rows violates_any df
    < count_rows email_invalid df + count_rows price_invalid df
      + count_rows quantity_invalid df)%nat <->
   exists (i : nat) (r : Typed), df !! i = Some r /\ (2 <= rules_matched r)%nat).
Proof.
  unfold count_rows. induction df as [|r df [IHle IHlt]].
  - simpl. split; [lia|]. split; [lia|]. intros (i & r & Hi & _). discriminate.
  - rewrite !fmap_cons. cbn [mask_sum].
    assert (Hhead :
      ((if violates_any r then 1 else 0)
       + (if (2 <=? rules_matched r)%nat then rules_matched r - 1 else 0)
       = (if email_invalid r then 1 else 0) + (if price_invalid r then 1 else 0)
         + (if quantity_invalid r then 1 else 0))%nat).
    { unfold violates_any, rules_matched.
      destruct (email_invalid r), (price_invalid r), (quantity_invalid r); reflexivity. }
    split; [destruct (2 <=? rules_matched r)%nat; lia|]. split.
    + intros Hlt. destruct (2 <=? rules_matched r)%nat eqn:Htwo.
      * exists 0%nat, r. split; [reflexivity|]. apply Nat.leb_le, Htwo.
      * destruct (proj1 IHlt) as (i & r' & Hi & Hr'); [lia|].
        exists (S i), r'. split; assumption.
    + intros (i & r' & Hi & Hr'). destruct i as [|i]; simpl in Hi.
      * injection Hi as ->. pose proof Hr' as Hb. apply Nat.leb_le in Hb.
        rewrite Hb in Hhead. lia.
      * assert (Htail : (mask_sum (violates_any <$> df)
                         < mask_sum (email_invalid <$> df) + mask_sum (price_invalid <$> df)
                           + mask_sum (quantity_invalid <$> df))%nat).
        { apply IHlt. exists i, r'. split; assumption. }
        destruct (2 <=? rules_matched r)%nat; lia.
Qed.

(** C8: two runs of [transform_data] in a row on the same raw table, at
    whatever clock readings, leave the raw table as it was; a first run
    that raises is followed by a second that raises the same exception, and
    the report the pipeline held stays as it was.  When the first run
    returns a frame, so does the
    second, and both store the same Data Quality Report: [total_records] the
    number of raw rows, [clean_records] the rows that match no rule,
    [error_records] the rows that match one, [data_quality_score] their
    ratio in percent rounded to 2 decimals, and [quality_issues] the entries
    of the three rules.  The two frames carry the same flags and agree on
    every column but [days_since_order], which line 189 computes from the
    clock; they are equal when both runs read the clock on the same day. *)
Theorem transform_twice_same_report
    (now1 now2 : nat -> datetime) (self : ETLPipeline) (raw : list Raw.Row) :
  raw_data self = Some (Table raw) ->
  raw_data (transform_data now1 self).2 = Some (Table raw) /\
  raw_data (transform_data now2 (transform_data now1 self).2).2 = Some (Table raw) /\
  (forall e : exn,
     (transform_data now1 self).1 = Raise e ->
     (transform_data now2 (transform_data now1 self).2).1 = Raise e /\
     data_quality_report (transform_data now2 (transform_data now1 self).2).2 =
       data_quality_report self) /\
  (forall df1 : DataFrame,
     (transform_data now1 self).1 = Ok (Some df1) ->
     exists (rep : Report) (df2 : DataFrame),
       data_quality_report (transform_data now1 self).2 = Some rep /\
       (transform_data now2 (transform_data now1 self).2).1 = Ok (Some df2) /\
       data_quality_report (transform_data now2 (transform_data now1 self).2).2 = Some rep /\
       total_records rep = Z.of_nat (length raw) /\
       clean_records rep =
         Z.of_nat (count_rows (fun r => negb (violates_any r)) (convert_types <$> raw)) /\
       error_records rep = Z.of_nat (count_rows violates_any (convert_types <$> raw)) /\
       data_quality_score rep =
         round2 (fmul (b64 (inject_Z (clean_records rep) / inject_Z (total_records rep)))
                   (of_Z 100)) /\
       quality_issues rep =
         issue_entry "Invalid emails" (count_rows email_invalid (convert_types <$> raw))
         ++ issue_entry "Invalid prices" (count_rows price_invalid (convert_types <$> raw))
         ++ issue_entry "Invalid quantities"
              (count_rows quantity_invalid (convert_types <$> raw)) /\
       data_quality_flag df2 = data_quality_flag df1 /\
       without_days_since_order <$> rows df2 = without_days_since_order <$> rows df1 /\
       days_since_order <$> rows df1 =
         (fun r : Typed =>
            (fun d : Date => days_from_civil (date (now1 5%nat)) - days_from_civil d)
              <$> order_date r) <$> (convert_types <$> raw) /\
       days_since_order <$> rows df2 =
         (fun r : Typed =>
            (fun d : Date => days_from_civil (date (now2 5%nat)) - days_from_civil d)
              <$> order_date r) <$> (convert_types <$> raw) /\
       (date (now2 5%nat) = date (now1 5%nat) -> df2 = df1)).
Proof.
  intros Hraw.
  destruct (transform_data_run now1 self raw Hraw) as [entries1 Hrun1].
  pose proof (quality_summary_clock now1 now2 raw) as Hclock.
  destruct (quality_summary now1 raw) as [rep|e] eqn:Hsum; rewrite Hrun1; cbn [fst snd].
  - match goal with
    | |- context [transform_data now2 ?s] =>
        destruct (transform_data_run now2 s raw eq_refl) as [entries2 Hrun2]
    end.
    rewrite <- Hclock in Hrun2. rewrite Hrun2. cbn [fst snd raw_data data_quality_report].
    split; [reflexivity|]. split; [reflexivity|]. split; [intros e He; discriminate|].
    intros df1 [= <-]. exists rep, (frame_of now2 raw).
    destruct (quality_summary_Ok now1 raw rep Hsum) as (Ht & Hc & He & Hi).
    destruct (quality_summary_score now1 raw rep Hsum) as [_ Hscore].
    split; [reflexivity|]. split; [reflexivity|]. split; [reflexivity|].
    split; [exact Ht|]. split; [exact Hc|]. split; [exact He|]. split; [exact Hscore|].
    split; [rewrite Hi; apply validate_issues|].
    split; [reflexivity|].
    split; [apply without_days_since_order_enrich|].
    split; [apply days_since_order_enrich|].
    split; [apply days_since_order_enrich|].
    intros Hday. unfold frame_of. rewrite Hday. reflexivity.
  - match goal with
    | |- context [transform_data now2 ?s] =>
        destruct (transform_data_run now2 s raw eq_refl) as [entries2 Hrun2]
    end.
    rewrite <- Hclock in Hrun2. rewrite Hrun2. cbn [fst snd raw_data data_quality_report].
    split; [reflexivity|]. split; [reflexivity|].
    split; [intros e' [= <-]; split; reflexivity|].
    intros df1 Hret. discriminate.
Qed.

Lemma transform_twice_same_report_witness :
  exists (rep : Report) (df2 : DataFrame),
    data_quality_report (transform_data clock (loaded two_clean_of_three)).2 = Some rep /\
    (transform_data clock_next_day (transform_data clock (loaded two_clean_of_three)).2).1
      = Ok (Some df2) /\
    data_quality_report
      (transform_data clock_next_day (transform_data clock (loaded two_clean_of_three)).2).2
      = Some rep /\
    total_records rep = 3 /\ clean_records rep = 2 /\ error_records rep = 1 /\
    data_quality_score rep = b64 (6667 # 100) /\
    quality_issues rep = ["Invalid emails: 1"; "Invalid prices: 1"] /\
    days_since_order <$> rows (frame_of clock two_clean_of_three)
      = [Some 152; Some 152; Some 152] /\
    days_since_order <$> rows df2 = [Some 153; Some 153; Some 153].
Proof.
  destruct (transform_twice_same_report clock clock_next_day (loaded two_clean_of_three)
              two_clean_of_three eq_refl) as (_ & _ & _ & Hreturns).
  destruct (Hreturns (frame_of clock two_clean_of_three) ltac:(vm_compute; reflexivity))
    as (rep & df2 & H1 & H2 & H3 & Ht & Hc & He & Hs & Hi & _ & _ & Hd1 & Hd2 & _).
  exists rep, df2.
  split; [exact H1|]. split; [exact H2|]. split; [exact H3|].
  split; [rewrite Ht; reflexivity|].
  split; [rewrite Hc; vm_compute; reflexivity|].
  split; [rewrite He; vm_compute; reflexivity|].
  split; [rewrite Hs, Hc, Ht; vm_compute; reflexivity|].
  split; [rewrite Hi; vm_compute; reflexivity|].
  split; [rewrite Hd1; vm_compute; reflexivity|].
  rewrite Hd2. vm_compute. reflexivity.
Defined.

(** C9: the entries of [quality_issues] count, rule by rule, every row
    that matches the rule, whatever single flag the row carries in the end:
    the list is the entry of the email rule, of the price rule and of the
    quantity rule, in this order, each with the number of all rows that
    match the rule and left out when no row does.  [error_records] counts
    the flagged rows, each once.  So the per-rule counts add up to at least
    [error_records], and to strictly more exactly when some row matches two
    rules. *)
Theorem issues_count_every_matching_row
    (now : nat -> datetime) (self self' : ETLPipeline) (df : DataFrame) (rep : Report) :
  transform_data now self = (Ok (Some df), self') ->
  data_quality_report self' = Some rep ->
  quality_issues rep =
    issue_entry "Invalid emails" (count_rows email_invalid (base <$> rows df))
    ++ issue_entry "Invalid prices" (count_rows price_invalid (base <$> rows df))
    ++ issue_entry "Invalid quantities" (count_rows quantity_invalid (base <$> rows df)) /\
  (forall (i : nat) (r : Row),
     rows df !! i = Some r -> flag_at df i = last_rule_wins (base r)) /\
  error_records rep = Z.of_nat (count_rows violates_any (base <$> rows df)) /\
  error_records rep <=
    Z.of_nat (count_rows email_invalid (base <$> rows df)
              + count_rows price_invalid (base <$> rows df)
              + count_rows quantity_invalid (base <$> rows df)) /\
  (error_records rep <
     Z.of_nat (count_rows email_invalid (base <$> rows df)
               + count_rows price_invalid (base <$> rows df)
               + count_rows quantity_invalid (base <$> rows df)) <->
   exists (i : nat) (r : Row), rows df !! i = Some r /\ (2 <= rules_matched (base r))%nat).
Proof.
  intros Hrun Hrep.
  destruct (transform_data_returns now self self' df Hrun)
    as (raw & rep' & _ & -> & Hsum & _ & _ & Hrep').
  rewrite Hrep in Hrep'. injection Hrep' as <-.
  destruct (quality_summary_Ok now raw rep Hsum) as (_ & _ & He & Hi).
  assert (Hbase : base <$> rows (frame_of now raw) = convert_types <$> raw).
  { unfold frame_of. cbn [rows]. apply base_enrich. }
  rewrite Hbase. destruct (count_rows_rules (convert_types <$> raw)) as [Hle Hlt].
  split; [rewrite Hi; apply validate_issues|].
  split; [intros i r Hi'; apply flag_at_frame_of, Hi'|].
  split; [exact He|]. split; [lia|].
  rewrite He, <- Nat2Z.inj_lt, Hlt. split.
  - intros (i & r & Hi' & Hr).
    assert (Hi'' : (base <$> rows (frame_of now raw)) !! i = Some r) by (rewrite Hbase; exact Hi').
    rewrite list_lookup_fmap in Hi''.
    destruct (rows (frame_of now raw) !! i) as [r0|] eqn:Hr0; [|discriminate].
    injection Hi'' as <-. exists i, r0. split; [exact Hr0|exact Hr].
  - intros (i & r & Hi' & Hr). exists i, (base r). split; [|exact Hr].
    rewrite <- Hbase, list_lookup_fmap, Hi'. reflexivity.
Qed.

Lemma issues_count_every_matching_row_witness :
  exists rep : Report,
    data_quality_report (transform_data clock (loaded doubly_invalid)).2 = Some rep /\
    quality_issues rep = ["Invalid emails: 1"; "Invalid prices: 1"] /\
    flag_at (frame_of clock doubly_invalid) 0 = Some "Invalid Price" /\
    error_records rep = 1 /\
    error_records rep <
      Z.of_nat (count_rows email_invalid (base <$> rows (frame_of clock doubly_invalid))
                + count_rows price_invalid (base <$> rows (frame_of clock doubly_invalid))
                + count_rows quantity_invalid (base <$> rows (frame_of clock doubly_invalid))).
Proof.
  eexists. split; [vm_compute; reflexivity|].
  destruct (issues_count_every_matching_row clock (loaded doubly_invalid)
              (transform_data clock (loaded doubly_invalid)).2
              (frame_of clock doubly_invalid) _
              ltac:(vm_compute; reflexivity) ltac:(vm_compute; reflexivity))
    as (Hi & Hflag & He & _ & Hlt).
  split; [rewrite Hi; vm_compute; reflexivity|].
  split; [vm_compute; reflexivity|].
  split; [reflexivity|].
  apply Hlt. exists 0%nat. eexists. split; [vm_compute; reflexivity|]. vm_compute. lia.
Defined.

(** Three rows that break one rule each are three error rows, counted
    once each: the counts add up to [error_records]. *)
Example one_rule_each_counts :
  exists rep : Report,
    data_quality_report (transform_data clock (loaded one_rule_each)).2 = Some rep /\
    quality_issues rep = ["Invalid emails: 1"; "Invalid prices: 1"; "Invalid quantities: 1"] /\
    error_records rep = 3.
Proof. eexists. split; [vm_compute; reflexivity|]. split; reflexivity. Qed.

(** ** Grouping by month *)

Lemma Z_eqb_eq (a b : Z) : (a =? b) = true <-> a = b.
Proof. apply Z.eqb_eq. Qed.

Lemma Z_ltb_irrefl (a : Z) : (a <? a) = false.
Proof. apply Z.ltb_irrefl. Qed.

Lemma sorted_ltb_lt (ks : list Z) :
  StronglySorted (fun a b : Z => (a <? b) = true) ks -> StronglySorted Z.lt ks.
Proof.
  induction 1 as [|k ks Hs IH Hall]; constructor; [exact IH|].
  eapply Forall_impl; [exact Hall|]. intros x Hx. apply Z.ltb_lt, Hx.
Qed.

Lemma sorted_keys_NoDup (ks : list Z) : StronglySorted Z.lt ks -> NoDup ks.
Proof.
  induction 1 as [|k ks Hs IH Hall]; constructor; [|exact IH].
  intros Hin. rewrite Forall_forall in Hall. specialize (Hall k Hin). lia.
Qed.

Lemma month_revenue_filter (m : Z) (l : list Row) :
  snd <$> filter (fun kv : option Z * float64 => kv.1 = Some m)
            ((fun r : Row => (month r, revenue r)) <$> l) =
  revenue <$> filter (fun r : Row => month r = Some m) l.
Proof.
  induction l as [|r l IH]; [reflexivity|].
  rewrite fmap_cons. destruct (decide (month r = Some m)) as [Hm|Hm].
  - rewrite !filter_cons_True by exact Hm. rewrite fmap_cons, IH. reflexivity.
  - rewrite !filter_cons_False by exact Hm. exact IH.
Qed.

Lemma monthly_revenue_facts (df : DataFrame) :
  StronglySorted (fun a b : Z => (a <? b) = true) (monthly_revenue df).*1 /\
  (forall x : Z,
     x ∈ (monthly_revenue df).*1 <->
     Some x ∈ ((fun r : Row => (month r, revenue r)) <$> rows df).*1) /\
  (forall (x : Z) (s : float64),
     (x, s) ∈ monthly_revenue df ->
     s = group_sum (snd <$> filter (fun kv : option Z * float64 => kv.1 = Some x)
                              ((fun r : Row => (month r, revenue r)) <$> rows df))).
Proof.
  unfold monthly_revenue.
  apply (groupby_sum_facts Z.eqb Z.ltb Z_eqb_eq Z_ltb_irrefl Z_ltb_trans Z_ltb_total).
Qed.

Lemma monthly_revenue_sorted (df : DataFrame) :
  StronglySorted Z.lt (monthly_revenue df).*1.
Proof. apply sorted_ltb_lt, monthly_revenue_facts. Qed.

Lemma monthly_revenue_keys (df : DataFrame) (m : Z) :
  m ∈ (monthly_revenue df).*1 <-> m ∈ distinct_months df.
Proof.
  destruct (monthly_revenue_facts df) as (_ & Hkeys & _).
  unfold distinct_months.
  rewrite Hkeys, elem_of_remove_dups, list_elem_of_omap.
  rewrite <- list_fmap_compose, list_elem_of_fmap. simpl.
  split.
  - intros (r & Hr & Hin). exists r. split; [exact Hin|congruence].
  - intros (r & Hin & Hr). exists r. split; [congruence|exact Hin].
Qed.

Lemma monthly_revenue_sum (df : DataFrame) (m : Z) (s : float64) :
  (m, s) ∈ monthly_revenue df -> s = revenue_of_month df m.
Proof.
  intros Hin. destruct (monthly_revenue_facts df) as (_ & _ & Hsum).
  rewrite (Hsum m s Hin), month_revenue_filter. reflexivity.
Qed.

Lemma monthly_revenue_length (df : DataFrame) :
  length (monthly_revenue df) = length (distinct_months df).
Proof.
  rewrite <- (length_fmap fst (monthly_revenue df)).
  apply Permutation_length, NoDup_Permutation.
  - apply sorted_keys_NoDup, monthly_revenue_sorted.
  - apply NoDup_remove_dups.
  - apply monthly_revenue_keys.
Qed.

Lemma growth_of_last_two (df : DataFrame) (earlier : list (Z * float64))
    (m1 m2 : Z) (previous current : float64) :
  monthly_revenue df = earlier ++ [(m1, previous); (m2, current)] ->
  _calculate_monthly_growth df = np_round2 (percent_change previous current).
Proof.
  intros Hrev. unfold _calculate_monthly_growth. rewrite Hrev.
  rewrite reverse_app. reflexivity.
Qed.

Lemma growth_of_short_series (df : DataFrame) :
  (length (monthly_revenue df) < 2)%nat -> _calculate_monthly_growth df = f0.
Proof.
  intros Hlen. unfold _calculate_monthly_growth.
  destruct (monthly_revenue df) as [|[m1 v1] [|[m2 v2] rest]]; [reflexivity|reflexivity|].
  simpl in Hlen. lia.
Qed.

Lemma series_last_two (s : list (Z * float64)) (m1 m2 : Z) :
  StronglySorted Z.lt s.*1 ->
  m1 ∈ s.*1 -> m2 ∈ s.*1 -> m1 < m2 ->
  (forall m : Z, m ∈ s.*1 -> m <= m1 \/ m = m2) ->
  exists (earlier : list (Z * float64)) (previous current : float64),
    s = earlier ++ [(m1, previous); (m2, current)].
Proof.
  intros Hs H1 H2 Hlt Hmax.
  destruct s as [|kv s _] using rev_ind; [by apply elem_of_nil in H1|].
  destruct kv as [k c]. rewrite fmap_app in Hs, H1, H2, Hmax. simpl in *.
  assert (Hk : k = m2).
  { destruct (Hmax k) as [Hle|Heq]; [in_list| |exact Heq].
    apply elem_of_app in H2 as [H2|H2];
      [|apply list_elem_of_singleton in H2; congruence].
    pose proof (StronglySorted_app_1_elem_of _ _ _ m2 k Hs H2
                  ltac:(apply list_elem_of_singleton; reflexivity)). lia. }
  subst k.
  apply elem_of_app in H1 as [H1|H1]; [|apply list_elem_of_singleton in H1; lia].
  destruct s as [|kv' s _] using rev_ind; [by apply elem_of_nil in H1|].
  destruct kv' as [k' p]. rewrite fmap_app in Hs, H1, Hmax. simpl in *.
  assert (Hk' : k' = m1).
  { assert (k' < m2).
    { apply (StronglySorted_app_1_elem_of _ _ _ k' m2 Hs); in_list. }
    assert (m1 <= k').
    { apply elem_of_app in H1 as [H1|H1]; [|apply list_elem_of_singleton in H1; lia].
      apply StronglySorted_app_1_l in Hs.
      pose proof (StronglySorted_app_1_elem_of _ _ _ m1 k' Hs H1
                    ltac:(apply list_elem_of_singleton; reflexivity)). lia. }
    destruct (Hmax k') as [Hle|Heq]; [in_list|lia|lia]. }
  subst k'. exists s, p, c. rewrite <- app_assoc. reflexivity.
Qed.

Lemma growth_of_latest_two (df : DataFrame) (m1 m2 : Z) :
  latest_two df m1 m2 ->
  _calculate_monthly_growth df =
    np_round2 (percent_change (revenue_of_month df m1) (revenue_of_month df m2)).
Proof.
  intros (H1 & H2 & Hlt & Hmax).
  destruct (series_last_two (monthly_revenue df) m1 m2) as (earlier & p & c & Hrev).
  - apply monthly_revenue_sorted.
  - apply monthly_revenue_keys, H1.
  - apply monthly_revenue_keys, H2.
  - exact Hlt.
  - intros m Hm. apply Hmax, monthly_revenue_keys, Hm.
  - rewrite (growth_of_last_two df earlier m1 m2 p c Hrev).
    rewrite <- (monthly_revenue_sum df m1 p), <- (monthly_revenue_sum df m2 c);
      [reflexivity|rewrite Hrev; in_list|rewrite Hrev; in_list].
Qed.

(** What numpy's [round] returns is a multiple of 0.01, as a double, next
    to its argument. *)
Lemma np_round2_rounded (x : float64) : rounded_to_2_decimals x (np_round2 x).
Proof.
  unfold rounded_to_2_decimals, np_round2.
  destruct (fmul x (of_Z 100)) as [h| | |]; try reflexivity.
  exists (rint h). split; [|reflexivity].
  destruct (rint_close h) as [Hlo Hhi]. apply Qabs_Qle_condition. split; lra.
Qed.

Lemma div_by_zero_not_finite (current previous : float64) :
  feqb previous f0 = true ->
  is_finite (np_round2 (percent_change previous current)) = false.
Proof.
  intros Hzero.
  apply (feqb_Fin previous 0) in Hzero as (q & -> & Hq).
  assert (Heq : Qeq_bool q 0 = true) by (apply Qeq_bool_iff; exact Hq).
  assert (Hle : Qle_bool 0 q = true) by (apply Qle_bool_iff; rewrite Hq; apply Qle_refl).
  unfold np_round2, percent_change.
  destruct (fsub current (Fin q)) as [d| | |]; cbn [fdiv]; rewrite ?Heq, ?Hle;
    try reflexivity.
  destruct (d ?= 0)%Q; reflexivity.
Qed.

(** ** Claims about month-over-month growth *)

(** C7: [monthly_revenue] holds one entry per month of the table, in
    chronological order, each with the summed revenue of the month.  With
    [m2] the latest month and [m1] the month right before it,
    [_calculate_monthly_growth] returns the change of the revenue of [m2]
    over that of [m1] in percent, rounded to 2 decimals as numpy rounds: the
    double next to [k / 100] for an integer [k] next to the hundredfold of
    the change.  With fewer than two distinct months it returns 0. *)
Theorem monthly_growth_compares_last_two_months (df : DataFrame) :
  StronglySorted Z.lt (monthly_revenue df).*1 /\
  (forall m : Z, m ∈ (monthly_revenue df).*1 <-> m ∈ distinct_months df) /\
  (forall (m : Z) (s : float64),
     (m, s) ∈ monthly_revenue df -> s = revenue_of_month df m) /\
  (forall m1 m2 : Z,
     latest_two df m1 m2 ->
     _calculate_monthly_growth df =
       np_round2 (percent_change (revenue_of_month df m1) (revenue_of_month df m2)) /\
     rounded_to_2_decimals
       (percent_change (revenue_of_month df m1) (revenue_of_month df m2))
       (_calculate_monthly_growth df)) /\
  ((length (distinct_months df) < 2)%nat -> _calculate_monthly_growth df = f0).
Proof.
  split; [apply monthly_revenue_sorted|].
  split; [apply monthly_revenue_keys|].
  split; [apply monthly_revenue_sum|].
  split.
  - intros m1 m2 Hlatest. rewrite (growth_of_latest_two df m1 m2 Hlatest).
    split; [reflexivity|apply np_round2_rounded].
  - rewrite <- monthly_revenue_length. apply growth_of_short_series.
Qed.

Lemma latest_two_of_pair (df : DataFrame) (m1 m2 : Z) :
  distinct_months df = [m1; m2] -> m1 < m2 -> latest_two df m1 m2.
Proof.
  intros Hm Hlt. unfold latest_two. rewrite Hm.
  split; [in_list|]. split; [in_list|]. split; [exact Hlt|].
  intros m Hin. rewrite !elem_of_cons, elem_of_nil in Hin. lia.
Qed.

Lemma monthly_growth_compares_last_two_months_witness :
  (revenue_of_month (frame_of clock two_months) 648 = Fin 100 /\
   revenue_of_month (frame_of clock two_months) 649 = Fin 150 /\
   _calculate_monthly_growth (frame_of clock two_months) = Fin 50) /\
  (revenue_of_month (frame_of clock drop_160_67) 648 = Fin 160 /\
   revenue_of_month (frame_of clock drop_160_67) 649 = Fin 67 /\
   _calculate_monthly_growth (frame_of clock drop_160_67) = b64 (- (5813 # 100)) /\
   rounded_to_2_decimals (percent_change (Fin 160) (Fin 67)) (b64 (- (5813 # 100)))) /\
  _calculate_monthly_growth (frame_of clock stale_total) = f0.
Proof.
  split; [|split].
  - split; [vm_compute; reflexivity|]. split; [vm_compute; reflexivity|].
    rewrite (proj1 (proj1 (proj2 (proj2 (proj2
               (monthly_growth_compares_last_two_months (frame_of clock two_months)))))
               648 649
               (latest_two_of_pair (frame_of clock two_months) 648 649
                  ltac:(vm_compute; reflexivity) ltac:(lia)))).
    vm_compute. reflexivity.
  - assert (Hlatest : latest_two (frame_of clock drop_160_67) 648 649)
      by (apply latest_two_of_pair; [vm_compute; reflexivity|lia]).
    destruct (proj1 (proj2 (proj2 (proj2
               (monthly_growth_compares_last_two_months (frame_of clock drop_160_67)))))
               648 649 Hlatest) as [Hvalue Hrounded].
    assert (H1 : revenue_of_month (frame_of clock drop_160_67) 648 = Fin 160)
      by (vm_compute; reflexivity).
    assert (H2 : revenue_of_month (frame_of clock drop_160_67) 649 = Fin 67)
      by (vm_compute; reflexivity).
    assert (Hg : _calculate_monthly_growth (frame_of clock drop_160_67) = b64 (- (5813 # 100))).
    { rewrite Hvalue. vm_compute. reflexivity. }
    split; [exact H1|]. split; [exact H2|]. split; [exact Hg|].
    rewrite H1, H2, Hg in Hrounded. exact Hrounded.
  - apply (proj2 (proj2 (proj2 (proj2
               (monthly_growth_compares_last_two_months (frame_of clock stale_total)))))).
    vm_compute. lia.
Defined.

(** The change from 160 to 67 is -58.125 percent as decimals; in doubles
    the quotient lies a little below, and the growth is -58.13. *)
Example growth_160_to_67 :
  percent_change (Fin 160) (Fin 67) = Fin (- (8180366510653441 # 140737488355328)) /\
  np_round2 (percent_change (Fin 160) (Fin 67)) = b64 (- (5813 # 100)) /\
  round2 (percent_change (Fin 160) (Fin 67)) = b64 (- (5813 # 100)).
Proof. repeat split; vm_compute; reflexivity. Qed.

(** C10: when the table has at least two months and the revenue of the
    second-to-last month sums to exactly 0, [_calculate_monthly_growth]
    divides by that zero: what it returns is an infinity or NaN, never a
    finite percentage, and no error is raised. *)
Theorem growth_over_zero_month_not_finite (df : DataFrame) (m1 m2 : Z) :
  latest_two df m1 m2 ->
  feqb (revenue_of_month df m1) f0 = true ->
  is_finite (_calculate_monthly_growth df) = false.
Proof.
  intros Hlatest Hzero. rewrite (growth_of_latest_two df m1 m2 Hlatest).
  apply div_by_zero_not_finite, Hzero.
Qed.

Lemma growth_over_zero_month_not_finite_witness :
  revenue_of_month (frame_of clock nothing_then_150) 648 = Fin 0 /\
  _calculate_monthly_growth (frame_of clock nothing_then_150) = PInf /\
  is_finite (_calculate_monthly_growth (frame_of clock nothing_then_150)) = false.
Proof.
  split; [vm_compute; reflexivity|]. split; [vm_compute; reflexivity|].
  exact (growth_over_zero_month_not_finite (frame_of clock nothing_then_150) 648 649
           (latest_two_of_pair (frame_of clock nothing_then_150) 648 649
              ltac:(vm_compute; reflexivity) ltac:(lia))
           ltac:(vm_compute; reflexivity)).
Defined.

(** Amounts that cancel as decimals need not sum to 0 as doubles: 1.1, 2.2
    and -3.3 leave 2^-51, the month before the last is then not a zero
    month, and the growth is a finite, very large percentage. *)
Example cancelling_amounts_leave_a_remainder :
  revenue_of_month (frame_of clock cancelling_then_150) 648 = Fin (1 # 2 ^ 51) /\
  feqb (revenue_of_month (frame_of clock cancelling_then_150) 648) f0 = false /\
  _calculate_monthly_growth (frame_of clock cancelling_then_150)
    = Fin 33776997205278720000.
Proof. repeat split; vm_compute; reflexivity. Qed.

(** * Further properties of the pipeline *)

(** ** The phases and the state of the pipeline *)

(** What a run of [transform_data] leaves of the pipeline, whatever the
    raw table. *)
Lemma transform_data_cases (now : nat -> datetime) (self : ETLPipeline) :
  exists (entries : list string) (out : result (option DataFrame))
      (pd : option DataFrame) (rep : option Report),
    transform_data now self =
      (out, {| raw_data := raw_data self; processed_data := pd; data_quality_report := rep;
               processing_logs := processing_logs self ++ entries |}) /\
    forall s : ETLPipeline,
      raw_data s = raw_data self ->
      processed_data s = processed_data self ->
      data_quality_report s = data_quality_report self ->
      exists entries' : list string,
        transform_data now s =
          (out, {| raw_data := raw_data self; processed_data := pd;
                   data_quality_report := rep;
                   processing_logs := processing_logs s ++ entries' |}).
Proof.
  destruct (raw_data self) as [[|raw]|] eqn:Hraw.
  - destruct (transform_data_no_columns now self Hraw) as [entries Hrun].
    exists entries, (Raise KeyError), (processed_data self), (data_quality_report self).
    split; [exact Hrun|]. intros s Hr Hp Hq.
    destruct (transform_data_no_columns now s Hr) as [entries' Hrun'].
    exists entries'. rewrite Hrun', Hp, Hq. reflexivity.
  - destruct (transform_data_run now self raw Hraw) as [entries Hrun].
    destruct (quality_summary now raw) as [rep|e] eqn:Hsum.
    + exists entries, (Ok (Some (frame_of now raw))), (Some (frame_of now raw)), (Some rep).
      split; [exact Hrun|]. intros s Hr Hp Hq.
      destruct (transform_data_run now s raw Hr) as [entries' Hrun'].
      exists entries'. rewrite Hrun', Hsum. reflexivity.
    + exists entries, (Raise e), (processed_data self), (data_quality_report self).
      split; [exact Hrun|]. intros s Hr Hp Hq.
      destruct (transform_data_run now s raw Hr) as [entries' Hrun'].
      exists entries'. rewrite Hrun', Hsum, Hp, Hq. reflexivity.
  - destruct (transform_data_no_raw now self Hraw) as [entry Hrun].
    exists [entry], (Ok None), (processed_data self), (data_quality_report self).
    split; [exact Hrun|]. intros s Hr Hp Hq.
    destruct (transform_data_no_raw now s Hr) as [entry' Hrun'].
    exists [entry']. rewrite Hrun', Hp, Hq. reflexivity.
Qed.

(** X2: the processing log is append-only.  Whatever [extract_data],
    [transform_data] or [load_and_analyze] return or raise, the log they
    leave starts with the log they found. *)
Theorem logs_only_grow (now : nat -> datetime) (draws : nat -> Draws)
    (uploaded_file : option (list Raw.Row + string)) (self : ETLPipeline) :
  processing_logs self `prefix_of`
    processing_logs (extract_data now draws uploaded_file self).2 /\
  processing_logs self `prefix_of` processing_logs (transform_data now self).2 /\
  processing_logs self `prefix_of` processing_logs (load_and_analyze now self).2.
Proof.
  split; [|split].
  - destruct (extract_data_run now draws uploaded_file self) as [entries ->].
    exists entries. reflexivity.
  - destruct (transform_data_cases now self) as (entries & out & pd & rep & -> & _).
    exists entries. reflexivity.
  - destruct (processed_data self) as [df|] eqn:Hpd.
    + destruct (load_and_analyze_run now self df Hpd) as [entries ->].
      exists entries. reflexivity.
    + destruct (load_and_analyze_no_table now self Hpd) as [entry ->].
      exists [entry]. reflexivity.
Qed.

(** X3: [load_and_analyze] only reads.  Whether it returns insights,
    returns nothing or raises, the raw table, the processed table and the
    quality report of the pipeline are afterwards what they were before. *)
Theorem load_and_analyze_reads_only (now : nat -> datetime) (self : ETLPipeline) :
  raw_data (load_and_analyze now self).2 = raw_data self /\
  processed_data (load_and_analyze now self).2 = processed_data self /\
  data_quality_report (load_and_analyze now self).2 = data_quality_report self.
Proof.
  destruct (processed_data self) as [df|] eqn:Hpd.
  - destruct (load_and_analyze_run now self df Hpd) as [entries ->].
    repeat split; reflexivity.
  - destruct (load_and_analyze_no_table now self Hpd) as [entry ->].
    repeat split; reflexivity.
Qed.

(** X4: calling the phases too early is no error.  On a pipeline that
    holds no raw table and no processed table, [transform_data] returns
    [None] and [load_and_analyze] after it returns [None] as well; nothing
    is raised, nothing is stored, and the log grows by one line per call. *)
Theorem phases_before_extract_return_None
    (now1 now2 : nat -> datetime) (self : ETLPipeline) :
  raw_data self = None ->
  processed_data self = None ->
  (transform_data now1 self).1 = Ok None /\
  (load_and_analyze now2 (transform_data now1 self).2).1 = Ok None /\
  raw_data (load_and_analyze now2 (transform_data now1 self).2).2 = None /\
  processed_data (load_and_analyze now2 (transform_data now1 self).2).2 = None /\
  data_quality_report (load_and_analyze now2 (transform_data now1 self).2).2 =
    data_quality_report self /\
  length (processing_logs (load_and_analyze now2 (transform_data now1 self).2).2) =
    (length (processing_logs self) + 2)%nat.
Proof.
  intros Hraw Hpd.
  destruct (transform_data_no_raw now1 self Hraw) as [entry1 ->]. cbn [fst snd].
  rewrite Hpd.
  match goal with
  | |- context [load_and_analyze now2 ?s] =>
      destruct (load_and_analyze_no_table now2 s eq_refl) as [entry2 ->]
  end.
  cbn [fst snd raw_data processed_data data_quality_report processing_logs].
  repeat split; try reflexivity.
  rewrite !length_app. simpl. lia.
Qed.

Lemma phases_before_extract_return_None_witness :
  (transform_data clock __init__).1 = Ok None /\
  (load_and_analyze clock (transform_data clock __init__).2).1 = Ok None /\
  raw_data (load_and_analyze clock (transform_data clock __init__).2).2 = None /\
  processed_data (load_and_analyze clock (transform_data clock __init__).2).2 = None /\
  data_quality_report (load_and_analyze clock (transform_data clock __init__).2).2 = None /\
  length (processing_logs (load_and_analyze clock (transform_data clock __init__).2).2) =
    2%nat.
Proof.
  exact (phases_before_extract_return_None clock clock __init__ eq_refl eq_refl).
Defined.

(** X5: a failed upload is not fatal and clears nothing.  When
    [pd.read_csv] raises, [extract_data] returns [None] and leaves the raw
    table, the processed table and the report as they were, so the next
    [transform_data] processes the table of the previous Extract again and
    ends exactly as it would have ended without the failed upload. *)
Theorem failed_upload_keeps_previous_table
    (now1 now2 : nat -> datetime) (draws : nat -> Draws) (message : string)
    (self : ETLPipeline) :
  (extract_data now1 draws (Some (inr message)) self).1 = Ok None /\
  raw_data (extract_data now1 draws (Some (inr message)) self).2 = raw_data self /\
  processed_data (extract_data now1 draws (Some (inr message)) self).2 =
    processed_data self /\
  data_quality_report (extract_data now1 draws (Some (inr message)) self).2 =
    data_quality_report self /\
  (transform_data now2 (extract_data now1 draws (Some (inr message)) self).2).1 =
    (transform_data now2 self).1 /\
  data_quality_report
    (transform_data now2 (extract_data now1 draws (Some (inr message)) self).2).2 =
    data_quality_report (transform_data now2 self).2.
Proof.
  destruct (extract_data_run now1 draws (Some (inr message)) self) as [entries ->].
  cbn [fst snd raw_data processed_data data_quality_report].
  split; [reflexivity|]. split; [reflexivity|]. split; [reflexivity|].
  split; [reflexivity|].
  destruct (transform_data_cases now2 self) as (e2 & out & pd & rep & -> & Hsame).
  match goal with
  | |- context [transform_data now2 ?s] =>
      destruct (Hsame s eq_refl eq_refl eq_refl) as [e3 ->]
  end.
  split; reflexivity.
Qed.

(** X6: Extract replaces the raw table and nothing else.  After an upload
    that parses, [raw_data] is the uploaded table, while the processed
    table and the report are still those of the last Transform, so
    [load_and_analyze] right after it analyses the old processed table: it
    returns what it would have returned before the upload. *)
Theorem upload_leaves_processed_table
    (now1 now2 : nat -> datetime) (draws : nat -> Draws) (table : list Raw.Row)
    (self : ETLPipeline) :
  (extract_data now1 draws (Some (inl table)) self).1 = Ok (Some (Table table)) /\
  raw_data (extract_data now1 draws (Some (inl table)) self).2 = Some (Table table) /\
  processed_data (extract_data now1 draws (Some (inl table)) self).2 =
    processed_data self /\
  data_quality_report (extract_data now1 draws (Some (inl table)) self).2 =
    data_quality_report self /\
  (load_and_analyze now2 (extract_data now1 draws (Some (inl table)) self).2).1 =
    (load_and_analyze now2 self).1.
Proof.
  destruct (extract_data_run now1 draws (Some (inl table)) self) as [entries ->].
  cbn [fst snd raw_data processed_data data_quality_report].
  repeat split.
  destruct (processed_data self) as [df|] eqn:Hpd.
  - destruct (load_and_analyze_run now2 self df Hpd) as [e2 ->].
    match goal with
    | |- context [load_and_analyze now2 ?s] =>
        destruct (load_and_analyze_run now2 s df eq_refl) as [e3 ->]
    end.
    reflexivity.
  - destruct (load_and_analyze_no_table now2 self Hpd) as [e2 ->].
    match goal with
    | |- context [load_and_analyze now2 ?s] =>
        destruct (load_and_analyze_no_table now2 s eq_refl) as [e3 ->]
    end.
    reflexivity.
Qed.

(** X7: how a run of Transform on a loaded raw table ends.  A frame
    without columns, as [generate_sample_data(0)] leaves it, raises KeyError
    at line 139.  On a table, the run raises AttributeError at line 148 when
    the email column is not one of text (every cell of it a number or
    missing); otherwise it returns the processed frame and stores it with
    a report exactly when at least one row matches a validation rule, and
    raises when none does: ZeroDivisionError for a table without rows,
    IndexingError for one with rows.  A run that raises leaves the
    processed table and the report of the pipeline untouched. *)
Theorem transform_data_outcome
    (now : nat -> datetime) (self : ETLPipeline) (raw : RawFrame) :
  raw_data self = Some raw ->
  match raw with
  | NoColumns =>
      (transform_data now self).1 = Raise KeyError /\
      processed_data (transform_data now self).2 = processed_data self /\
      data_quality_report (transform_data now self).2 = data_quality_report self
  | Table records =>
      (emails_are_text records = false /\
       (transform_data now self).1 = Raise AttributeError /\
       processed_data (transform_data now self).2 = processed_data self /\
       data_quality_report (transform_data now self).2 = data_quality_report self) \/
      (emails_are_text records = true /\
       (0 < count_rows violates_any (convert_types <$> records))%nat /\
       (transform_data now self).1 = Ok (Some (frame_of now records)) /\
       processed_data (transform_data now self).2 = Some (frame_of now records) /\
       exists rep : Report,
         data_quality_report (transform_data now self).2 = Some rep /\
         total_records rep = Z.of_nat (length records)) \/
      (emails_are_text records = true /\
       count_rows violates_any (convert_types <$> records) = 0%nat /\
       (transform_data now self).1 =
         Raise (if decide (records = []) then ZeroDivisionError else IndexingError) /\
       processed_data (transform_data now self).2 = processed_data self /\
       data_quality_report (transform_data now self).2 = data_quality_report self)
  end.
Proof.
  intros Hraw. destruct raw as [|records].
  - destruct (transform_data_no_columns now self Hraw) as [entries ->].
    repeat split; reflexivity.
  - destruct (transform_data_run now self records Hraw) as [entries ->].
    pose proof (quality_summary_cases now records) as Hcases.
    destruct (quality_summary now records) as [rep|e] eqn:Hsum.
    + right. left. destruct Hcases as [Htext Hpos].
      split; [exact Htext|]. split; [exact Hpos|]. split; [reflexivity|].
      split; [reflexivity|]. exists rep. split; [reflexivity|].
      apply (quality_summary_Ok now records rep Hsum).
    + destruct Hcases as [[Htext ->]|(Htext & Hz & ->)].
      * left. split; [exact Htext|]. repeat split; reflexivity.
      * right. right. split; [exact Htext|]. split; [exact Hz|]. repeat split; reflexivity.
Qed.

Lemma transform_data_outcome_witness :
  (transform_data clock (loaded doubly_invalid)).1
    = Ok (Some (frame_of clock doubly_invalid)) /\
  (transform_data clock (loaded one_clean_order)).1 = Raise IndexingError /\
  (transform_data clock (loaded header_only)).1 = Raise ZeroDivisionError /\
  (transform_data clock (loaded no_emails)).1 = Raise AttributeError /\
  (transform_data clock (generate_sample_data clock (steady good_draw) 0 __init__).2).1
    = Raise KeyError.
Proof.
  split; [|split; [|split; [|split]]].
  - destruct (transform_data_outcome clock (loaded doubly_invalid) (Table doubly_invalid)
                eq_refl) as [(H & _)|[(_ & _ & H & _)|(_ & H & _)]];
      [vm_compute in H; discriminate|exact H|vm_compute in H; discriminate].
  - destruct (transform_data_outcome clock (loaded one_clean_order) (Table one_clean_order)
                eq_refl) as [(H & _)|[(_ & H & _)|(_ & _ & H & _)]];
      [vm_compute in H; discriminate|vm_compute in H; lia|exact H].
  - destruct (transform_data_outcome clock (loaded header_only) (Table header_only)
                eq_refl) as [(H & _)|[(_ & H & _)|(_ & _ & H & _)]];
      [vm_compute in H; discriminate|vm_compute in H; lia|exact H].
  - destruct (transform_data_outcome clock (loaded no_emails) (Table no_emails)
                eq_refl) as [(_ & H & _)|[(H & _)|(H & _)]];
      [exact H|vm_compute in H; discriminate|vm_compute in H; discriminate].
  - exact (proj1 (transform_data_outcome clock
                    (generate_sample_data clock (steady good_draw) 0 __init__).2 NoColumns
                    eq_refl)).
Defined.

(** ** What Transform keeps, flags and reports *)

Lemma frame_of_lookup (now : nat -> datetime) (raw : list Raw.Row) (i : nat) (r0 : Raw.Row) :
  raw !! i = Some r0 ->
  exists r : Row,
    rows (frame_of now raw) !! i = Some r /\ base r = convert_types r0 /\
    price_tier r = cut (to_numeric (Raw.price r0)) /\
    customer_segment r =
      segment (customer_totals (convert_types <$> raw)) (Raw.customer_id r0).
Proof.
  intros Hi. unfold frame_of, enrich. simpl.
  rewrite !list_lookup_fmap, Hi. simpl. eexists. split; [reflexivity|].
  repeat split; reflexivity.
Qed.

(** X8: Transform annotates, it never drops or reorders.  The processed
    table has exactly the rows of the raw table, in the same order; each
    keeps its identifying columns, and its numeric and date columns are the
    coerced source cells; the flag column has one entry per row. *)
Theorem transform_keeps_every_row
    (now : nat -> datetime) (self self' : ETLPipeline) (raw : list Raw.Row) (df : DataFrame) :
  raw_data self = Some (Table raw) ->
  transform_data now self = (Ok (Some df), self') ->
  length (rows df) = length raw /\
  (exists col : list (option string),
     data_quality_flag df = Some col /\ length col = length raw) /\
  forall (i : nat) (r0 : Raw.Row),
    raw !! i = Some r0 ->
    exists r : Row,
      rows df !! i = Some r /\
      order_id r = Raw.order_id r0 /\
      customer_id r = Raw.customer_id r0 /\
      category r = Raw.category r0 /\
      region r = Raw.region r0 /\
      customer_email r = Raw.customer_email r0 /\
      discount_percent r = Raw.discount_percent r0 /\
      price r = to_numeric (Raw.price r0) /\
      quantity r = to_numeric (Raw.quantity r0) /\
      total_amount r = to_numeric (Raw.total_amount r0) /\
      order_date r = to_datetime (Raw.order_date r0).
Proof.
  intros Hraw Hrun.
  destruct (transform_data_returns now self self' df Hrun)
    as (raw' & rep & Hraw' & -> & Hsum & _).
  rewrite Hraw in Hraw'. injection Hraw' as <-.
  split; [unfold frame_of, enrich; simpl; rewrite !length_fmap; reflexivity|].
  split.
  - pose proof (quality_summary_cases now raw) as Hcases. rewrite Hsum in Hcases.
    pose proof (validate_wf (convert_types <$> raw)) as Hwf.
    unfold frame_of. simpl.
    destruct ((validate (convert_types <$> raw)).2) as [col|] eqn:Hcol.
    + exists col. split; [reflexivity|]. simpl in Hwf. rewrite Hwf, length_fmap. reflexivity.
    + apply validate_no_column in Hcol. lia.
  - intros i r0 Hi. destruct (frame_of_lookup now raw i r0 Hi) as (r & Hr & Hbase & _).
    exists r. split; [exact Hr|]. rewrite Hbase. repeat split; reflexivity.
Qed.

Lemma transform_keeps_every_row_witness :
  length (rows (frame_of clock with_text_price)) = 2%nat /\
  (exists col : list (option string),
     data_quality_flag (frame_of clock with_text_price) = Some col /\ length col = 2%nat) /\
  exists r : Row,
    rows (frame_of clock with_text_price) !! 1%nat = Some r /\
    order_id r = "ORD-1001" /\ price r = NaN /\ quantity r = Fin 2.
Proof.
  destruct (transform_keeps_every_row clock (loaded with_text_price)
              (transform_data clock (loaded with_text_price)).2
              with_text_price (frame_of clock with_text_price)
              eq_refl ltac:(vm_compute; reflexivity)) as (Hlen & Hcol & Hrows).
  split; [exact Hlen|]. split; [exact Hcol|].
  destruct (Hrows 1%nat text_price_order eq_refl) as (r & Hr & Hid & _ & _ & _ & _ & _ & Hp & Hq & _).
  exists r. repeat split; assumption.
Defined.

(** X9: a price that does not parse is not an invalid price.  A row whose
    price cell is text or missing is coerced to a missing price: the price
    rule does not match it, it gets no [price_tier], and when its email has
    an at-sign and its quantity is above zero it carries no flag at all. *)
Theorem unparseable_price_is_not_flagged
    (now : nat -> datetime) (self self' : ETLPipeline) (raw : list Raw.Row) (df : DataFrame)
    (i : nat) (r0 : Raw.Row) :
  raw_data self = Some (Table raw) ->
  transform_data now self = (Ok (Some df), self') ->
  raw !! i = Some r0 ->
  isna (to_numeric (Raw.price r0)) = true ->
  exists r : Row,
    rows df !! i = Some r /\
    price_tier r = None /\
    flag_at df i <> Some "Invalid Price" /\
    (str_contains_at (Raw.customer_email r0) = true ->
     fltb f0 (to_numeric (Raw.quantity r0)) = true ->
     flag_at df i = None).
Proof.
  intros Hraw Hrun Hi Hna.
  destruct (transform_data_returns now self self' df Hrun)
    as (raw' & rep & Hraw' & -> & _).
  rewrite Hraw in Hraw'. injection Hraw' as <-.
  destruct (frame_of_lookup now raw i r0 Hi) as (r & Hr & Hbase & Htier & _).
  exists r. split; [exact Hr|].
  rewrite (flag_at_frame_of now raw i r Hr). unfold last_rule_wins.
  unfold price_invalid, quantity_invalid, email_invalid. rewrite Hbase.
  cbn [convert_types price quantity customer_email].
  destruct (to_numeric (Raw.price r0)) as [q| | |] eqn:Hp; try discriminate.
  split; [rewrite Htier; reflexivity|]. cbn [fleb]. split.
  - destruct (fleb (to_numeric (Raw.quantity r0)) f0);
      [discriminate|destruct (negb _); discriminate].
  - intros He Hq. rewrite He. cbn [negb].
    destruct (to_numeric (Raw.quantity r0)) as [q| | |]; cbn [fltb fleb f0] in *;
      try discriminate.
    + destruct (Qle_bool q 0) eqn:Hle; [discriminate|reflexivity].
    + reflexivity.
Qed.

Lemma unparseable_price_is_not_flagged_witness :
  exists r : Row,
    rows (frame_of clock with_text_price) !! 1%nat = Some r /\
    price_tier r = None /\
    flag_at (frame_of clock with_text_price) 1 <> Some "Invalid Price" /\
    flag_at (frame_of clock with_text_price) 1 = None.
Proof.
  destruct (unparseable_price_is_not_flagged clock (loaded with_text_price)
              (transform_data clock (loaded with_text_price)).2
              with_text_price (frame_of clock with_text_price) 1 text_price_order
              eq_refl ltac:(vm_compute; reflexivity) eq_refl eq_refl)
    as (r & Hr & Ht & Hf & Hclean).
  exists r. split; [exact Hr|]. split; [exact Ht|]. split; [exact Hf|].
  apply Hclean; reflexivity.
Defined.

(** The score of a report is a double from 0 to 100. *)
Lemma score_bounds (c t : Z) :
  0 <= c <= t -> 0 < t ->
  exists q : Q,
    round2 (fmul (b64 (inject_Z c / inject_Z t)) (of_Z 100)) = Fin q /\
    (0 <= q)%Q /\ (q <= 100)%Q.
Proof.
  intros Hc Ht.
  assert (HtQ : (0 < inject_Z t)%Q) by (change 0%Q with (inject_Z 0); rewrite <- Zlt_Qlt; exact Ht).
  destruct (b64_between (inject_Z c / inject_Z t) 0 1) as (r & Hr & _ & Hr0 & Hr1).
  - apply small_integer. lia.
  - apply small_integer. lia.
  - apply Qle_shift_div_l; [exact HtQ|]. rewrite <- inject_Z_mult, <- Zle_Qle. lia.
  - apply Qle_shift_div_r; [exact HtQ|]. rewrite <- inject_Z_mult, <- Zle_Qle. lia.
  - rewrite Hr. cbn [fmul of_Z].
    change (inject_Z 0) with 0%Q in Hr0. change (inject_Z 1) with 1%Q in Hr1.
    destruct (b64_between (r * inject_Z 100) 0 100) as (p & Hp & _ & Hp0 & Hp1).
    + apply small_integer. lia.
    + apply small_integer. lia.
    + change (inject_Z 0) with 0%Q. change (inject_Z 100) with 100%Q. lra.
    + change (inject_Z 100) with 100%Q. lra.
    + rewrite Hp.
      destruct (round2_bounds p 0 100) as (q & Hq & _ & Hq0 & Hq1);
        [apply small_integer; lia|apply small_integer; lia|exact Hp0|exact Hp1|].
      exists q. split; [exact Hq|]. split; [exact Hq0|exact Hq1].
Qed.

(** X10: a stored report always reports errors.  Whenever [transform_data]
    stores a report, at least one row is an error row, the clean rows are
    fewer than the total, [quality_issues] has between one and three entries,
    and [data_quality_score] is a number from 0 to 100. *)
Theorem stored_report_always_has_errors
    (now : nat -> datetime) (self self' : ETLPipeline) (df : DataFrame) (rep : Report) :
  transform_data now self = (Ok (Some df), self') ->
  data_quality_report self' = Some rep ->
  1 <= error_records rep /\
  0 <= clean_records rep < total_records rep /\
  (1 <= length (quality_issues rep) <= 3)%nat /\
  exists q : Q, data_quality_score rep = Fin q /\ (0 <= q)%Q /\ (q <= 100)%Q.
Proof.
  intros Hrun Hrep.
  destruct (transform_data_returns now self self' df Hrun)
    as (raw & rep' & _ & -> & Hsum & _ & _ & Hrep').
  rewrite Hrep in Hrep'. injection Hrep' as <-.
  destruct (quality_summary_Ok now raw rep Hsum) as (Ht & Hc & He & Hissues).
  destruct (quality_summary_score now raw rep Hsum) as (Hpos & Hscore).
  pose proof (quality_summary_cases now raw) as Hcases. rewrite Hsum in Hcases.
  destruct Hcases as [_ Hcases].
  pose proof (count_rows_split violates_any (convert_types <$> raw)) as Hsplit.
  rewrite length_fmap in Hsplit.
  pose proof (count_rows_overlap (convert_types <$> raw)) as Hov.
  split; [lia|]. split; [lia|]. split.
  - rewrite Hissues, validate_issues, !length_app. unfold issue_entry.
    destruct (0 <? count_rows email_invalid _)%nat eqn:Te,
      (0 <? count_rows price_invalid _)%nat eqn:Tp,
      (0 <? count_rows quantity_invalid _)%nat eqn:Tq; simpl; try lia.
    apply Nat.ltb_ge in Te, Tp, Tq. lia.
  - rewrite Hscore. apply score_bounds; lia.
Qed.

Lemma stored_report_always_has_errors_witness :
  exists rep : Report,
    data_quality_report (transform_data clock (loaded doubly_invalid)).2 = Some rep /\
    error_records rep = 1 /\ data_quality_score rep = Fin 50 /\
    1 <= error_records rep /\
    0 <= clean_records rep < total_records rep.
Proof.
  eexists. split; [vm_compute; reflexivity|].
  split; [reflexivity|]. split; [reflexivity|].
  destruct (stored_report_always_has_errors clock (loaded doubly_invalid)
              (transform_data clock (loaded doubly_invalid)).2
              (frame_of clock doubly_invalid) _
              ltac:(vm_compute; reflexivity) ltac:(vm_compute; reflexivity))
    as (He & Hc & _).
  split; [exact He|exact Hc].
Defined.

(** Two clean rows of three: a score of 66.67, the double next to it. *)
Example score_two_of_three :
  exists rep : Report,
    data_quality_report (transform_data clock (loaded two_clean_of_three)).2 = Some rep /\
    data_quality_score rep = b64 (6667 # 100).
Proof. eexists. split; vm_compute; reflexivity. Qed.

(** X11: every row gets one of the three segments, and a row without a
    [customer_id] is always [New]: it belongs to no group of
    [customer_totals], so the lookup falls back to 0 whatever the row's
    [total_amount] is. *)
Theorem segment_without_customer_is_New
    (now : nat -> datetime) (self self' : ETLPipeline) (df : DataFrame) (i : nat) (r : Row) :
  transform_data now self = (Ok (Some df), self') ->
  rows df !! i = Some r ->
  customer_segment r ∈ ["VIP"; "Regular"; "New"] /\
  (customer_id r = None -> customer_segment r = "New").
Proof.
  intros Hrun Hi.
  destruct (transform_data_returns now self self' df Hrun) as (raw & rep & _ & -> & _).
  rewrite (segment_frame_of now raw i r Hi). unfold segment. split.
  - destruct (fgtb _ _); [|destruct (fgtb _ _)]; in_list.
  - intros ->. reflexivity.
Qed.

Lemma segment_without_customer_is_New_witness :
  exists r : Row,
    rows (frame_of clock with_text_price) !! 1%nat = Some r /\
    total_amount r = Fin 5000 /\ customer_id r = None /\
    customer_segment r = "New".
Proof.
  eexists. split; [vm_compute; reflexivity|]. split; [reflexivity|]. split; [reflexivity|].
  apply (proj2 (segment_without_customer_is_New clock (loaded with_text_price)
                  (transform_data clock (loaded with_text_price)).2
                  (frame_of clock with_text_price) 1 _
                  ltac:(vm_compute; reflexivity) ltac:(vm_compute; reflexivity))).
  reflexivity.
Defined.

(** ** [idxmax] *)



(** ** Revenue by category and by region *)







(** ** What Load and Analyze returns *)





(** ** The sample generator *)

Lemma contains_at_app (s1 s2 : string) :
  contains_at (s1 +:+ s2) = contains_at s1 || contains_at s2.
Proof.
  induction s1 as [|c s1 IH]; simpl; [reflexivity|].
  destruct (Ascii.eqb c "@"); [reflexivity|exact IH].
Qed.

Lemma pretty_N_char_not_at (y : N) : Ascii.eqb (pretty_N_char y) "@" = false.
Proof. unfold pretty_N_char. repeat case_match; reflexivity. Qed.

Lemma contains_at_pretty_N_go (x : N) (s : string) :
  contains_at (pretty_N_go x s) = contains_at s.
Proof.
  revert s. induction (N.lt_wf_0 x) as [x _ IH]; intros s.
  destruct (decide (x = 0)%N) as [->|Hx]; [reflexivity|].
  rewrite pretty_N_go_step by lia. rewrite IH by (apply N.div_lt; lia).
  simpl. rewrite pretty_N_char_not_at. reflexivity.
Qed.

Lemma contains_at_pretty_nat (n : nat) : contains_at (pretty n) = false.
Proof.
  unfold pretty, pretty_nat, pretty, pretty_N.
  destruct (decide (N.of_nat n = 0)%N); [reflexivity|].
  apply contains_at_pretty_N_go.
Qed.

Lemma generated_email_at_sign (index : nat) (coin : Q) (pick : nat) :
  contains_at (_generate_email index coin pick) = negb (Qlt_bool coin (5 # 100)).
Proof.
  unfold _generate_email. destruct (Qlt_bool coin (5 # 100)); simpl negb.
  - rewrite contains_at_app, contains_at_pretty_nat. reflexivity.
  - rewrite !contains_at_app. simpl. apply orb_true_r.
Qed.

Lemma fleb_positive (r : Q) (a : Z) : 0 < a -> (inject_Z a <= r)%Q -> fleb (Fin r) f0 = false.
Proof.
  intros Ha Hr. cbn [fleb f0]. apply not_true_iff_false. rewrite Qle_bool_iff.
  intros Hle. assert (H : (inject_Z a <= 0)%Q) by (eapply Qle_trans; eassumption).
  change 0%Q with (inject_Z 0) in H. rewrite <- Zle_Qle in H. lia.
Qed.

Lemma sample_record_rules (i : nat) (d : Draws) :
  draws_in_range d ->
  email_invalid (convert_types (sample_record i d)) = Qlt_bool (email_coin d) (5 # 100) /\
  price_invalid (convert_types (sample_record i d)) = false /\
  quantity_invalid (convert_types (sample_record i d)) = false.
Proof.
  intros (_ & _ & Hp5 & Hp & Hq & _).
  unfold email_invalid, price_invalid, quantity_invalid, convert_types, sample_record.
  cbn [customer_email price quantity Raw.customer_email Raw.price Raw.quantity
       to_numeric str_contains_at].
  rewrite generated_email_at_sign, negb_involutive. split; [reflexivity|]. split.
  - destruct (round2_bounds (price_draw d) 5 1000) as (q & -> & Hd & Hlo & _).
    + apply small_integer. lia.
    + apply small_integer. lia.
    + exact Hp5.
    + eapply Qle_trans; [exact Hp|]. unfold Qle, inject_Z. simpl. lia.
    + rewrite (to_double_double q Hd). apply (fleb_positive q 5); [lia|exact Hlo].
  - unfold of_Z, to_double. rewrite b64_of_Z by (apply small_integer; lia).
    apply (fleb_positive _ 1); [lia|]. rewrite <- Zle_Qle. lia.
Qed.

Lemma sample_table_counts (draws : nat -> Draws) (n : nat) :
  (forall i : nat, (i < n)%nat -> draws_in_range (draws i)) ->
  count_rows email_invalid (convert_types <$> sample_table draws n) =
    invalid_email_draws draws n /\
  count_rows price_invalid (convert_types <$> sample_table draws n) = 0%nat /\
  count_rows quantity_invalid (convert_types <$> sample_table draws n) = 0%nat /\
  count_rows violates_any (convert_types <$> sample_table draws n) =
    invalid_email_draws draws n.
Proof.
  intros Hrange. unfold count_rows, invalid_email_draws, sample_table.
  rewrite <- !list_fmap_compose. unfold compose.
  assert (Hrules : forall i : nat, i ∈ seq 0 n ->
            email_invalid (convert_types (sample_record i (draws i))) =
              Qlt_bool (email_coin (draws i)) (5 # 100) /\
            price_invalid (convert_types (sample_record i (draws i))) = false /\
            quantity_invalid (convert_types (sample_record i (draws i))) = false).
  { intros i Hi. apply sample_record_rules, Hrange. apply elem_of_seq in Hi. lia. }
  induction (seq 0 n) as [|i l IH]; [repeat split; reflexivity|].
  destruct (Hrules i) as (He & Hp & Hq); [apply list_elem_of_here|].
  destruct IH as (IH1 & IH2 & IH3 & IH4).
  { intros j Hj. apply Hrules, list_elem_of_further, Hj. }
  rewrite !fmap_cons. cbn [mask_sum]. unfold violates_any at 1.
  rewrite He, Hp, Hq, IH1, IH2, IH3, IH4, !orb_false_r. repeat split; reflexivity.
Qed.

Lemma sample_table_succ (draws : nat -> Draws) (n : nat) :
  sample_table draws (S n) =
    sample_record 0 (draws 0%nat) :: ((fun i => sample_record i (draws i)) <$> seq 1 n).
Proof. reflexivity. Qed.

(** X14: [generate_sample_data] stores and returns exactly [num_records]
    rows whose order ids are ORD-1000, ORD-1001, ... without repeats.  With
    draws within the bounds of the [random] calls, every row has a price of
    at least 5 and a quantity of at least 1, so neither the price rule nor
    the quantity rule of the validator matches it, and its email lacks the
    at-sign exactly when its email draw fell below 0.05. *)
Theorem sample_data_is_valid_but_for_emails
    (now : nat -> datetime) (draws : nat -> Draws) (n : nat) (self : ETLPipeline) :
  (forall i : nat, (i < n)%nat -> draws_in_range (draws i)) ->
  exists data : list Raw.Row,
    (generate_sample_data now draws n self).1 = Ok (DataFrame_of_records data) /\
    raw_data (generate_sample_data now draws n self).2 = Some (DataFrame_of_records data) /\
    length data = n /\
    NoDup (Raw.order_id <$> data) /\
    forall (i : nat) (r : Raw.Row),
      data !! i = Some r ->
      Raw.order_id r = "ORD-" +:+ pretty (1000 + i)%nat /\
      email_invalid (convert_types r) = Qlt_bool (email_coin (draws i)) (5 # 100) /\
      price_invalid (convert_types r) = false /\
      quantity_invalid (convert_types r) = false.
Proof.
  intros Hrange. destruct (generate_sample_data_run now draws n self) as [entries ->].
  exists (sample_table draws n). split; [reflexivity|]. split; [reflexivity|].
  unfold sample_table. split; [rewrite length_fmap, length_seq; reflexivity|]. split.
  - rewrite <- list_fmap_compose. apply NoDup_fmap_2_strong; [|apply NoDup_seq].
    intros i j _ _ Heq. unfold compose in Heq. simpl in Heq.
    apply (inj (String.app "ORD-")) in Heq. apply (inj pretty) in Heq. lia.
  - intros i r Hi. rewrite list_lookup_fmap in Hi.
    destruct (seq 0 n !! i) as [j|] eqn:Hj; [|discriminate].
    apply lookup_seq in Hj as [-> Hlt]. simpl in Hi. injection Hi as <-.
    split; [reflexivity|]. apply sample_record_rules, Hrange, Hlt.
Qed.

Lemma second_is_invalid_everywhere_in_range (i : nat) : draws_in_range (second_is_invalid i).
Proof.
  unfold second_is_invalid.
  destruct (i =? 1)%nat; unfold draws_in_range, Qle, Qlt; simpl; lia.
Qed.

Lemma good_draw_in_range : draws_in_range good_draw.
Proof. unfold draws_in_range, Qle, Qlt; simpl; lia. Qed.

Lemma sample_data_is_valid_but_for_emails_witness :
  exists data : list Raw.Row,
    (generate_sample_data clock second_is_invalid 3 __init__).1 = Ok (Table data) /\
    Raw.order_id <$> data = ["ORD-1000"; "ORD-1001"; "ORD-1002"] /\
    Raw.customer_email <$> data =
      [Text "customer0@gmail.com"; Text "invalid-email-1"; Text "customer2@gmail.com"] /\
    NoDup (Raw.order_id <$> data).
Proof.
  destruct (sample_data_is_valid_but_for_emails clock second_is_invalid 3 __init__
              (fun i _ => second_is_invalid_everywhere_in_range i))
    as (data & Hrun & _ & Hlen & Hnd & _).
  exists data. destruct data as [|r data]; [discriminate|].
  split; [exact Hrun|].
  vm_compute in Hrun. injection Hrun as <- <-.
  split; [vm_compute; reflexivity|]. split; [vm_compute; reflexivity|exact Hnd].
Defined.

(** X15: Extract without an upload, then Transform.  On the 1000 sample
    records the validator can only ever find invalid emails: the run either
    stores a report whose single issue is the invalid emails, whose
    [error_records] is the number of email draws below 0.05, and in which a
    row is flagged [Invalid Email] exactly when its own draw was below 0.05;
    or, when no draw fell below 0.05, it raises IndexingError. *)
Theorem sample_run_reports_only_emails
    (now1 now2 : nat -> datetime) (draws : nat -> Draws) (self : ETLPipeline) :
  (forall i : nat, (i < 1000)%nat -> draws_in_range (draws i)) ->
  (invalid_email_draws draws 1000 = 0%nat /\
   (transform_data now2 (extract_data now1 draws None self).2).1 = Raise IndexingError) \/
  ((0 < invalid_email_draws draws 1000)%nat /\
   exists (df : DataFrame) (rep : Report),
     (transform_data now2 (extract_data now1 draws None self).2).1 = Ok (Some df) /\
     data_quality_report (transform_data now2 (extract_data now1 draws None self).2).2
       = Some rep /\
     total_records rep = 1000 /\
     error_records rep = Z.of_nat (invalid_email_draws draws 1000) /\
     quality_issues rep =
       ["Invalid emails: " +:+ pretty (invalid_email_draws draws 1000)] /\
     forall (i : nat) (r : Row),
       rows df !! i = Some r ->
       flag_at df i =
         if Qlt_bool (email_coin (draws i)) (5 # 100) then Some "Invalid Email" else None).
Proof.
  intros Hrange.
  destruct (extract_data_run now1 draws None self) as [entries ->]. cbn [snd].
  assert (Hlen : length (sample_table draws 1000) = 1000%nat)
    by (unfold sample_table; rewrite length_fmap, length_seq; reflexivity).
  assert (Htable : DataFrame_of_records (sample_table draws 1000)
                   = Table (sample_table draws 1000)).
  { destruct (sample_table draws 1000); [discriminate|reflexivity]. }
  assert (Htext : emails_are_text (sample_table draws 1000) = true).
  { change 1000%nat with (S 999). rewrite sample_table_succ.
    unfold emails_are_text. cbn [existsb sample_record Raw.customer_email is_text].
    apply orb_true_r. }
  rewrite Htable. set (raw := sample_table draws 1000) in *.
  match goal with
  | |- context [transform_data now2 ?s] =>
      destruct (transform_data_run now2 s raw eq_refl) as [entries2 ->]
  end.
  destruct (sample_table_counts draws 1000 Hrange) as (Hce & Hcp & Hcq & Hany).
  fold raw in Hce, Hcp, Hcq, Hany.
  pose proof (quality_summary_cases now2 raw) as Hcases.
  destruct (quality_summary now2 raw) as [rep|e] eqn:Hsum.
  - destruct Hcases as [_ Hpos].
    right. split; [lia|]. exists (frame_of now2 raw), rep.
    destruct (quality_summary_Ok now2 raw rep Hsum) as (Ht & _ & He & Hissues).
    split; [reflexivity|]. split; [reflexivity|]. split.
    { rewrite Ht, Hlen. reflexivity. }
    split; [rewrite He, Hany; reflexivity|]. split.
    + rewrite Hissues, validate_issues, Hce, Hcp, Hcq. unfold issue_entry.
      destruct (0 <? invalid_email_draws draws 1000)%nat eqn:Hk; [reflexivity|].
      apply Nat.ltb_ge in Hk. lia.
    + intros i r Hi. rewrite (flag_at_frame_of now2 raw i r Hi).
      apply rows_frame_of in Hi. unfold raw, sample_table in Hi.
      rewrite <- list_fmap_compose, list_lookup_fmap in Hi.
      destruct (seq 0 1000 !! i) as [j|] eqn:Hj; [|discriminate].
      apply lookup_seq in Hj as [-> Hlt]. simpl in Hi. injection Hi as Hi.
      destruct (sample_record_rules i (draws i) (Hrange i Hlt)) as (Re & Rp & Rq).
      unfold last_rule_wins. rewrite <- Hi, Re, Rp, Rq. reflexivity.
  - left. destruct Hcases as [[Hno _]|(_ & Hz & ->)]; [congruence|]. split; [lia|].
    destruct (decide (raw = [])) as [Hnil|_]; [|reflexivity].
    apply (f_equal length) in Hnil. rewrite Hlen in Hnil. discriminate.
Qed.

Lemma sample_run_reports_only_emails_witness :
  (exists (df : DataFrame) (rep : Report),
     (transform_data clock (extract_data clock second_is_invalid None __init__).2).1
       = Ok (Some df) /\
     data_quality_report
       (transform_data clock (extract_data clock second_is_invalid None __init__).2).2
       = Some rep /\
     total_records rep = 1000 /\ error_records rep = 1 /\
     quality_issues rep = ["Invalid emails: 1"]) /\
  (transform_data clock (extract_data clock (steady good_draw) None __init__).2).1
    = Raise IndexingError.
Proof.
  split.
  - destruct (sample_run_reports_only_emails clock clock second_is_invalid __init__
                (fun i _ => second_is_invalid_everywhere_in_range i))
      as [(Hz & _)|(_ & df & rep & Hrun & Hrep & Ht & He & Hq & _)].
    + vm_compute in Hz. discriminate.
    + exists df, rep. split; [exact Hrun|]. split; [exact Hrep|]. split; [exact Ht|].
      split; [rewrite He; vm_compute; reflexivity|].
      rewrite Hq. vm_compute. reflexivity.
  - destruct (sample_run_reports_only_emails clock clock (steady good_draw) __init__
                (fun _ _ => good_draw_in_range))
      as [(_ & Hrun)|(Hpos & _)].
    + exact Hrun.
    + vm_compute in Hpos. lia.
Defined.

(** ** The batches of the large data set *)

Lemma py_range_app (a c : Z) :
  0 <= a -> 0 <= c ->
  py_range (a + c) = py_range a ++ ((fun i => a + i) <$> py_range c).
Proof.
  intros Ha Hc. unfold py_range.
  rewrite Z2Nat.inj_add by lia. rewrite seq_app, fmap_app. f_equal.
  replace (0 + Z.to_nat a)%nat with (Z.to_nat a + 0)%nat by lia.
  rewrite <- (fmap_add_seq (Z.to_nat a) 0).
  rewrite <- !list_fmap_compose. apply list_fmap_ext. intros _ i _. simpl. lia.
Qed.

Lemma py_range_succ (k : nat) :
  py_range (Z.of_nat (S k)) = py_range (Z.of_nat k) ++ [Z.of_nat k].
Proof.
  unfold py_range. rewrite !Nat2Z.id, seq_S, fmap_app. reflexivity.
Qed.

(** The record ids of the first [k] batches are the ids below [k] batches'
    worth, cut off at [num_records]. *)
Lemma batch_ids_upto (num_records : Z) (k : nat) :
  Z.of_nat k <= Z.max 0 (total_batches num_records) ->
  concat
    ((fun batch_num =>
        (fun i => batch_num * batch_size + i)
          <$> py_range (batch_records num_records batch_num))
       <$> py_range (Z.of_nat k)) =
  py_range (Z.min num_records (Z.of_nat k * batch_size)).
Proof.
  unfold total_batches, batch_records, batch_size.
  induction k as [|k IH]; intros Hk.
  - simpl. unfold py_range.
    replace (Z.to_nat (Z.min num_records (Z.of_nat 0 * 10000))) with 0%nat by lia.
    reflexivity.
  - rewrite py_range_succ, fmap_app, concat_app, IH by lia. simpl. rewrite app_nil_r.
    assert (Hlt : Z.of_nat k * 10000 < num_records).
    { pose proof (Z.mul_div_le (num_records + 10000 - 1) 10000 ltac:(lia)). nia. }
    rewrite (Z.min_r num_records (Z.of_nat k * 10000)) by lia.
    rewrite <- py_range_app by lia. f_equal. lia.
Qed.

Lemma written_batches_concat (draws : Z -> LargeDraws) (num_records : Z) :
  concat (written_batches draws num_records) =
  (fun id => large_record id (draws id)) <$> py_range num_records.
Proof.
  unfold written_batches.
  transitivity
    ((fun id => large_record id (draws id)) <$>
       concat
         ((fun batch_num =>
             (fun i => batch_num * batch_size + i)
               <$> py_range (batch_records num_records batch_num))
            <$> py_range (total_batches num_records))).
  - generalize (py_range (total_batches num_records)). intros bs.
    induction bs as [|b bs IH]; [reflexivity|].
    rewrite !fmap_cons. cbn [concat]. rewrite fmap_app, <- IH, <- list_fmap_compose.
    reflexivity.
  - f_equal. unfold py_range at 2.
    pose proof (batch_ids_upto num_records (Z.to_nat (total_batches num_records))) as H.
    unfold py_range at 2 in H. rewrite Nat2Z.id in H. rewrite H by lia.
    unfold py_range, total_batches, batch_size. do 2 f_equal.
    pose proof (Z.mul_div_le (num_records + 10000 - 1) 10000 ltac:(lia)).
    pose proof (Z.mul_succ_div_gt (num_records + 10000 - 1) 10000 ltac:(lia)).
    lia.
Qed.

Lemma length_py_range (n : Z) : length (py_range n) = Z.to_nat n.
Proof. unfold py_range. rewrite length_fmap, length_seq. reflexivity. Qed.

Lemma elem_of_py_range (n i : Z) : i ∈ py_range n <-> 0 <= i < n.
Proof.
  unfold py_range. rewrite list_elem_of_fmap. setoid_rewrite elem_of_seq. split.
  - intros (k & -> & Hk). lia.
  - intros Hi. exists (Z.to_nat i). lia.
Qed.

Lemma NoDup_py_range (n : Z) : NoDup (py_range n).
Proof.
  unfold py_range. apply NoDup_fmap_2_strong; [|apply NoDup_seq].
  intros i j _ _ Heq. lia.
Qed.

Lemma total_batches_bounds (num_records : Z) :
  (total_batches num_records - 1) * batch_size < num_records <=
  total_batches num_records * batch_size.
Proof.
  unfold total_batches, batch_size.
  pose proof (Z.mul_div_le (num_records + 10000 - 1) 10000 ltac:(lia)).
  pose proof (Z.mul_succ_div_gt (num_records + 10000 - 1) 10000 ltac:(lia)).
  lia.
Qed.

(** X16: [generate_large_dataset] writes every record once and in order.
    Over all batches together the rows written are the records with the ids
    0, 1, ..., [num_records] - 1, so their order ids are ORD-10000,
    ORD-10001, ... without repeats; every batch holds between 1 and 10000
    rows; a [num_records] of zero or less writes nothing. *)
Theorem large_dataset_writes_every_record (draws : Z -> LargeDraws) (num_records : Z) :
  concat (written_batches draws num_records) =
    (fun id => large_record id (draws id)) <$> py_range num_records /\
  Raw.order_id <$> concat (written_batches draws num_records) =
    (fun id => "ORD-" +:+ pretty (10000 + id)) <$> py_range num_records /\
  NoDup (Raw.order_id <$> concat (written_batches draws num_records)) /\
  length (concat (written_batches draws num_records)) = Z.to_nat num_records /\
  Forall (fun batch : list Raw.Row => 1 <= Z.of_nat (length batch) <= 10000)
    (written_batches draws num_records).
Proof.
  rewrite written_batches_concat, <- list_fmap_compose.
  split; [reflexivity|]. split; [reflexivity|]. split; [|split].
  - apply NoDup_fmap_2_strong; [|apply NoDup_py_range].
    intros i j _ _ Heq. unfold compose in Heq. simpl in Heq.
    apply (inj (String.app "ORD-")) in Heq. apply (inj pretty) in Heq. lia.
  - rewrite length_fmap. apply length_py_range.
  - unfold written_batches. apply Forall_fmap, Forall_forall.
    intros b Hb%elem_of_py_range. unfold compose. cbn beta.
    rewrite length_fmap, length_py_range. unfold batch_records.
    pose proof (total_batches_bounds num_records) as Hbounds.
    unfold batch_size in *. lia.
Qed.

(** X17: the summary of [generate_large_dataset] reads the last batch
    only.  With a positive [num_records] it reads the last 1000 rows of the
    last batch, or the whole batch when that is shorter, so a sample of
    fewer than 1000 rows is possible however large the data set is; with a
    [num_records] of zero or less no batch was written, [batch_data] was
    never bound, and the summary raises (the [None] of the model). *)
Theorem large_dataset_summary_reads_last_batch (draws : Z -> LargeDraws) (num_records : Z) :
  (num_records <= 0 ->
   written_batches draws num_records = [] /\ summary_sample draws num_records = None) /\
  (0 < num_records ->
   exists sample : list Raw.Row,
     summary_sample draws num_records = Some sample /\
     sample `suffix_of` concat (written_batches draws num_records) /\
     length sample =
       Z.to_nat
         (Z.min 1000 (num_records - (total_batches num_records - 1) * batch_size))).
Proof.
  pose proof (total_batches_bounds num_records) as Hb. split.
  - intros Hn. unfold summary_sample, written_batches, py_range.
    replace (Z.to_nat (total_batches num_records)) with 0%nat
      by (unfold batch_size in Hb; lia).
    split; reflexivity.
  - intros Hn. unfold summary_sample, written_batches.
    replace (py_range (total_batches num_records))
      with (py_range (Z.of_nat (S (Z.to_nat (total_batches num_records - 1)))))
      by (f_equal; unfold batch_size in Hb; lia).
    rewrite py_range_succ, fmap_app.
    rewrite fmap_cons, fmap_nil, last_snoc. cbn [fmap option_fmap option_map].
    eexists. split; [reflexivity|]. split.
    + rewrite concat_app. cbn [concat]. rewrite app_nil_r.
      apply suffix_app_r. unfold last_1000. apply suffix_drop.
    + unfold last_1000. rewrite length_drop, length_fmap, length_py_range.
      unfold batch_records. unfold batch_size in *. lia.
Qed.

Lemma large_dataset_summary_reads_last_batch_witness :
  summary_sample (fun _ => mkLargeDraws 1000 0 "x@y.z" 0 50 1 1 0 1 (mkDate 2024 1 1) 0) 0
    = None /\
  exists sample : list Raw.Row,
    summary_sample (fun _ => mkLargeDraws 1000 0 "x@y.z" 0 50 1 1 0 1 (mkDate 2024 1 1) 0) 10001
      = Some sample /\
    length sample = 1%nat.
Proof.
  split.
  - apply (proj1 (large_dataset_summary_reads_last_batch _ 0)). lia.
  - destruct (proj2 (large_dataset_summary_reads_last_batch
                       (fun _ => mkLargeDraws 1000 0 "x@y.z" 0 50 1 1 0 1 (mkDate 2024 1 1) 0)
                       10001) ltac:(lia)) as (sample & Hs & _ & Hlen).
    exists sample. split; [exact Hs|]. rewrite Hlen. reflexivity.
Defined.

(** ** The records of the large data set *)

Lemma contains_at_pretty_Z (z : Z) : contains_at (pretty z) = false.
Proof.
  destruct z as [|p|p]; [reflexivity| |].
  - unfold pretty, pretty_Z, pretty, pretty_positive, pretty, pretty_N.
    destruct (decide (N.pos p = 0)%N); [reflexivity|]. apply contains_at_pretty_N_go.
  - unfold pretty, pretty_Z. rewrite contains_at_app. simpl.
    unfold pretty, pretty_positive, pretty, pretty_N.
    destruct (decide (N.pos p = 0)%N); [reflexivity|]. apply contains_at_pretty_N_go.
Qed.

Lemma price_range_bounds (pick : nat) :
  (pick < length large_categories)%nat ->
  5 <= (price_range (large_categories !!! pick)).1 /\
  (price_range (large_categories !!! pick)).2 <= 2000.
Proof.
  intros Hpick.
  do 12 (destruct pick as [|pick]; [vm_compute; split; discriminate|]).
  simpl in Hpick. lia.
Qed.

Lemma large_price_facts (d : LargeDraws) :
  large_draws_in_range d ->
  exists p : Q,
    round2 (Fin (large_price_draw d)) = Fin p /\ is_double p /\
    (inject_Z (price_range (large_categories !!! large_category_pick d)).1 <= p)%Q /\
    (p <= inject_Z (price_range (large_categories !!! large_category_pick d)).2)%Q /\
    (5 <= p)%Q /\ (p <= 2000)%Q.
Proof.
  intros (_ & Hpick & Hlo & Hhi & _).
  destruct (price_range_bounds _ Hpick) as [Hmin Hmax].
  assert (Hle : (inject_Z (price_range (large_categories !!! large_category_pick d)).1
                 <= inject_Z (price_range (large_categories !!! large_category_pick d)).2)%Q)
    by (eapply Qle_trans; eassumption).
  rewrite <- Zle_Qle in Hle.
  set (lo := (price_range (large_categories !!! large_category_pick d)).1) in *.
  set (hi := (price_range (large_categories !!! large_category_pick d)).2) in *.
  destruct (round2_bounds (large_price_draw d) lo hi) as (p & Hp & Hd & Hplo & Hphi);
    [apply small_integer; lia|apply small_integer; lia|exact Hlo|exact Hhi|].
  exists p. split; [exact Hp|]. split; [exact Hd|]. split; [exact Hplo|].
  split; [exact Hphi|]. split.
  - eapply Qle_trans; [|exact Hplo]. change 5%Q with (inject_Z 5).
    rewrite <- Zle_Qle. exact Hmin.
  - eapply Qle_trans; [exact Hphi|]. change 2000%Q with (inject_Z 2000).
    rewrite <- Zle_Qle. exact Hmax.
Qed.

Lemma large_discount_facts (d : LargeDraws) :
  large_draws_in_range d ->
  exists dp : Q,
    large_discount (large_quantity_draw d) d = Fin dp /\ is_double dp /\
    (0 <= dp)%Q /\ (dp <= 25)%Q /\
    (5 < large_quantity_draw d -> (10 <= dp)%Q) /\
    (3 < large_quantity_draw d <= 5 -> (5 <= dp)%Q /\ (dp <= 15)%Q) /\
    (large_quantity_draw d <= 3 -> (dp <= 10)%Q).
Proof.
  intros (_ & _ & _ & _ & Hq & Hd & _). unfold large_discount.
  destruct (Z.ltb_spec 5 (large_quantity_draw d)) as [H5|H5].
  - destruct Hd as [Hlo Hhi].
    destruct (round1_bounds (large_discount_draw d) 10 25) as (dp & -> & Hdd & Hdlo & Hdhi);
      [apply small_integer; lia|apply small_integer; lia|exact Hlo|exact Hhi|].
    exists dp. split; [reflexivity|]. split; [exact Hdd|].
    change (inject_Z 10) with 10%Q in Hdlo.
    change (inject_Z 25) with 25%Q in Hdhi. repeat split; try lra; lia.
  - destruct (Z.ltb_spec 3 (large_quantity_draw d)) as [H3|H3].
    + destruct Hd as [Hlo Hhi].
      destruct (round1_bounds (large_discount_draw d) 5 15) as (dp & -> & Hdd & Hdlo & Hdhi);
      [apply small_integer; lia|apply small_integer; lia|exact Hlo|exact Hhi|].
      exists dp. split; [reflexivity|]. split; [exact Hdd|].
      change (inject_Z 5) with 5%Q in Hdlo.
      change (inject_Z 15) with 15%Q in Hdhi. repeat split; try lra; lia.
    + destruct Hd as [Hlo Hhi].
      destruct (round1_bounds (large_discount_draw d) 0 10) as (dp & Hdp & Hdd & Hdlo & Hdhi);
      [apply small_integer; lia|apply small_integer; lia|exact Hlo|exact Hhi|].
      change (inject_Z 0) with 0%Q in Hdlo. change (inject_Z 10) with 10%Q in Hdhi.
      destruct (Qlt_bool (large_discount_coin d) (3 # 10)).
      * exists dp. split; [exact Hdp|]. split; [exact Hdd|]. repeat split; try lra; lia.
      * exists 0%Q. split; [reflexivity|]. split; [exact is_double_0|].
        repeat split; try lra; lia.
Qed.

Lemma Qabs_nonneg_eq (p : Q) : (0 <= p)%Q -> Qabs p = p.
Proof.
  destruct p as [n d]. unfold Qle. cbn [Qnum Qden]. intros Hn.
  unfold Qabs. f_equal. apply Z.abs_eq. lia.
Qed.

Lemma fabs_double (p : Q) : is_double p -> (0 <= p)%Q -> fabs (Fin p) = Fin p.
Proof.
  intros [Hred _] Hp. cbn [fabs]. rewrite (Qabs_nonneg_eq p Hp), Hred. reflexivity.
Qed.

Lemma fabs_fneg_double (p : Q) :
  is_double p -> (0 <= p)%Q -> fabs (fneg (fabs (Fin p))) = Fin p.
Proof.
  intros Hd Hp. rewrite (fabs_double p Hd Hp). cbn [fneg fabs].
  destruct Hd as [Hred _]. rewrite <- Hred at 2. f_equal. apply Qred_complete.
  rewrite Qred_correct, Qabs_opp. apply Qabs_pos, Hp.
Qed.

(** The price as the frame holds it, after [to_numeric]. *)
Lemma large_price_sign (p : Q) (negative : bool) :
  is_double p -> (5 <= p)%Q ->
  exists x : Q,
    to_double (if negative then fneg (fabs (Fin p)) else Fin p) = Fin x /\
    (Qabs x == p)%Q /\ fleb (Fin x) f0 = negative /\
    fabs (if negative then fneg (fabs (Fin p)) else Fin p) = Fin p.
Proof.
  intros Hd Hp. assert (H0 : (0 <= p)%Q) by lra. destruct negative.
  - rewrite (fabs_fneg_double p Hd H0), (fabs_double p Hd H0). cbn [fneg].
    exists (Qred (- p)). split; [apply to_double_double, is_double_opp, Hd|].
    split; [rewrite Qred_correct, Qabs_opp; apply Qabs_pos, H0|].
    split; [|reflexivity].
    cbn [fleb f0]. apply Qle_bool_iff. rewrite Qred_correct. lra.
  - rewrite (fabs_double p Hd H0). exists p.
    split; [apply to_double_double, Hd|]. split; [apply Qabs_pos, H0|].
    split; [|reflexivity]. apply (fleb_positive p 5); [lia|exact Hp].
Qed.

Lemma fdiv_100 (x : Q) : fdiv (Fin x) (of_Z 100) = b64 (x / inject_Z 100).
Proof. reflexivity. Qed.

Lemma large_total_facts (p dp : Q) (q : Z) :
  is_double p -> (5 <= p)%Q -> (p <= 2000)%Q -> 1 <= q <= 8 ->
  (0 <= dp)%Q -> (dp <= 25)%Q ->
  exists t : Q,
    round2
      (fsub (fmul (Fin p) (of_Z q))
         (fmul (fmul (Fin p) (of_Z q)) (fdiv (Fin dp) (of_Z 100)))) = Fin t /\
    is_double t /\ (0 <= t)%Q.
Proof.
  intros Hd Hp Hp' Hq Hdp Hdp'. rewrite fdiv_100. cbn [fmul of_Z].
  assert (HqQ : (0 <= inject_Z q)%Q /\ (inject_Z q <= 8)%Q).
  { change 0%Q with (inject_Z 0). change 8%Q with (inject_Z 8).
    rewrite <- !Zle_Qle. lia. }
  destruct (b64_between (p * inject_Z q) 0 16000) as (s & Hs & Hsd & Hs0 & Hs1).
  - apply small_integer. lia.
  - apply small_integer. lia.
  - change (inject_Z 0) with 0%Q. apply Qmult_le_0_compat; lra.
  - change (inject_Z 16000) with (2000 * 8)%Q.
    apply Qmult_le_compat_nonneg; split; lra.
  - rewrite Hs. change (inject_Z 0) with 0%Q in Hs0.
    destruct (b64_between (dp / inject_Z 100) 0 1) as (f & Hf & _ & Hf0 & Hf1).
    + apply small_integer. lia.
    + apply small_integer. lia.
    + apply Qle_shift_div_l; [reflexivity|]. change (inject_Z 0) with 0%Q. lra.
    + apply Qle_shift_div_r; [reflexivity|].
      change (inject_Z 1) with 1%Q. change (inject_Z 100) with 100%Q. lra.
    + rewrite Hf. change (inject_Z 0) with 0%Q in Hf0. change (inject_Z 1) with 1%Q in Hf1.
      destruct (fmul_fraction s f Hsd Hs0 Hf0 Hf1) as (a & Ha & _ & Ha0 & Ha1).
      rewrite Ha.
      destruct (fsub_nonneg s a Hsd Ha0 Ha1) as (x & Hx & _ & Hx0 & Hx1).
      rewrite Hx.
      destruct (round2_bounds x 0 16000) as (t & Ht & Htd & Ht0 & _).
      * apply small_integer. lia.
      * apply small_integer. lia.
      * exact Hx0.
      * eapply Qle_trans; eassumption.
      * exists t. split; [exact Ht|]. split; [exact Htd|exact Ht0].
Qed.

(** X18: a record of the large data set breaks the price rule exactly when
    its price was made negative, and never the quantity rule.  With draws
    within the bounds of their calls, the magnitude of the price lies in the
    range of the record's category, the price is at or below zero exactly
    when the 2% draw fell below 0.02, the quantity is at least 1, the
    discount follows the quantity (10 to 25 above 5 units, 5 to 15 for 4 or
    5, at most 10 otherwise), [total_amount] is never negative even when the
    price is, and an email draw below 0.05 gives an email without at-sign. *)
Theorem large_record_rules (record_id : Z) (d : LargeDraws) :
  large_draws_in_range d ->
  price_invalid (convert_types (large_record record_id d)) =
    Qlt_bool (negative_coin d) (2 # 100) /\
  quantity_invalid (convert_types (large_record record_id d)) = false /\
  email_invalid (convert_types (large_record record_id d)) =
    (Qlt_bool (large_email_coin d) (5 # 100) || negb (contains_at (fake_email d))) /\
  (exists p : Q,
     price (convert_types (large_record record_id d)) = Fin p /\
     (inject_Z (price_range (large_categories !!! large_category_pick d)).1 <= Qabs p)%Q /\
     (Qabs p <= inject_Z (price_range (large_categories !!! large_category_pick d)).2)%Q) /\
  (exists dp : Q,
     Raw.discount_percent (large_record record_id d) = Number (Fin dp) /\
     (0 <= dp)%Q /\ (dp <= 25)%Q /\
     (5 < large_quantity_draw d -> (10 <= dp)%Q) /\
     (3 < large_quantity_draw d <= 5 -> (5 <= dp)%Q /\ (dp <= 15)%Q) /\
     (large_quantity_draw d <= 3 -> (dp <= 10)%Q)) /\
  (exists t : Q,
     total_amount (convert_types (large_record record_id d)) = Fin t /\ (0 <= t)%Q).
Proof.
  intros Hrange.
  destruct (large_price_facts d Hrange) as (p & Hp & Hpd & Hplo & Hphi & Hp5 & Hp2000).
  destruct (large_discount_facts d Hrange) as (dp & Hdp & Hdd & Hd0 & Hd25 & Hdtiers).
  pose proof Hrange as (_ & _ & _ & _ & Hq & _).
  destruct (large_price_sign p (Qlt_bool (negative_coin d) (2 # 100)) Hpd Hp5)
    as (x & Hx & Hxabs & Hxsign & Hxfabs).
  destruct (large_total_facts p dp (large_quantity_draw d) Hpd Hp5 Hp2000 Hq Hd0 Hd25)
    as (t & Ht & Htd & Ht0).
  unfold price_invalid, quantity_invalid, email_invalid, convert_types, large_record.
  cbn [customer_email price quantity total_amount Raw.customer_email Raw.price
       Raw.quantity Raw.total_amount Raw.discount_percent to_numeric str_contains_at].
  rewrite Hp, Hdp, Hxfabs, Hx, Ht.
  split; [exact Hxsign|]. split; [|split; [|split; [|split]]].
  - unfold of_Z, to_double. rewrite b64_of_Z by (apply small_integer; lia).
    apply (fleb_positive _ 1); [lia|]. rewrite <- Zle_Qle. lia.
  - destruct (Qlt_bool (large_email_coin d) (5 # 100)); simpl; [|reflexivity].
    rewrite contains_at_app, contains_at_pretty_Z. reflexivity.
  - exists x. split; [reflexivity|]. rewrite Hxabs. split; assumption.
  - exists dp. split; [reflexivity|]. split; [exact Hd0|]. split; [exact Hd25|exact Hdtiers].
  - exists t. split; [apply to_double_double, Htd|exact Ht0].
Qed.

Lemma large_record_rules_witness :
  Raw.price (large_record 0 negative_price_draws) = Number (Fin (-20)) /\
  Raw.total_amount (large_record 0 negative_price_draws) = Number (Fin 112) /\
  price_invalid (convert_types (large_record 0 negative_price_draws)) = true /\
  quantity_invalid (convert_types (large_record 0 negative_price_draws)) = false.
Proof.
  split; [vm_compute; reflexivity|]. split; [vm_compute; reflexivity|].
  assert (Hrange : large_draws_in_range negative_price_draws).
  { unfold large_draws_in_range.
    replace (price_range (large_categories !!! large_category_pick negative_price_draws))
      with (5, 100) by (vm_compute; reflexivity).
    unfold Qle. simpl. lia. }
  destruct (large_record_rules 0 negative_price_draws Hrange) as (Hp & Hq & _).
  split; [rewrite Hp; reflexivity|exact Hq].
Defined.

(** ** Sums over a whole column *)

(** The recursion of numpy's pairwise sum halves the list, so a fuel of
    the length of the list is never used up: every larger fuel gives the
    same sum. *)
Lemma pairwise_sum_fuel (fuel : nat) :
  forall (a : list float64) (fuel' : nat),
    (length a <= fuel + 128)%nat -> (fuel <= fuel')%nat ->
    pairwise_sum fuel' a = pairwise_sum fuel a.
Proof.
  induction fuel as [|fuel IH]; intros a fuel' Hlen Hfuel.
  - destruct fuel' as [|fuel']; [reflexivity|]. cbn [pairwise_sum].
    destruct (length a <? 8)%nat; [reflexivity|].
    destruct (Nat.leb_spec (length a) 128) as [_|Hgt]; [reflexivity|lia].
  - destruct fuel' as [|fuel']; [lia|]. cbn [pairwise_sum].
    destruct (length a <? 8)%nat; [reflexivity|].
    destruct (Nat.leb_spec (length a) 128) as [_|Hgt]; [reflexivity|].
    pose proof (Nat.div_mod_eq (length a) 2) as Hhalf.
    pose proof (Nat.mod_upper_bound (length a) 2 ltac:(lia)) as Hrem.
    pose proof (Nat.mod_upper_bound (length a / 2) 8 ltac:(lia)) as Hrem8.
    set (n2 := (length a / 2 - (length a / 2) mod 8)%nat) in *.
    rewrite (IH (take n2 a) fuel'), (IH (drop n2 a) fuel'); [reflexivity| | | |].
    + rewrite length_drop. lia.
    + lia.
    + rewrite length_take. lia.
    + lia.
Qed.

Lemma nansum_fuel (vs : list float64) (fuel : nat) :
  (length vs <= fuel)%nat -> pairwise_sum fuel (fillna0 <$> vs) = nansum vs.
Proof.
  intros Hfuel. unfold nansum.
  rewrite (pairwise_sum_fuel (length vs) (fillna0 <$> vs) fuel);
    [reflexivity|rewrite length_fmap; lia|exact Hfuel].
Qed.

(** ** Upload, Transform, Load and Analyze in a row *)

(** X19: the analysis does not leave flagged rows out.  After an upload
    that parses, a Transform that returns and a Load and Analyze that
    returns, [total_orders] is the number of rows of the uploaded table and
    equals [total_records] of the report, although the report counts at
    least one of these rows as an error, and [total_revenue] is the sum of
    the coerced [total_amount] of all rows of the upload, flagged or not. *)
Theorem analysis_includes_flagged_rows
    (now1 now2 now3 : nat -> datetime) (draws : nat -> Draws) (table : list Raw.Row)
    (self s1 s2 s3 : ETLPipeline) (out : option RawFrame) (df : DataFrame)
    (ins : Insights) :
  extract_data now1 draws (Some (inl table)) self = (Ok out, s1) ->
  transform_data now2 s1 = (Ok (Some df), s2) ->
  load_and_analyze now3 s2 = (Ok (Some ins), s3) ->
  total_orders ins = Z.of_nat (length table) /\
  total_revenue ins =
    nansum ((fun r0 : Raw.Row => to_numeric (Raw.total_amount r0)) <$> table) /\
  exists rep : Report,
    data_quality_report s3 = Some rep /\
    total_records rep = total_orders ins /\
    1 <= error_records rep.
Proof.
  intros Hextract Htransform Hload.
  destruct (extract_data_run now1 draws (Some (inl table)) self) as [e1 Heq1].
  rewrite Heq1 in Hextract. injection Hextract as _ <-.
  destruct (transform_data_returns now2 _ s2 df Htransform)
    as (raw & rep & Hraw & -> & Hsum & _ & Hpd & Hrep).
  simpl in Hraw. injection Hraw as <-.
  destruct (load_and_analyze_run now3 s2 (frame_of now2 table) Hpd) as [e3 Heq3].
  rewrite Heq3 in Hload. unfold insights_of in Hload.
  destruct (idxmax (revenue_by category (frame_of now2 table))) as [top|e]; [|discriminate].
  destruct (idxmax (revenue_by region (frame_of now2 table))) as [best|e]; [|discriminate].
  injection Hload as <- <-. cbn [total_orders total_revenue data_quality_report].
  destruct (quality_summary_Ok now2 table rep Hsum) as (Ht & _ & He & _).
  pose proof (quality_summary_cases now2 table) as Hcases. rewrite Hsum in Hcases.
  destruct Hcases as [_ Hpos].
  unfold frame_of, enrich. cbn [rows]. rewrite !length_fmap, <- !list_fmap_compose.
  split; [reflexivity|]. split; [reflexivity|].
  exists rep. split; [exact Hrep|]. split; [exact Ht|]. lia.
Qed.

Lemma analysis_includes_flagged_rows_witness :
  exists ins : Insights,
    (load_and_analyze clock
       (transform_data clock
          (extract_data clock (steady good_draw) (Some (inl tie_in_revenue)) __init__).2).2).1
      = Ok (Some ins) /\
    total_orders ins = 3 /\ total_revenue ins = Fin 60.
Proof.
  eexists. split; [vm_compute; reflexivity|].
  destruct (analysis_includes_flagged_rows clock clock clock (steady good_draw) tie_in_revenue
              __init__ _ _ _ _ _ _
              ltac:(vm_compute; reflexivity) ltac:(vm_compute; reflexivity)
              ltac:(vm_compute; reflexivity)) as (Ho & Hr & _).
  split; [exact Ho|]. rewrite Hr. vm_compute. reflexivity.
Defined.
